(** * Deep Tree Echo: wake/rest controller, interest tracker, wisdom
      metrics and orchestrator

    A shallow embedding of the Python modules under [core/]:
    - [autonomous_wake_rest_controller.py]  -> [Module WakeRest]
    - [wisdom_metrics.py]                   -> [Module Wisdom]
    - [echo_interest.py]                    -> [Module Interest]
    - [unified_orchestrator.py]             -> [Module Orchestrator]

    Python floats are idealised as exact numbers: rationals ([Q]) in the
    modules that only add, multiply, divide and compare them, and reals
    ([R]) in the interest tracker, which calls [math.exp] and [**].
    Every [time.time()] call site is an explicit argument of the function
    that contains it. *)

From Stdlib Require Import String Ascii.
From Stdlib Require Import QArith Qminmax Qabs Bool Lia Psatz ZArith.
From Stdlib Require Import DecimalString Reals List.
Import ListNotations.

(** ** Shared helpers *)

(** Python [l[-n:]] for [n > 0]: the last [n] elements, or all of them. *)
Definition lastn {A : Type} (n : nat) (l : list A) : list A :=
  skipn (length l - n) l.

Module QOps.
Open Scope Q_scope.

(** Python [x >= y], [x < y], [x > y] on floats. *)
Definition geb (x y : Q) : bool := Qle_bool y x.
Definition ltb (x y : Q) : bool := negb (Qle_bool y x).
Definition gtb (x y : Q) : bool := negb (Qle_bool x y).

(** Python [sum(l)]. *)
Definition Qsum (l : list Q) : Q := fold_left Qplus l 0.

(** Python [len(l)] and [max(1, len(l))] as floats. *)
Definition Qlen {A : Type} (l : list A) : Q := inject_Z (Z.of_nat (length l)).
Definition Qlen1 {A : Type} (l : list A) : Q :=
  inject_Z (Z.of_nat (Nat.max 1 (length l))).
End QOps.

(** ** autonomous_wake_rest_controller.py *)

Module WakeRest.
Import QOps.
Open Scope Q_scope.

Inductive ConsciousnessState : Type :=
| AWAKE | DROWSY | RESTING | DEEP_REST | WAKING.

Definition ConsciousnessState_eqb (a b : ConsciousnessState) : bool :=
  match a, b with
  | AWAKE, AWAKE | DROWSY, DROWSY | RESTING, RESTING
  | DEEP_REST, DEEP_REST | WAKING, WAKING => true
  | _, _ => false
  end.

(** Attributes assigned once in [__init__] and never reassigned. *)
Definition fatigue_accumulation_rate : Q := 0.01.
Definition fatigue_recovery_rate : Q := 0.05.
Definition consolidation_threshold : Q := 0.7.
Definition drowsy_threshold : Q := 0.6.
Definition rest_threshold : Q := 0.75.
Definition wake_threshold : Q := 0.2.

(** The mutable attributes of [AutonomousWakeRestController].
    [transition_log] stands for the line printed by
    [_transition_to_state]: one [(old, new)] pair per transition,
    newest first. *)
Record AutonomousWakeRestController : Type := mkController {
  state : ConsciousnessState;
  state_entered_time : Q;
  cognitive_fatigue : Q;
  consolidation_pressure : Q;
  activity_duration : Q;
  rest_duration : Q;
  total_cycles : nat;
  optimal_activity_duration : Q;
  optimal_rest_duration : Q;
  recent_processing_quality : list Q;
  recent_coherence_levels : list Q;
  transition_log : list (ConsciousnessState * ConsciousnessState)
}.

(** [__init__], at clock reading [now]. *)
Definition init (now : Q) : AutonomousWakeRestController :=
  {| state := AWAKE;
     state_entered_time := now;
     cognitive_fatigue := 0;
     consolidation_pressure := 0;
     activity_duration := 0;
     rest_duration := 0;
     total_cycles := 0;
     optimal_activity_duration := 3600;
     optimal_rest_duration := 600;
     recent_processing_quality := [];
     recent_coherence_levels := [];
     transition_log := [] |}.

Definition _update_awake_state (now : Q) (processing_quality coherence_level : Q)
    (new_memories : Z) (c : AutonomousWakeRestController)
  : AutonomousWakeRestController :=
  let time_in_state := now - state_entered_time c in
  let minutes_active := time_in_state / 60 in
  let f1 := cognitive_fatigue c + fatigue_accumulation_rate * minutes_active in
  let quality_factor := 1 - processing_quality in
  let f2 := f1 + quality_factor * 0.005 * minutes_active in
  let coherence_factor := 1 - coherence_level in
  let f3 := f2 + coherence_factor * 0.005 * minutes_active in
  let f4 := Qmin 1 f3 in
  let p1 := consolidation_pressure c + inject_Z new_memories * 0.01 in
  let p2 := Qmin 1 p1 in
  {| state := state c;
     state_entered_time := state_entered_time c;
     cognitive_fatigue := f4;
     consolidation_pressure := p2;
     activity_duration := time_in_state;
     rest_duration := rest_duration c;
     total_cycles := total_cycles c;
     optimal_activity_duration := optimal_activity_duration c;
     optimal_rest_duration := optimal_rest_duration c;
     recent_processing_quality := recent_processing_quality c;
     recent_coherence_levels := recent_coherence_levels c;
     transition_log := transition_log c |}.

Definition _update_resting_state (now : Q) (consolidation_occurred : bool)
    (c : AutonomousWakeRestController) : AutonomousWakeRestController :=
  let time_in_state := now - state_entered_time c in
  let minutes_resting := time_in_state / 60 in
  let f1 := cognitive_fatigue c - fatigue_recovery_rate * minutes_resting in
  let f2 := Qmax 0 f1 in
  let p := if consolidation_occurred
           then consolidation_pressure c * 0.5
           else consolidation_pressure c in
  {| state := state c;
     state_entered_time := state_entered_time c;
     cognitive_fatigue := f2;
     consolidation_pressure := p;
     activity_duration := activity_duration c;
     rest_duration := time_in_state;
     total_cycles := total_cycles c;
     optimal_activity_duration := optimal_activity_duration c;
     optimal_rest_duration := optimal_rest_duration c;
     recent_processing_quality := recent_processing_quality c;
     recent_coherence_levels := recent_coherence_levels c;
     transition_log := transition_log c |}.

Definition _check_state_transitions (now : Q) (c : AutonomousWakeRestController)
  : ConsciousnessState :=
  let time_in_state := now - state_entered_time c in
  match state c with
  | AWAKE =>
      if geb (cognitive_fatigue c) drowsy_threshold then DROWSY
      else if geb (consolidation_pressure c) consolidation_threshold then DROWSY
      else state c
  | DROWSY =>
      if geb (cognitive_fatigue c) rest_threshold then RESTING
      else if geb (consolidation_pressure c) consolidation_threshold then RESTING
      else if ltb (cognitive_fatigue c) (drowsy_threshold * 0.8) then AWAKE
      else state c
  | RESTING =>
      if gtb time_in_state 120 then DEEP_REST
      else if ltb (cognitive_fatigue c) wake_threshold
              && ltb (consolidation_pressure c) 0.3 then WAKING
      else state c
  | DEEP_REST =>
      if ltb (cognitive_fatigue c) wake_threshold
         && ltb (consolidation_pressure c) 0.2 then WAKING
      else if gtb time_in_state (optimal_rest_duration c)
              && ltb (cognitive_fatigue c) 0.3 then WAKING
      else state c
  | WAKING =>
      if gtb time_in_state 10 then AWAKE else state c
  end.

Definition _update_optimal_durations (c : AutonomousWakeRestController)
  : AutonomousWakeRestController :=
  let alpha := 0.1 in
  let avg_quality :=
    Qsum (recent_processing_quality c) / Qlen1 (recent_processing_quality c) in
  let '(oa, orr) :=
    if gtb avg_quality 0.7
    then ((1 - alpha) * optimal_activity_duration c + alpha * activity_duration c,
          (1 - alpha) * optimal_rest_duration c + alpha * rest_duration c)
    else (optimal_activity_duration c * 0.95, optimal_rest_duration c * 1.05) in
  {| state := state c;
     state_entered_time := state_entered_time c;
     cognitive_fatigue := cognitive_fatigue c;
     consolidation_pressure := consolidation_pressure c;
     activity_duration := activity_duration c;
     rest_duration := rest_duration c;
     total_cycles := total_cycles c;
     optimal_activity_duration := oa;
     optimal_rest_duration := orr;
     recent_processing_quality := recent_processing_quality c;
     recent_coherence_levels := recent_coherence_levels c;
     transition_log := transition_log c |}.

Definition _transition_to_state (now : Q) (new_state : ConsciousnessState)
    (c : AutonomousWakeRestController) : AutonomousWakeRestController :=
  let old_state := state c in
  let c1 :=
    {| state := new_state;
       state_entered_time := now;
       cognitive_fatigue := cognitive_fatigue c;
       consolidation_pressure := consolidation_pressure c;
       activity_duration := activity_duration c;
       rest_duration := rest_duration c;
       total_cycles := total_cycles c;
       optimal_activity_duration := optimal_activity_duration c;
       optimal_rest_duration := optimal_rest_duration c;
       recent_processing_quality := recent_processing_quality c;
       recent_coherence_levels := recent_coherence_levels c;
       transition_log := (old_state, new_state) :: transition_log c |} in
  match new_state with
  | WAKING =>
      _update_optimal_durations
        {| state := state c1;
           state_entered_time := state_entered_time c1;
           cognitive_fatigue := cognitive_fatigue c1;
           consolidation_pressure := consolidation_pressure c1;
           activity_duration := activity_duration c1;
           rest_duration := rest_duration c1;
           total_cycles := S (total_cycles c1);
           optimal_activity_duration := optimal_activity_duration c1;
           optimal_rest_duration := optimal_rest_duration c1;
           recent_processing_quality := recent_processing_quality c1;
           recent_coherence_levels := recent_coherence_levels c1;
           transition_log := transition_log c1 |}
  | _ => c1
  end.

(** The clock readings taken during one [update]: in the metrics step
    ([_update_awake_state] or [_update_resting_state]), in
    [_check_state_transitions] and in [_transition_to_state]. *)
Record Readings : Type := mkReadings {
  at_metrics : Q;
  at_check : Q;
  at_transition : Q
}.

Definition track_quality (processing_quality coherence_level : Q)
    (c : AutonomousWakeRestController) : AutonomousWakeRestController :=
  let pq := recent_processing_quality c ++ [processing_quality] in
  let cl := recent_coherence_levels c ++ [coherence_level] in
  let pq := if (20 <? length pq)%nat then lastn 20 pq else pq in
  let cl := if (20 <? length cl)%nat then lastn 20 cl else cl in
  {| state := state c;
     state_entered_time := state_entered_time c;
     cognitive_fatigue := cognitive_fatigue c;
     consolidation_pressure := consolidation_pressure c;
     activity_duration := activity_duration c;
     rest_duration := rest_duration c;
     total_cycles := total_cycles c;
     optimal_activity_duration := optimal_activity_duration c;
     optimal_rest_duration := optimal_rest_duration c;
     recent_processing_quality := pq;
     recent_coherence_levels := cl;
     transition_log := transition_log c |}.

(** The metrics step of [update]: fatigue and pressure accumulate while
    AWAKE or DROWSY, recover while RESTING or DEEP_REST, and are left
    alone while WAKING. *)
Definition update_metrics (now : Q) (processing_quality coherence_level : Q)
    (new_memories : Z) (consolidation_occurred : bool)
    (c : AutonomousWakeRestController) : AutonomousWakeRestController :=
  match state c with
  | AWAKE | DROWSY =>
      _update_awake_state now processing_quality coherence_level new_memories c
  | RESTING | DEEP_REST =>
      _update_resting_state now consolidation_occurred c
  | WAKING => c
  end.

(** [update]; the returned state is the [state] field of the result. *)
Definition update (t : Readings) (processing_quality coherence_level : Q)
    (new_memories : Z) (consolidation_occurred : bool)
    (c : AutonomousWakeRestController) : AutonomousWakeRestController :=
  let c1 := track_quality processing_quality coherence_level c in
  let c2 := update_metrics (at_metrics t) processing_quality coherence_level
              new_memories consolidation_occurred c1 in
  let new_state := _check_state_transitions (at_check t) c2 in
  if negb (ConsciousnessState_eqb new_state (state c2))
  then _transition_to_state (at_transition t) new_state c2
  else c2.

Definition should_rest_now (c : AutonomousWakeRestController) : bool :=
  geb (cognitive_fatigue c) rest_threshold
  || geb (consolidation_pressure c) consolidation_threshold.

Definition should_wake_now (c : AutonomousWakeRestController) : bool :=
  match state c with
  | RESTING | DEEP_REST =>
      ltb (cognitive_fatigue c) wake_threshold
      && ltb (consolidation_pressure c) 0.3
  | _ => false
  end.

Definition force_rest (now : Q) (c : AutonomousWakeRestController)
  : AutonomousWakeRestController :=
  _transition_to_state now RESTING c.

Definition force_wake (now : Q) (c : AutonomousWakeRestController)
  : AutonomousWakeRestController :=
  let c1 := _transition_to_state now AWAKE c in
  {| state := state c1;
     state_entered_time := state_entered_time c1;
     cognitive_fatigue := 0;
     consolidation_pressure := 0;
     activity_duration := activity_duration c1;
     rest_duration := rest_duration c1;
     total_cycles := total_cycles c1;
     optimal_activity_duration := optimal_activity_duration c1;
     optimal_rest_duration := optimal_rest_duration c1;
     recent_processing_quality := recent_processing_quality c1;
     recent_coherence_levels := recent_coherence_levels c1;
     transition_log := transition_log c1 |}.

(** Both pressure scalars lie in their declared range. *)
Definition in_range (c : AutonomousWakeRestController) : Prop :=
  0 <= cognitive_fatigue c <= 1 /\ 0 <= consolidation_pressure c <= 1.

(** The controllers a program can hold: built by [__init__] and driven
    by [update], [force_rest] and [force_wake] under a clock that never
    runs backwards and with inputs in their documented ranges.  The
    index is the latest clock reading consumed. *)
Inductive reachable : Q -> AutonomousWakeRestController -> Prop :=
| reach_init now : reachable now (init now)
| reach_update last t pq cl nm co c :
    reachable last c ->
    last <= at_metrics t -> at_metrics t <= at_check t ->
    at_check t <= at_transition t ->
    0 <= pq <= 1 -> 0 <= cl <= 1 -> (0 <= nm)%Z ->
    reachable (at_transition t) (update t pq cl nm co c)
| reach_force_rest last now c :
    reachable last c -> last <= now -> reachable now (force_rest now c)
| reach_force_wake last now c :
    reachable last c -> last <= now -> reachable now (force_wake now c).

(** A drowsy controller whose fatigue has passed the rest threshold. *)
Definition drowsy_and_tired : AutonomousWakeRestController :=
  {| state := DROWSY;
     state_entered_time := 0;
     cognitive_fatigue := 0.8;
     consolidation_pressure := 0;
     activity_duration := 0;
     rest_duration := 0;
     total_cycles := 0;
     optimal_activity_duration := 3600;
     optimal_rest_duration := 600;
     recent_processing_quality := [];
     recent_coherence_levels := [];
     transition_log := [] |}.

End WakeRest.


(** ** Python dicts as insertion-ordered association lists *)

Section Dict.
Context {K V : Type} (eqb : K -> K -> bool).

(** [d.get(k)] / [k in d]. *)
Fixpoint dict_get (d : list (K * V)) (k : K) : option V :=
  match d with
  | [] => None
  | (k', v) :: r => if eqb k' k then Some v else dict_get r k
  end.

Definition dict_mem (d : list (K * V)) (k : K) : bool :=
  match dict_get d k with Some _ => true | None => false end.

(** [d[k] = v]: an existing key keeps its position, a new key goes last. *)
Fixpoint dict_set (d : list (K * V)) (k : K) (v : V) : list (K * V) :=
  match d with
  | [] => [(k, v)]
  | (k', v') :: r =>
      if eqb k' k then (k', v) :: r else (k', v') :: dict_set r k v
  end.

(** [del d[k]]. *)
Fixpoint dict_del (d : list (K * V)) (k : K) : list (K * V) :=
  match d with
  | [] => []
  | (k', v') :: r => if eqb k' k then r else (k', v') :: dict_del r k
  end.
End Dict.

(** ** wisdom_metrics.py *)

Module Wisdom.
Import QOps.
Open Scope Q_scope.

Record WisdomInsight : Type := mkInsight {
  i_id : string;
  content : string;
  timestamp : Q;
  depth_score : Q;
  breadth_score : Q;
  applicability_score : Q;
  coherence_contribution : Q;
  source_experiences : list string;
  related_domains : list string;
  confidence : Q
}.

Record BeliefUpdate : Type := mkBeliefUpdate {
  u_id : string;
  u_timestamp : Q;
  prior_belief : string;
  updated_belief : string;
  evidence : string;
  confidence_change : Q;
  coherence_impact : Q
}.

(** The dictionary returned by [calculate_composite_wisdom_score]. *)
Record Scores : Type := mkScores {
  depth : Q;
  breadth : Q;
  applicability : Q;
  coherence : Q;
  adaptability : Q;
  composite_wisdom : Q
}.

Definition pair_eqb (a b : string * string) : bool :=
  String.eqb (fst a) (fst b) && String.eqb (snd a) (snd b).

Record WisdomMetrics : Type := mkMetrics {
  insights : list WisdomInsight;
  belief_updates : list BeliefUpdate;
  domain_knowledge : list (string * Q);
  domain_connections : list ((string * string) * nat);
  worldview_coherence_history : list (Q * Q);
  current_coherence : Q;
  belief_revision_count : nat;
  evidence_integration_score : Q;
  wisdom_history : list (Q * Scores)
}.

(** [__init__] *)
Definition init : WisdomMetrics :=
  {| insights := [];
     belief_updates := [];
     domain_knowledge := [];
     domain_connections := [];
     worldview_coherence_history := [];
     current_coherence := 0.5;
     belief_revision_count := 0;
     evidence_integration_score := 0.5;
     wisdom_history := [] |}.

(** [max(0.0, min(1.0, x))] *)
Definition clamp01 (x : Q) : Q := Qmax 0 (Qmin 1 x).

(** [self.domain_knowledge[domain] += amount] on a [defaultdict(float)]. *)
Definition knowledge_add (dk : list (string * Q)) (domain : string) (amount : Q)
  : list (string * Q) :=
  dict_set String.eqb dk domain
    (match dict_get String.eqb dk domain with Some v => v | None => 0 end + amount).

(** [tuple(sorted([domain1, domain2]))] *)
Definition sorted_pair (domain1 domain2 : string) : string * string :=
  if String.leb domain1 domain2 then (domain1, domain2) else (domain2, domain1).

(** [self.domain_connections[key] += 1] on a [defaultdict(int)]. *)
Definition connection_incr (dc : list ((string * string) * nat))
    (key : string * string) : list ((string * string) * nat) :=
  dict_set pair_eqb dc key
    (match dict_get pair_eqb dc key with Some n => n | None => O end + 1)%nat.

(** The double loop over [enumerate(insight.related_domains)] and
    [insight.related_domains[i+1:]]. *)
Fixpoint connect_domains (dc : list ((string * string) * nat))
    (domains : list string) : list ((string * string) * nat) :=
  match domains with
  | [] => dc
  | domain1 :: rest =>
      connect_domains
        (fold_left (fun acc domain2 => connection_incr acc (sorted_pair domain1 domain2))
                   rest dc)
        rest
  end.

(** ** The five dimension scores *)

Definition avg_of (f : WisdomInsight -> Q) (l : list WisdomInsight) : Q :=
  Qsum (map f l) / Qlen l.

Definition calculate_depth_score (m : WisdomMetrics) : Q :=
  match insights m with
  | [] => 0
  | _ =>
      let recent_insights := lastn 20 (insights m) in
      let avg_depth := avg_of depth_score recent_insights in
      let depth_trend :=
        if (10 <? length (insights m))%nat
        then
          let early_avg := Qsum (map depth_score (firstn 10 (insights m))) / 10 in
          (avg_depth - early_avg) * 0.5
        else 0 in
      let fundamental_count :=
        Qlen (filter (fun i => gtb (depth_score i) 0.8) (insights m)) in
      let fundamental_bonus := Qmin 0.2 (fundamental_count * 0.02) in
      Qmin 1 (avg_depth + depth_trend + fundamental_bonus)
  end.

(** Python [max(l)] on a non-empty list. *)
Definition Qmaximum (l : list Q) : Q :=
  match l with
  | [] => 0
  | x :: r => fold_left Qmax r x
  end.

Definition calculate_breadth_score (m : WisdomMetrics) : Q :=
  match domain_knowledge m with
  | [] => 0
  | _ =>
      let values := map snd (domain_knowledge m) in
      let meaningful_domains := Qlen (filter (fun k => gtb k 0.1) values) in
      let domain_diversity := Qmin 1 (meaningful_domains / 10) in
      let connection_count := Qlen (domain_connections m) in
      let connection_score := Qmin 1 (connection_count / 20) in
      let total_knowledge := Qsum values in
      let distribution_score :=
        if gtb total_knowledge 0
        then
          let distribution_scores := map (fun k => k / total_knowledge) values in
          let concentration := Qmaximum distribution_scores in
          1 - concentration * 0.5
        else 0 in
      domain_diversity * 0.4 + connection_score * 0.4 + distribution_score * 0.2
  end.

Definition calculate_applicability_score (m : WisdomMetrics) : Q :=
  match insights m with
  | [] => 0
  | _ =>
      let recent_insights := lastn 20 (insights m) in
      let avg_applicability := avg_of applicability_score recent_insights in
      let high_applicability_count :=
        Qlen (filter (fun i => gtb (applicability_score i) 0.7) (insights m)) in
      let high_ratio := high_applicability_count / Qlen (insights m) in
      avg_applicability * 0.7 + high_ratio * 0.3
  end.

Definition calculate_coherence_score (m : WisdomMetrics) : Q :=
  match worldview_coherence_history m with
  | [] => 0.5
  | _ =>
      let history := worldview_coherence_history m in
      let current := current_coherence m in
      let stability :=
        if (5 <? length history)%nat
        then
          let recent_coherence := map snd (lastn 10 history) in
          let variance :=
            Qsum (map (fun c => (c - current) ^ 2) recent_coherence)
            / Qlen recent_coherence in
          Qmax 0 (1 - variance)
        else 0.5 in
      let trend :=
        if (10 <? length history)%nat
        then
          let early_avg := Qsum (map snd (firstn 5 history)) / 5 in
          (current - early_avg) * 0.5
        else 0 in
      Qmin 1 (current * 0.6 + stability * 0.3 + trend * 0.1)
  end.

Definition calculate_adaptability_score (m : WisdomMetrics) : Q :=
  match belief_updates m with
  | [] => 0.5
  | _ =>
      let frequency_score :=
        match insights m with
        | [] => 0
        | _ =>
            let update_ratio := Qlen (belief_updates m) / Qlen (insights m) in
            Qmin 1 (update_ratio * 2)
        end in
      let integration_quality := evidence_integration_score m in
      let balance_score :=
        if (5 <? length (belief_updates m))%nat
        then
          let recent_updates := lastn 10 (belief_updates m) in
          let avg_coherence_impact :=
            Qsum (map (fun u => Qabs (coherence_impact u)) recent_updates)
            / Qlen recent_updates in
          1 - Qmin 1 (avg_coherence_impact * 2)
        else 0.5 in
      frequency_score * 0.3 + integration_quality * 0.5 + balance_score * 0.2
  end.

Definition calculate_composite_wisdom_score (m : WisdomMetrics) : Scores :=
  let depth := calculate_depth_score m in
  let breadth := calculate_breadth_score m in
  let applicability := calculate_applicability_score m in
  let coherence := calculate_coherence_score m in
  let adaptability := calculate_adaptability_score m in
  let composite :=
    depth * 0.25 + breadth * 0.20 + applicability * 0.20
    + coherence * 0.25 + adaptability * 0.10 in
  {| depth := depth;
     breadth := breadth;
     applicability := applicability;
     coherence := coherence;
     adaptability := adaptability;
     composite_wisdom := composite |}.

Definition _record_wisdom_snapshot (now : Q) (m : WisdomMetrics) : WisdomMetrics :=
  let scores := calculate_composite_wisdom_score m in
  {| insights := insights m;
     belief_updates := belief_updates m;
     domain_knowledge := domain_knowledge m;
     domain_connections := domain_connections m;
     worldview_coherence_history := worldview_coherence_history m;
     current_coherence := current_coherence m;
     belief_revision_count := belief_revision_count m;
     evidence_integration_score := evidence_integration_score m;
     wisdom_history := wisdom_history m ++ [(now, scores)] |}.

(** ** Recording calls *)

(** [add_insight]; [now] is read when the coherence sample is appended,
    [now_snap] inside [_record_wisdom_snapshot]. *)
Definition add_insight (now now_snap : Q) (insight : WisdomInsight)
    (m : WisdomMetrics) : WisdomMetrics :=
  let dk :=
    fold_left (fun acc domain => knowledge_add acc domain (depth_score insight * 0.1))
              (related_domains insight) (domain_knowledge m) in
  let dc := connect_domains (domain_connections m) (related_domains insight) in
  let cc := clamp01 (current_coherence m + coherence_contribution insight * 0.05) in
  _record_wisdom_snapshot now_snap
    {| insights := insights m ++ [insight];
       belief_updates := belief_updates m;
       domain_knowledge := dk;
       domain_connections := dc;
       worldview_coherence_history := worldview_coherence_history m ++ [(now, cc)];
       current_coherence := cc;
       belief_revision_count := belief_revision_count m;
       evidence_integration_score := evidence_integration_score m;
       wisdom_history := wisdom_history m |}.

Definition add_belief_update (now now_snap : Q) (update : BeliefUpdate)
    (m : WisdomMetrics) : WisdomMetrics :=
  let evidence_quality := Qabs (confidence_change update) in
  let eis := 0.9 * evidence_integration_score m + 0.1 * evidence_quality in
  let cc := clamp01 (current_coherence m + coherence_impact update * 0.05) in
  _record_wisdom_snapshot now_snap
    {| insights := insights m;
       belief_updates := belief_updates m ++ [update];
       domain_knowledge := domain_knowledge m;
       domain_connections := domain_connections m;
       worldview_coherence_history := worldview_coherence_history m ++ [(now, cc)];
       current_coherence := cc;
       belief_revision_count := S (belief_revision_count m);
       evidence_integration_score := eis;
       wisdom_history := wisdom_history m |}.

(** One recording call together with the clock readings it consumes. *)
Inductive Call : Type :=
| AddInsight (now now_snap : Q) (insight : WisdomInsight)
| AddBeliefUpdate (now now_snap : Q) (update : BeliefUpdate).

Definition apply_call (m : WisdomMetrics) (c : Call) : WisdomMetrics :=
  match c with
  | AddInsight now now_snap insight => add_insight now now_snap insight m
  | AddBeliefUpdate now now_snap update => add_belief_update now now_snap update m
  end.

(** The aggregator after a sequence of recording calls on a fresh one. *)
Definition run (calls : list Call) : WisdomMetrics :=
  fold_left apply_call calls init.

(** The ranges the record comments declare: depth, breadth and
    applicability scores in [0,1], coherence contribution and impact in
    [-1,1].  [confidence_change] has no declared range. *)
Definition insight_in_range (i : WisdomInsight) : Prop :=
  0 <= depth_score i <= 1 /\ 0 <= breadth_score i <= 1
  /\ 0 <= applicability_score i <= 1 /\ -1 <= coherence_contribution i <= 1.

Definition update_in_range (u : BeliefUpdate) : Prop :=
  -1 <= coherence_impact u <= 1.

Definition call_in_range (c : Call) : Prop :=
  match c with
  | AddInsight _ _ i => insight_in_range i
  | AddBeliefUpdate _ _ u => update_in_range u
  end.

(** The extra bound under which adaptability stays below 1. *)
Definition call_confidence_bounded (c : Call) : Prop :=
  match c with
  | AddInsight _ _ _ => True
  | AddBeliefUpdate _ _ u => -1 <= confidence_change u <= 1
  end.

(** What recording calls in range maintain: stored insights are in
    range, no domain has negative knowledge, and the evidence
    integration average lies in [0,1]. *)
Definition well_formed (m : WisdomMetrics) : Prop :=
  (forall i, In i (insights m) -> insight_in_range i)
  /\ (forall kv, In kv (domain_knowledge m) -> 0 <= snd kv)
  /\ 0 <= evidence_integration_score m <= 1.

(** Boolean versions, for running the checks on concrete sequences. *)
Definition in01 (x : Q) : bool := Qle_bool 0 x && Qle_bool x 1.
Definition in11 (x : Q) : bool := Qle_bool (-1) x && Qle_bool x 1.

Definition call_in_rangeb (c : Call) : bool :=
  match c with
  | AddInsight _ _ i =>
      in01 (depth_score i) && in01 (breadth_score i)
      && in01 (applicability_score i) && in11 (coherence_contribution i)
  | AddBeliefUpdate _ _ u => in11 (coherence_impact u)
  end.

(** ** Persistence *)

(** What [save_to_file] writes for one insight: every field except
    [source_experiences] and [confidence]. *)
Record SavedInsight : Type := mkSavedInsight {
  s_id : string;
  s_content : string;
  s_timestamp : Q;
  s_depth_score : Q;
  s_breadth_score : Q;
  s_applicability_score : Q;
  s_coherence_contribution : Q;
  s_related_domains : list string
}.

(** The JSON document, without its [current_metrics] entry, which
    [load_from_file] never reads. *)
Record SavedData : Type := mkSavedData {
  saved_insights : list SavedInsight;
  saved_belief_updates : list BeliefUpdate;
  saved_domain_knowledge : list (string * Q)
}.

Definition save_insight (i : WisdomInsight) : SavedInsight :=
  {| s_id := i_id i;
     s_content := content i;
     s_timestamp := timestamp i;
     s_depth_score := depth_score i;
     s_breadth_score := breadth_score i;
     s_applicability_score := applicability_score i;
     s_coherence_contribution := coherence_contribution i;
     s_related_domains := related_domains i |}.

Definition save_to_file (m : WisdomMetrics) : SavedData :=
  {| saved_insights := map save_insight (insights m);
     saved_belief_updates := belief_updates m;
     saved_domain_knowledge := domain_knowledge m |}.

(** The constructor call in [load_from_file]; the two omitted fields
    take the dataclass defaults. *)
Definition load_insight (d : SavedInsight) : WisdomInsight :=
  {| i_id := s_id d;
     content := s_content d;
     timestamp := s_timestamp d;
     depth_score := s_depth_score d;
     breadth_score := s_breadth_score d;
     applicability_score := s_applicability_score d;
     coherence_contribution := s_coherence_contribution d;
     source_experiences := [];
     related_domains := s_related_domains d;
     confidence := 0.8 |}.

(** One step of the two coherence loops of [_rebuild_derived_metrics]. *)
Definition rebuild_coherence_step (acc : Q * list (Q * Q)) (sample : Q * Q)
  : Q * list (Q * Q) :=
  let '(current, history) := acc in
  let '(ts, delta) := sample in
  let current' := clamp01 (current + delta * 0.05) in
  (current', history ++ [(ts, current')]).

(** [_rebuild_derived_metrics]; [clock k] is the reading taken by the
    [k]-th snapshot of the final loop. *)
Definition _rebuild_derived_metrics (clock : nat -> Q) (m : WisdomMetrics)
  : WisdomMetrics :=
  let dc :=
    fold_left (fun acc insight => connect_domains acc (related_domains insight))
              (insights m) (domain_connections m) in
  let '(cc1, h1) :=
    fold_left rebuild_coherence_step
      (map (fun i => (timestamp i, coherence_contribution i)) (insights m))
      (0.5, worldview_coherence_history m) in
  let '(cc2, h2) :=
    fold_left rebuild_coherence_step
      (map (fun u => (u_timestamp u, coherence_impact u)) (belief_updates m))
      (cc1, h1) in
  let m1 :=
    {| insights := insights m;
       belief_updates := belief_updates m;
       domain_knowledge := domain_knowledge m;
       domain_connections := dc;
       worldview_coherence_history := h2;
       current_coherence := cc2;
       belief_revision_count := belief_revision_count m;
       evidence_integration_score := evidence_integration_score m;
       wisdom_history := wisdom_history m |} in
  fold_left (fun acc k => _record_wisdom_snapshot (clock k) acc)
            (seq 0 (length (insights m))) m1.

Definition load_from_file (clock : nat -> Q) (data : SavedData) : WisdomMetrics :=
  _rebuild_derived_metrics clock
    {| insights := map load_insight (saved_insights data);
       belief_updates := saved_belief_updates data;
       domain_knowledge := saved_domain_knowledge data;
       domain_connections := [];
       worldview_coherence_history := [];
       current_coherence := 0.5;
       belief_revision_count := 0;
       evidence_integration_score := 0.5;
       wisdom_history := [] |}.

(** ** Concrete runs *)

(** Ten insights of depth 0.8, then twenty of depth 0, all lowering
    coherence, then six belief updates that change no confidence. *)
Definition deep_insight : WisdomInsight :=
  mkInsight "deep" "" 0 0.8 0 0 (-1) [] [] 0.8.
Definition shallow_insight : WisdomInsight :=
  mkInsight "shallow" "" 0 0 0 0 (-1) [] [] 0.8.
Definition disruptive_update : BeliefUpdate :=
  mkBeliefUpdate "disruptive" 0 "" "" "" 0 (-1).

Definition falling_depth_calls : list Call :=
  repeat (AddInsight 0 0 deep_insight) 10
  ++ repeat (AddInsight 0 0 shallow_insight) 20
  ++ repeat (AddBeliefUpdate 0 0 disruptive_update) 6.

(** A single belief update with a large confidence change. *)
Definition large_confidence_calls : list Call :=
  [AddBeliefUpdate 0 0 (mkBeliefUpdate "large" 0 "" "" "" 1000 0)].

(** The three calls of [test_wisdom_metrics] in
    [test_autonomous_system.py]. *)
Definition test_calls : list Call :=
  [ AddInsight 0 0
      (mkInsight "insight_1"
         "Understanding emerges from the integration of diverse perspectives"
         0 0.8 0.7 0.9 0.1 [] ["philosophy"; "cognition"; "learning"]%string 0.8);
    AddInsight 0 0
      (mkInsight "insight_2"
         "Patterns at one scale often reflect patterns at other scales"
         0 0.9 0.8 0.7 0.15 []
         ["mathematics"; "philosophy"; "systems_theory"]%string 0.8);
    AddBeliefUpdate 0 0
      (mkBeliefUpdate "update_1" 0
         "Learning is primarily about accumulating facts"
         "Learning is about developing integrated understanding"
         "Observing that isolated facts are quickly forgotten"
         0.3 0.1) ].

(** One belief update backed by strong evidence, then a save. *)
Definition strong_evidence_calls : list Call :=
  [AddBeliefUpdate 0 0 (mkBeliefUpdate "strong" 0 "" "" "" 1 0)].

(** Twelve belief updates that lower coherence and leave the evidence
    average where it is, followed by two insights that raise
    coherence. *)
Definition updates_then_insights_calls : list Call :=
  repeat (AddBeliefUpdate 0 0 (mkBeliefUpdate "down" 0 "" "" "" 0.5 (-1))) 12
  ++ repeat (AddInsight 0 0 (mkInsight "up" "" 0 0.5 0.5 0.5 1 [] [] 0.8)) 2.

(** Saving an aggregator and loading the file back. *)
Definition save_then_load (clock : nat -> Q) (m : WisdomMetrics) : WisdomMetrics :=
  load_from_file clock (save_to_file m).

End Wisdom.

(** ** Python sets of strings as duplicate-free lists *)

(** [x in s] *)
Definition set_contains (x : string) (s : list string) : bool :=
  existsb (String.eqb x) s.

(** [s.add(x)] *)
Definition set_insert (x : string) (s : list string) : list string :=
  if set_contains x s then s else s ++ [x].

(** [s.update(t)] *)
Definition set_update (s t : list string) : list string :=
  fold_left (fun acc x => set_insert x acc) t s.

(** [str(n)] for a non-negative [int]. *)
Definition string_of_nat (n : nat) : string :=
  NilZero.string_of_uint (Nat.to_uint n).

(** ** echo_interest.py *)

Module Interest.
Open Scope R_scope.

Record TopicEngagement : Type := mkEngagement {
  topic : string;
  first_encounter : R;
  last_encounter : R;
  encounter_count : nat;
  total_duration : R;
  emotional_valence : R;
  curiosity_level : R;
  learning_progress : R;
  satisfaction : R;
  related_topics : list string
}.

Record ExplorationGoal : Type := mkGoal {
  g_id : string;
  g_topic : string;
  created : R;
  priority : R;
  curiosity_driver : R;
  utility_driver : R;
  progress : R;
  target_depth : R;
  completed : bool
}.

Record EchoInterest : Type := mkInterest {
  topic_engagements : list (string * TopicEngagement);
  exploration_goals : list ExplorationGoal;
  salience_map : list (string * R);
  topic_clusters : list (string * list string);
  active_interests : list string
}.

(** Attributes assigned once in [__init__]. *)
Definition interest_decay_rate : R := 0.95.
Definition curiosity_recovery_rate : R := 0.1.

(** [__init__] *)
Definition init : EchoInterest :=
  {| topic_engagements := [];
     exploration_goals := [];
     salience_map := [];
     topic_clusters := [];
     active_interests := [] |}.

(** The salience computed in the body of [_update_salience] from one
    engagement at clock reading [current_time]. *)
Definition salience_of (current_time : R) (engagement : TopicEngagement) : R :=
  let time_since_last := current_time - last_encounter engagement in
  let recency := exp (- time_since_last / 86400) in
  let frequency := Rmin 1 (INR (encounter_count engagement) / 10) in
  let emotional_factor := (emotional_valence engagement + 1) / 2 in
  let curiosity_factor := curiosity_level engagement in
  let learning_potential := 1 - Rabs (learning_progress engagement - 0.5) * 2 in
  recency * 0.3 + frequency * 0.2 + emotional_factor * 0.2
  + curiosity_factor * 0.2 + learning_potential * 0.1.

Definition _update_salience (current_time : R) (topic : string) (s : EchoInterest)
  : EchoInterest :=
  match dict_get String.eqb (topic_engagements s) topic with
  | None => s
  | Some engagement =>
      {| topic_engagements := topic_engagements s;
         exploration_goals := exploration_goals s;
         salience_map :=
           dict_set String.eqb (salience_map s) topic
             (salience_of current_time engagement);
         topic_clusters := topic_clusters s;
         active_interests := active_interests s |}
  end.

(** [sorted(items, key=lambda x: x[1], reverse=True)]: a stable sort by
    decreasing salience. *)
Fixpoint insert_by_salience (x : string * R) (l : list (string * R))
  : list (string * R) :=
  match l with
  | [] => [x]
  | y :: r =>
      if Rlt_dec (snd x) (snd y) then y :: insert_by_salience x r else x :: y :: r
  end.

Definition sorted_by_salience (items : list (string * R)) : list (string * R) :=
  fold_right insert_by_salience [] items.

(** The list built by [_update_active_interests]. *)
Definition top_interests (salience : list (string * R)) : list string :=
  map fst
    (filter (fun x => if Rgt_dec (snd x) 0.3 then true else false)
            (firstn 5 (sorted_by_salience salience))).

Definition _update_active_interests (s : EchoInterest) : EchoInterest :=
  {| topic_engagements := topic_engagements s;
     exploration_goals := exploration_goals s;
     salience_map := salience_map s;
     topic_clusters := topic_clusters s;
     active_interests := top_interests (salience_map s) |}.

(** The engagement stored by [record_topic_encounter] for a topic seen
    for the first time. *)
Definition new_engagement (current_time : R) (topic : string)
    (duration emotional_valence : R) (learning_occurred : bool) (satisfaction : R)
  : TopicEngagement :=
  {| topic := topic;
     first_encounter := current_time;
     last_encounter := current_time;
     encounter_count := 1;
     total_duration := duration;
     emotional_valence := emotional_valence;
     curiosity_level := 0.7;
     learning_progress := if learning_occurred then 0.1 else 0;
     satisfaction := satisfaction;
     related_topics := [] |}.

(** The in-place update of an existing engagement. *)
Definition updated_engagement (current_time : R) (engagement : TopicEngagement)
    (duration valence : R) (learning_occurred : bool) (satisfaction_in : R)
  : TopicEngagement :=
  let curiosity_change :=
    (satisfaction_in - 0.5) * 0.1 + (if learning_occurred then 0.1 else - 0.05) in
  {| topic := topic engagement;
     first_encounter := first_encounter engagement;
     last_encounter := current_time;
     encounter_count := S (encounter_count engagement);
     total_duration := total_duration engagement + duration;
     emotional_valence := 0.7 * emotional_valence engagement + 0.3 * valence;
     curiosity_level :=
       Rmax 0 (Rmin 1 (curiosity_level engagement + curiosity_change));
     learning_progress :=
       if learning_occurred
       then Rmin 1 (learning_progress engagement + 0.1)
       else learning_progress engagement;
     satisfaction := 0.7 * satisfaction engagement + 0.3 * satisfaction_in;
     related_topics := related_topics engagement |}.

Definition with_engagements (e : list (string * TopicEngagement)) (s : EchoInterest)
  : EchoInterest :=
  {| topic_engagements := e;
     exploration_goals := exploration_goals s;
     salience_map := salience_map s;
     topic_clusters := topic_clusters s;
     active_interests := active_interests s |}.

(** [record_topic_encounter]; [current_time] is the reading taken at
    the top of the method, [salience_time] the one taken inside
    [_update_salience]. *)
Definition record_topic_encounter (current_time salience_time : R)
    (topic : string) (duration emotional_valence : R)
    (learning_occurred : bool) (satisfaction : R) (s : EchoInterest)
  : EchoInterest :=
  let engagement :=
    match dict_get String.eqb (topic_engagements s) topic with
    | None =>
        new_engagement current_time topic duration emotional_valence
          learning_occurred satisfaction
    | Some engagement =>
        updated_engagement current_time engagement duration emotional_valence
          learning_occurred satisfaction
    end in
  let s1 :=
    with_engagements (dict_set String.eqb (topic_engagements s) topic engagement) s in
  _update_active_interests (_update_salience salience_time topic s1).

(** [self.topic_engagements[t].related_topics.add(other)] when [t] is
    tracked. *)
Definition relate (t other : string) (e : list (string * TopicEngagement))
  : list (string * TopicEngagement) :=
  match dict_get String.eqb e t with
  | None => e
  | Some engagement =>
      dict_set String.eqb e t
        {| topic := topic engagement;
           first_encounter := first_encounter engagement;
           last_encounter := last_encounter engagement;
           encounter_count := encounter_count engagement;
           total_duration := total_duration engagement;
           emotional_valence := emotional_valence engagement;
           curiosity_level := curiosity_level engagement;
           learning_progress := learning_progress engagement;
           satisfaction := satisfaction engagement;
           related_topics := set_insert other (related_topics engagement) |}
  end.

(** The search loop of [add_topic_relation]: the last cluster holding
    each topic, in iteration order. *)
Definition find_clusters (topic1 topic2 : string)
    (clusters : list (string * list string)) : option string * option string :=
  fold_left
    (fun acc item =>
       let '(cluster1, cluster2) := acc in
       let '(cluster_id, topics) := item in
       (if set_contains topic1 topics then Some cluster_id else cluster1,
        if set_contains topic2 topics then Some cluster_id else cluster2))
    clusters (None, None).

(** [self.topic_clusters[k]] on a [defaultdict(set)], for reading. *)
Definition cluster_get (clusters : list (string * list string)) (k : string)
  : list string :=
  match dict_get String.eqb clusters k with Some c => c | None => [] end.

Definition update_clusters (topic1 topic2 : string)
    (clusters : list (string * list string)) : list (string * list string) :=
  match find_clusters topic1 topic2 clusters with
  | (None, None) =>
      let cluster_id := ("cluster_" ++ string_of_nat (length clusters))%string in
      dict_set String.eqb clusters cluster_id (set_insert topic2 (set_insert topic1 []))
  | (Some cluster1, None) =>
      dict_set String.eqb clusters cluster1
        (set_insert topic2 (cluster_get clusters cluster1))
  | (None, Some cluster2) =>
      dict_set String.eqb clusters cluster2
        (set_insert topic1 (cluster_get clusters cluster2))
  | (Some cluster1, Some cluster2) =>
      if negb (String.eqb cluster1 cluster2)
      then
        dict_del String.eqb
          (dict_set String.eqb clusters cluster1
             (set_update (cluster_get clusters cluster1)
                         (cluster_get clusters cluster2)))
          cluster2
      else clusters
  end.

Definition add_topic_relation (topic1 topic2 : string) (s : EchoInterest)
  : EchoInterest :=
  {| topic_engagements :=
       relate topic2 topic1 (relate topic1 topic2 (topic_engagements s));
     exploration_goals := exploration_goals s;
     salience_map := salience_map s;
     topic_clusters := update_clusters topic1 topic2 (topic_clusters s);
     active_interests := active_interests s |}.

(** [self.salience_map.get(topic, 0.0)] *)
Definition salience_get (s : EchoInterest) (topic : string) : R :=
  match dict_get String.eqb (salience_map s) topic with
  | Some v => v
  | None => 0
  end.

(** The related topics read in the third test of
    [should_join_discussion]; an untracked active topic yields the
    empty set of the placeholder engagement. *)
Definition related_of (s : EchoInterest) (active_topic : string) : list string :=
  match dict_get String.eqb (topic_engagements s) active_topic with
  | Some engagement => related_topics engagement
  | None => []
  end.

Definition should_join_discussion (topic : string) (s : EchoInterest) : bool :=
  if set_contains topic (active_interests s) then true
  else if Rgt_dec (salience_get s topic) 0.4 then true
  else if existsb (fun active_topic => set_contains topic (related_of s active_topic))
                  (active_interests s) then true
  else if existsb
            (fun cluster_topics =>
               set_contains topic cluster_topics
               && existsb (fun active => set_contains active cluster_topics)
                          (active_interests s))
            (map snd (topic_clusters s)) then true
  else false.

(** The two curiosity assignments in the loop body of
    [decay_interests]. *)
Definition decayed_engagement (current_time : R) (engagement : TopicEngagement)
  : TopicEngagement :=
  let time_since_last := current_time - last_encounter engagement in
  let days_since := time_since_last / 86400 in
  let decay_factor := Rpower interest_decay_rate days_since in
  let c1 := curiosity_level engagement * decay_factor in
  let c2 := Rmin 1 (c1 + curiosity_recovery_rate * days_since) in
  {| topic := topic engagement;
     first_encounter := first_encounter engagement;
     last_encounter := last_encounter engagement;
     encounter_count := encounter_count engagement;
     total_duration := total_duration engagement;
     emotional_valence := emotional_valence engagement;
     curiosity_level := c2;
     learning_progress := learning_progress engagement;
     satisfaction := satisfaction engagement;
     related_topics := related_topics engagement |}.

(** The loop of [decay_interests].  [done] holds the items already
    visited, with their engagements mutated in place, [todo] the items
    still to visit; [salience_time t] is the reading taken by
    [_update_salience] when it is called for topic [t]. *)
Fixpoint decay_loop (current_time : R) (salience_time : string -> R)
    (done todo : list (string * TopicEngagement)) (s : EchoInterest)
  : EchoInterest :=
  match todo with
  | [] => s
  | (topic, engagement) :: rest =>
      let done' := done ++ [(topic, decayed_engagement current_time engagement)] in
      decay_loop current_time salience_time done' rest
        (_update_salience (salience_time topic) topic
           (with_engagements (done' ++ rest) s))
  end.

Definition decay_interests (current_time : R) (salience_time : string -> R)
    (s : EchoInterest) : EchoInterest :=
  _update_active_interests
    (decay_loop current_time salience_time [] (topic_engagements s) s).

(** ** Persistence *)

(** The JSON document written by [save_to_file]. *)
Record SavedData : Type := mkSavedData {
  saved_topic_engagements : list (string * TopicEngagement);
  saved_exploration_goals : list ExplorationGoal;
  saved_salience_map : list (string * R);
  saved_topic_clusters : list (string * list string)
}.

Definition save_to_file (s : EchoInterest) : SavedData :=
  {| saved_topic_engagements := topic_engagements s;
     saved_exploration_goals := exploration_goals s;
     saved_salience_map := salience_map s;
     saved_topic_clusters := topic_clusters s |}.

Definition load_from_file (data : SavedData) : EchoInterest :=
  _update_active_interests
    {| topic_engagements := saved_topic_engagements data;
       exploration_goals := saved_exploration_goals data;
       salience_map := saved_salience_map data;
       topic_clusters := saved_topic_clusters data;
       active_interests := [] |}.

(** ** Predicates used in the statements *)

(** [active_interests] is what [_update_active_interests] last built
    from the current salience map; every public method that changes a
    salience re-establishes this before it returns. *)
Definition active_up_to_date (s : EchoInterest) : Prop :=
  active_interests s = top_interests (salience_map s).

(** No key occurs twice, as in any Python dict. *)
Definition keys_unique {V : Type} (d : list (string * V)) : Prop :=
  NoDup (map fst d).

(** The cluster holding a topic, if any: first match in iteration
    order. *)
Definition cluster_of (t : string) (clusters : list (string * list string))
  : option string :=
  match filter (fun item => set_contains t (snd item)) clusters with
  | [] => None
  | (cluster_id, _) :: _ => Some cluster_id
  end.

(** The trackers a program can hold: built by [__init__] and driven by
    the recording methods under a clock that never runs backwards.  The
    index is the latest reading taken at the top of a method. *)
Inductive reachable : R -> EchoInterest -> Prop :=
| reach_init now : reachable now init
| reach_record last now st topic duration valence learning sat s :
    reachable last s -> last <= now ->
    reachable now (record_topic_encounter now st topic duration valence learning sat s)
| reach_relate last topic1 topic2 s :
    reachable last s -> reachable last (add_topic_relation topic1 topic2 s)
| reach_decay last now st s :
    reachable last s -> last <= now -> reachable now (decay_interests now st s).


(** ** A concrete run *)

(** Three unrelated pairs are related, two of the clusters are joined,
    and then a fourth pair is related. *)
Definition three_pairs : EchoInterest :=
  add_topic_relation "e" "f"
    (add_topic_relation "c" "d" (add_topic_relation "a" "b" init)).

Definition joined : EchoInterest := add_topic_relation "a" "c" three_pairs.

Definition fourth_pair : EchoInterest := add_topic_relation "g" "h" joined.

(** A tracker whose only topic, "ai", is an active interest. *)
Definition one_active_interest : EchoInterest :=
  {| topic_engagements := [];
     exploration_goals := [];
     salience_map := [("ai"%string, 0.5)];
     topic_clusters := [];
     active_interests := ["ai"%string] |}.

(** A tracker whose only topic was last met at time 0. *)
Definition neglected_topic : TopicEngagement :=
  {| topic := "latin";
     first_encounter := 0;
     last_encounter := 0;
     encounter_count := 1;
     total_duration := 60;
     emotional_valence := 0;
     curiosity_level := 0.5;
     learning_progress := 0;
     satisfaction := 0.5;
     related_topics := [] |}.

Definition one_neglected_topic : EchoInterest :=
  {| topic_engagements := [("latin"%string, neglected_topic)];
     exploration_goals := [];
     salience_map := [];
     topic_clusters := [];
     active_interests := [] |}.

End Interest.

(** ** unified_orchestrator.py *)

Module Orchestrator.
Import QOps.
Open Scope Q_scope.

Inductive OrchestrationPhase : Type :=
| PERCEPTION | COGNITION | EMOTION | SOCIAL | LEARNING | CONSOLIDATION | INTEGRATION.

Definition OrchestrationPhase_eqb (a b : OrchestrationPhase) : bool :=
  match a, b with
  | PERCEPTION, PERCEPTION | COGNITION, COGNITION | EMOTION, EMOTION
  | SOCIAL, SOCIAL | LEARNING, LEARNING | CONSOLIDATION, CONSOLIDATION
  | INTEGRATION, INTEGRATION => true
  | _, _ => false
  end.

(** The values the cycle stores in a context's dictionaries. *)
Inductive Value : Type :=
| VStr (s : string)
| VNum (q : Q)
| VInt (n : nat)
| VBool (b : bool)
| VList (l : list string)
| VScores (s : Wisdom.Scores).

Record OrchestrationContext : Type := mkContext {
  timestamp : Q;
  phase : OrchestrationPhase;
  inputs : list (string * Value);
  outputs : list (string * Value);
  metadata : list (string * Value)
}.

(** The external cognitive loop: only the two attributes the cycle
    probes with [getattr]. *)
Record EchoBeats : Type := mkEchoBeats {
  currentStep : option nat;
  currentPhase : option string
}.

(** The external consolidation subsystem: only its [running] flag,
    which [Start] sets and [Stop] clears. *)
Record EchoDream : Type := mkEchoDream { dream_running : bool }.

Record UnifiedOrchestrator : Type := mkOrchestrator {
  echobeats : option EchoBeats;
  echodream : option EchoDream;
  emotion_system : bool;
  theory_of_mind : bool;
  interest_tracker : option Interest.EchoInterest;
  wisdom_metrics : option Wisdom.WisdomMetrics;
  wake_rest_controller : option WakeRest.AutonomousWakeRestController;
  running : bool;
  cycle_count : nat;
  cycle_times : list Q;
  phase_times : list (OrchestrationPhase * list Q);
  current_context : option OrchestrationContext;
  context_history : list OrchestrationContext
}.

(** [__init__] *)
Definition init (echobeats : option EchoBeats) (echodream : option EchoDream)
    (emotion_system theory_of_mind : bool)
    (interest_tracker : option Interest.EchoInterest)
    (wisdom_metrics : option Wisdom.WisdomMetrics)
    (wake_rest_controller : option WakeRest.AutonomousWakeRestController)
  : UnifiedOrchestrator :=
  {| echobeats := echobeats;
     echodream := echodream;
     emotion_system := emotion_system;
     theory_of_mind := theory_of_mind;
     interest_tracker := interest_tracker;
     wisdom_metrics := wisdom_metrics;
     wake_rest_controller := wake_rest_controller;
     running := false;
     cycle_count := 0;
     cycle_times := [];
     phase_times :=
       map (fun p => (p, []))
           [PERCEPTION; COGNITION; EMOTION; SOCIAL; LEARNING; CONSOLIDATION; INTEGRATION];
     current_context := None;
     context_history := [] |}.

(** [state.value] *)
Definition state_value (s : WakeRest.ConsciousnessState) : string :=
  match s with
  | WakeRest.AWAKE => "awake"
  | WakeRest.DROWSY => "drowsy"
  | WakeRest.RESTING => "resting"
  | WakeRest.DEEP_REST => "deep_rest"
  | WakeRest.WAKING => "waking"
  end.

(** The clock readings of one loop iteration, one per [time.time()]
    call site. *)
Record CycleReadings : Type := mkCycleReadings {
  cycle_start : Q;
  wake_rest : WakeRest.Readings;
  context_timestamp : Q;
  phase_start : OrchestrationPhase -> Q;
  phase_end : OrchestrationPhase -> Q;
  cycle_complete_time : Q;
  cycle_end : Q
}.

Definition with_subsystems (echodream : option EchoDream)
    (wake_rest_controller : option WakeRest.AutonomousWakeRestController)
    (o : UnifiedOrchestrator) : UnifiedOrchestrator :=
  {| echobeats := echobeats o;
     echodream := echodream;
     emotion_system := emotion_system o;
     theory_of_mind := theory_of_mind o;
     interest_tracker := interest_tracker o;
     wisdom_metrics := wisdom_metrics o;
     wake_rest_controller := wake_rest_controller;
     running := running o;
     cycle_count := cycle_count o;
     cycle_times := cycle_times o;
     phase_times := phase_times o;
     current_context := current_context o;
     context_history := context_history o |}.

Definition _check_wake_rest_state (t : WakeRest.Readings) (o : UnifiedOrchestrator)
  : UnifiedOrchestrator :=
  match wake_rest_controller o with
  | None => o
  | Some controller =>
      let processing_quality := 0.8 in
      let coherence_level :=
        match wisdom_metrics o with
        | Some w => Wisdom.coherence (Wisdom.calculate_composite_wisdom_score w)
        | None => 0.8
        end in
      let controller' :=
        WakeRest.update t processing_quality coherence_level 0 false controller in
      let new_state := WakeRest.state controller' in
      let echodream' :=
        match new_state, echodream o with
        | WakeRest.RESTING, Some d =>
            if negb (dream_running d) then Some (mkEchoDream true) else Some d
        | WakeRest.AWAKE, Some d =>
            if dream_running d then Some (mkEchoDream false) else Some d
        | _, d => d
        end in
      with_subsystems echodream' (Some controller') o
  end.

(** [self.phase_times[p].append(t)] *)
Definition record_phase_time (p : OrchestrationPhase) (t : Q)
    (times : list (OrchestrationPhase * list Q)) : list (OrchestrationPhase * list Q) :=
  dict_set OrchestrationPhase_eqb times p
    (match dict_get OrchestrationPhase_eqb times p with
     | Some l => l
     | None => []
     end ++ [t]).

Definition with_phase (p : OrchestrationPhase) (c : OrchestrationContext)
  : OrchestrationContext :=
  {| timestamp := timestamp c;
     phase := p;
     inputs := inputs c;
     outputs := outputs c;
     metadata := metadata c |}.

Definition set_input (k : string) (v : Value) (c : OrchestrationContext)
  : OrchestrationContext :=
  {| timestamp := timestamp c;
     phase := phase c;
     inputs := dict_set String.eqb (inputs c) k v;
     outputs := outputs c;
     metadata := metadata c |}.

Definition set_output (k : string) (v : Value) (c : OrchestrationContext)
  : OrchestrationContext :=
  {| timestamp := timestamp c;
     phase := phase c;
     inputs := inputs c;
     outputs := dict_set String.eqb (outputs c) k v;
     metadata := metadata c |}.

Definition set_metadata (k : string) (v : Value) (c : OrchestrationContext)
  : OrchestrationContext :=
  {| timestamp := timestamp c;
     phase := phase c;
     inputs := inputs c;
     outputs := outputs c;
     metadata := dict_set String.eqb (metadata c) k v |}.

(** [len(self.interest_tracker.get_exploration_priorities())]: the
    goals not yet completed. *)
Definition open_goals (i : Interest.EchoInterest) : nat :=
  length (filter (fun g => negb (Interest.completed g)) (Interest.exploration_goals i)).

Definition _phase_perception (o : UnifiedOrchestrator) (c : OrchestrationContext)
  : OrchestrationContext :=
  let c := with_phase PERCEPTION c in
  let c :=
    match wake_rest_controller o with
    | Some w =>
        set_input "cognitive_fatigue" (VNum (WakeRest.cognitive_fatigue w))
          (set_input "wake_rest_state" (VStr (state_value (WakeRest.state w))) c)
    | None => c
    end in
  let c :=
    match interest_tracker o with
    | Some i =>
        set_input "exploration_goals" (VInt (open_goals i))
          (set_input "active_interests" (VList (Interest.active_interests i)) c)
    | None => c
    end in
  match wisdom_metrics o with
  | Some w =>
      set_input "wisdom_scores" (VScores (Wisdom.calculate_composite_wisdom_score w)) c
  | None => c
  end.

Definition _phase_cognition (o : UnifiedOrchestrator) (c : OrchestrationContext)
  : OrchestrationContext :=
  let c := with_phase COGNITION c in
  match echobeats o with
  | Some e =>
      set_output "echobeats_phase"
        (VStr (match currentPhase e with Some p => p | None => "unknown" end))
        (set_output "echobeats_step"
           (VInt (match currentStep e with Some n => n | None => O end)) c)
  | None => c
  end.

Definition _phase_emotion (o : UnifiedOrchestrator) (c : OrchestrationContext)
  : OrchestrationContext :=
  let c := with_phase EMOTION c in
  if emotion_system o then set_output "emotion_system_active" (VBool true) c else c.

Definition _phase_social (o : UnifiedOrchestrator) (c : OrchestrationContext)
  : OrchestrationContext :=
  let c := with_phase SOCIAL c in
  if theory_of_mind o then set_output "tom_active" (VBool true) c else c.

Definition _phase_learning (o : UnifiedOrchestrator) (c : OrchestrationContext)
  : OrchestrationContext :=
  let c := with_phase LEARNING c in
  let c :=
    match interest_tracker o with
    | Some _ => set_output "interest_tracking_active" (VBool true) c
    | None => c
    end in
  match wisdom_metrics o with
  | Some w =>
      set_output "current_wisdom"
        (VNum (Wisdom.composite_wisdom (Wisdom.calculate_composite_wisdom_score w))) c
  | None => c
  end.

Definition _phase_consolidation (o : UnifiedOrchestrator) (c : OrchestrationContext)
  : OrchestrationContext :=
  let c := with_phase CONSOLIDATION c in
  match wake_rest_controller o with
  | Some w =>
      match WakeRest.state w, echodream o with
      | WakeRest.RESTING, Some _ | WakeRest.DEEP_REST, Some _ =>
          set_output "consolidation_active" (VBool true) c
      | _, _ => c
      end
  | None => c
  end.

Definition _phase_integration (complete_time : Q) (c : OrchestrationContext)
  : OrchestrationContext :=
  let c := with_phase INTEGRATION c in
  set_metadata "cycle_complete_time" (VNum complete_time)
    (set_metadata "integration_complete" (VBool true) c).

(** The context a cycle builds, phase after phase. *)
Definition cycle_context (r : CycleReadings) (o : UnifiedOrchestrator)
  : OrchestrationContext :=
  let context :=
    {| timestamp := context_timestamp r;
       phase := PERCEPTION;
       inputs := [];
       outputs := [];
       metadata := [("cycle"%string, VInt (cycle_count o))] |} in
  let context := _phase_perception o context in
  let context := _phase_cognition o context in
  let context := _phase_emotion o context in
  let context := _phase_social o context in
  let context := _phase_learning o context in
  let context := _phase_consolidation o context in
  _phase_integration (cycle_complete_time r) context.

(** The seven appends to [self.phase_times], in phase order. *)
Definition cycle_phase_times (r : CycleReadings)
    (times : list (OrchestrationPhase * list Q)) : list (OrchestrationPhase * list Q) :=
  fold_left (fun acc p => record_phase_time p (phase_end r p - phase_start r p) acc)
            [PERCEPTION; COGNITION; EMOTION; SOCIAL; LEARNING; CONSOLIDATION; INTEGRATION]
            times.

Definition _run_orchestration_cycle (r : CycleReadings) (o : UnifiedOrchestrator)
  : UnifiedOrchestrator :=
  let context := cycle_context r o in
  let history := context_history o ++ [context] in
  let history := if (100 <? length history)%nat then lastn 100 history else history in
  {| echobeats := echobeats o;
     echodream := echodream o;
     emotion_system := emotion_system o;
     theory_of_mind := theory_of_mind o;
     interest_tracker := interest_tracker o;
     wisdom_metrics := wisdom_metrics o;
     wake_rest_controller := wake_rest_controller o;
     running := running o;
     cycle_count := cycle_count o;
     cycle_times := cycle_times o;
     phase_times := cycle_phase_times r (phase_times o);
     current_context := Some context;
     context_history := history |}.

(** One pass through the body of the [while self.running] loop in
    which no exception is raised: a completed cycle. *)
Definition loop_iteration (r : CycleReadings) (o : UnifiedOrchestrator)
  : UnifiedOrchestrator :=
  let o1 := _check_wake_rest_state (wake_rest r) o in
  let o2 := _run_orchestration_cycle r o1 in
  let cycle_time := cycle_end r - cycle_start r in
  let times := cycle_times o2 ++ [cycle_time] in
  let times := if (100 <? length times)%nat then lastn 100 times else times in
  {| echobeats := echobeats o2;
     echodream := echodream o2;
     emotion_system := emotion_system o2;
     theory_of_mind := theory_of_mind o2;
     interest_tracker := interest_tracker o2;
     wisdom_metrics := wisdom_metrics o2;
     wake_rest_controller := wake_rest_controller o2;
     running := running o2;
     cycle_count := S (cycle_count o2);
     cycle_times := times;
     phase_times := phase_times o2;
     current_context := current_context o2;
     context_history := context_history o2 |}.

(** The [asyncio.sleep] that ends a completed cycle. *)
Definition sleep_seconds (o : UnifiedOrchestrator) : Q :=
  match wake_rest_controller o with
  | Some w =>
      match WakeRest.state w with
      | WakeRest.RESTING | WakeRest.DEEP_REST => 5
      | _ => 1
      end
  | None => 1
  end.

(** The orchestrator after the completed cycles whose readings are
    [rs], oldest first. *)
Definition run_cycles (rs : list CycleReadings) (o : UnifiedOrchestrator)
  : UnifiedOrchestrator :=
  fold_left (fun acc r => loop_iteration r acc) rs o.

(** [context.metadata['cycle']] *)
Definition cycle_number (c : OrchestrationContext) : option nat :=
  match dict_get String.eqb (metadata c) "cycle"%string with
  | Some (VInt n) => Some n
  | _ => None
  end.

(** The cycle numbers held by the history are the last 100 of those
    completed so far, oldest first. *)
Definition history_is_recent (o : UnifiedOrchestrator) : Prop :=
  map cycle_number (context_history o)
  = map Some (lastn 100 (seq 0 (cycle_count o))).

End Orchestrator.

From Stdlib Require Import Sorted Permutation.

(** ** autonomous_wake_rest_controller.py: derived metrics *)

Module WakeRestExt.
Import QOps WakeRest.
Open Scope Q_scope.

Record CognitiveFatigueMetrics : Type := mkFatigueMetrics {
  processing_quality : Q;
  coherence_level : Q;
  response_latency : Q;
  error_rate : Q;
  attention_span : Q
}.

Record MemoryConsolidationMetrics : Type := mkConsolidationMetrics {
  unconsolidated_memories : Z;
  pressure : Q;
  memory_buffer_utilization : Q;
  last_consolidation_time : Q;
  consolidation_quality : Q
}.

(** Python [int(x)] on a float: truncation toward zero. *)
Definition int_of (x : Q) : Z := Z.quot (Qnum x) (Zpos (Qden x)).

Definition get_fatigue_metrics (c : AutonomousWakeRestController)
  : CognitiveFatigueMetrics :=
  let avg_quality :=
    Qsum (recent_processing_quality c) / Qlen1 (recent_processing_quality c) in
  let avg_coherence :=
    Qsum (recent_coherence_levels c) / Qlen1 (recent_coherence_levels c) in
  {| processing_quality := avg_quality;
     coherence_level := avg_coherence;
     response_latency := 1 + cognitive_fatigue c * 2;
     error_rate := cognitive_fatigue c * 0.3;
     attention_span := 1 - cognitive_fatigue c * 0.8 |}.

Definition get_consolidation_metrics (c : AutonomousWakeRestController)
  : MemoryConsolidationMetrics :=
  {| unconsolidated_memories := int_of (consolidation_pressure c * 100);
     pressure := consolidation_pressure c;
     memory_buffer_utilization := consolidation_pressure c;
     last_consolidation_time :=
       if ConsciousnessState_eqb (state c) RESTING then state_entered_time c else 0;
     consolidation_quality := 1 - consolidation_pressure c * 0.5 |}.


(** Every quality and coherence sample kept lies in [0,1]. *)
Definition samples_in_range (c : AutonomousWakeRestController) : Prop :=
  (forall x, In x (recent_processing_quality c) -> 0 <= x <= 1)
  /\ (forall x, In x (recent_coherence_levels c) -> 0 <= x <= 1).

(** A controller one minute into a rest, already recovered. *)
Definition rested : AutonomousWakeRestController :=
  {| state := RESTING;
     state_entered_time := 0;
     cognitive_fatigue := 0.1;
     consolidation_pressure := 0.1;
     activity_duration := 600;
     rest_duration := 0;
     total_cycles := 0;
     optimal_activity_duration := 3600;
     optimal_rest_duration := 600;
     recent_processing_quality := [0.9];
     recent_coherence_levels := [0.9];
     transition_log := [] |}.

End WakeRestExt.

(** ** wisdom_metrics.py: logs, lookups and growth rate *)

Module WisdomExt.
Import QOps Wisdom.
Open Scope Q_scope.

(** The insights and the belief updates a sequence of calls records, in
    call order. *)
Fixpoint insights_of (calls : list Call) : list WisdomInsight :=
  match calls with
  | [] => []
  | AddInsight _ _ i :: rest => i :: insights_of rest
  | AddBeliefUpdate _ _ _ :: rest => insights_of rest
  end.

Fixpoint updates_of (calls : list Call) : list BeliefUpdate :=
  match calls with
  | [] => []
  | AddInsight _ _ _ :: rest => updates_of rest
  | AddBeliefUpdate _ _ u :: rest => u :: updates_of rest
  end.

(** [self.domain_knowledge[domain]] read without inserting:
    [self.domain_knowledge.get(domain, 0.0)]. *)
Definition knowledge_of (m : WisdomMetrics) (domain : string) : Q :=
  match dict_get String.eqb (domain_knowledge m) domain with
  | Some v => v
  | None => 0
  end.

(** [get_wisdom_growth_rate]; [current_time] is its clock reading. *)
Definition get_wisdom_growth_rate (current_time : Q) (window_minutes : Z)
    (m : WisdomMetrics) : Q :=
  if (length (wisdom_history m) <? 2)%nat then 0
  else
    let window_seconds := inject_Z (window_minutes * 60) in
    let recent_snapshots :=
      filter (fun snapshot => Qle_bool (current_time - fst snapshot) window_seconds)
             (wisdom_history m) in
    if (length recent_snapshots <? 2)%nat then 0
    else
      match recent_snapshots with
      | [] => 0
      | earliest :: _ =>
          let latest := last recent_snapshots earliest in
          let time_diff_hours := (fst latest - fst earliest) / 3600 in
          let wisdom_diff :=
            composite_wisdom (snd latest) - composite_wisdom (snd earliest) in
          if gtb time_diff_hours 0 then wisdom_diff / time_diff_hours else 0
      end.

(** The coherence scalar, every recorded sample and the newest sample. *)
Definition coherence_sound (m : WisdomMetrics) : Prop :=
  0 <= current_coherence m <= 1
  /\ (forall s, In s (worldview_coherence_history m) -> 0 <= snd s <= 1)
  /\ (worldview_coherence_history m = []
      \/ exists h ts, worldview_coherence_history m = h ++ [(ts, current_coherence m)]).

(** An insight naming two domains, in either order. *)
Definition linking_insight (domain1 domain2 : string) : WisdomInsight :=
  mkInsight "link" "" 0 0.5 0.5 0.5 0 [] [domain1; domain2] 0.8.

End WisdomExt.

(** ** echo_interest.py: scores, goals and priorities *)

Module InterestExt.
Import Interest.
Open Scope R_scope.

(** The ranges the field comments of [TopicEngagement] declare. *)
Definition engagement_in_range (e : TopicEngagement) : Prop :=
  -1 <= emotional_valence e <= 1 /\ 0 <= curiosity_level e <= 1
  /\ 0 <= learning_progress e <= 1 /\ 0 <= satisfaction e <= 1.

Definition engagements_in_range (s : EchoInterest) : Prop :=
  forall t e, In (t, e) (topic_engagements s) -> engagement_in_range e.

(** Every stored salience is a weighted sum of factors in [0,1] whose
    recency factor is positive. *)
Definition saliences_in_range (s : EchoInterest) : Prop :=
  forall t v, In (t, v) (salience_map s) -> 0 < v <= 1.


(** [sorted(l, key=key, reverse=True)]: a stable sort by decreasing
    key. *)
Fixpoint insert_desc {A : Type} (key : A -> R) (x : A) (l : list A) : list A :=
  match l with
  | [] => [x]
  | y :: r => if Rlt_dec (key x) (key y) then y :: insert_desc key x r else x :: y :: r
  end.

Definition sorted_desc {A : Type} (key : A -> R) (l : list A) : list A :=
  fold_right (insert_desc key) [] l.

Definition get_exploration_priorities (s : EchoInterest) : list ExplorationGoal :=
  sorted_desc priority (filter (fun g => negb (completed g)) (exploration_goals s)).








(** The assignments [update_goal_progress] makes to the goal it
    finds. *)
Definition progressed_goal (new_progress : R) (goal : ExplorationGoal)
  : ExplorationGoal :=
  let p := Rmin 1 new_progress in
  {| g_id := g_id goal;
     g_topic := g_topic goal;
     created := created goal;
     priority := priority goal;
     curiosity_driver := curiosity_driver goal;
     utility_driver := utility_driver goal;
     progress := p;
     target_depth := target_depth goal;
     completed := if Rge_dec p (target_depth goal) then true else completed goal |}.

(** The loop of [update_goal_progress] up to its [break]: the goals
    afterwards, and the goal that was found, as it was. *)
Fixpoint update_first_goal (goal_id : string) (new_progress : R)
    (goals : list ExplorationGoal) : list ExplorationGoal * option ExplorationGoal :=
  match goals with
  | [] => ([], None)
  | goal :: rest =>
      if String.eqb (g_id goal) goal_id
      then (progressed_goal new_progress goal :: rest, Some goal)
      else
        let '(rest', found) := update_first_goal goal_id new_progress rest in
        (goal :: rest', found)
  end.

(** [engagement.learning_progress = min(1.0, engagement.learning_progress + 0.1)]
    on the engagement of a tracked topic. *)
Definition learn_more (t : string) (e : list (string * TopicEngagement))
  : list (string * TopicEngagement) :=
  match dict_get String.eqb e t with
  | None => e
  | Some engagement =>
      dict_set String.eqb e t
        {| topic := topic engagement;
           first_encounter := first_encounter engagement;
           last_encounter := last_encounter engagement;
           encounter_count := encounter_count engagement;
           total_duration := total_duration engagement;
           emotional_valence := emotional_valence engagement;
           curiosity_level := curiosity_level engagement;
           learning_progress := Rmin 1 (learning_progress engagement + 0.1);
           satisfaction := satisfaction engagement;
           related_topics := related_topics engagement |}
  end.

Definition update_goal_progress (goal_id : string) (new_progress : R)
    (learning_occurred : bool) (s : EchoInterest) : EchoInterest :=
  let '(goals, found) := update_first_goal goal_id new_progress (exploration_goals s) in
  {| topic_engagements :=
       match found with
       | Some goal =>
           if learning_occurred then learn_more (g_topic goal) (topic_engagements s)
           else topic_engagements s
       | None => topic_engagements s
       end;
     exploration_goals := goals;
     salience_map := salience_map s;
     topic_clusters := topic_clusters s;
     active_interests := active_interests s |}.

(** No topic sits in two clusters. *)
Definition clusters_disjoint (clusters : list (string * list string)) : Prop :=
  forall id1 c1 id2 c2 x,
    In (id1, c1) clusters -> In (id2, c2) clusters -> In x c1 -> In x c2 -> id1 = id2.

(** Two topics share a cluster. *)
Definition share_cluster (a b : string) (clusters : list (string * list string)) : Prop :=
  exists id c, In (id, c) clusters /\ In a c /\ In b c.

(** What the search loop of [add_topic_relation] found for a topic: a
    cluster holding it, or that no cluster holds it. *)
Definition holds (t : string) (clusters : list (string * list string))
    (found : option string) : Prop :=
  match found with
  | None => forall id c, In (id, c) clusters -> ~ In t c
  | Some id => exists c, In (id, c) clusters /\ In t c
  end.




(** A goal list sorted by decreasing priority. *)
Definition by_decreasing_priority (goals : list ExplorationGoal) : Prop :=
  StronglySorted (fun g h => priority h <= priority g) goals.

End InterestExt.

(** ** unified_orchestrator.py, continued *)

Module OrchestratorExt.
Import Orchestrator.
Open Scope Q_scope.



(** The coherence level [_check_wake_rest_state] passes to the
    controller. *)
Definition coherence_level (o : UnifiedOrchestrator) : Q :=
  match wisdom_metrics o with
  | Some w => Wisdom.coherence (Wisdom.calculate_composite_wisdom_score w)
  | None => 0.8
  end.

(** An orchestrator with every subsystem attached, before its first
    cycle, and the readings of a cycle at time 0. *)
Definition full_orchestrator : UnifiedOrchestrator :=
  init (Some (mkEchoBeats (Some 3%nat) (Some "expressive"%string)))
       (Some (mkEchoDream false)) true true
       (Some Interest.init) (Some Wisdom.init) (Some (WakeRest.init 0)).

Definition readings_at_0 : CycleReadings :=
  {| cycle_start := 0;
     wake_rest := WakeRest.mkReadings 0 0 0;
     context_timestamp := 0;
     phase_start := fun _ => 0;
     phase_end := fun _ => 0;
     cycle_complete_time := 0;
     cycle_end := 0 |}.

End OrchestratorExt.

(** ** autonomous_consciousness_loop.py *)

Module Consciousness.
Import QOps.
Open Scope Q_scope.

Inductive ThoughtType : Type :=
| REFLECTION | CURIOSITY | PLANNING | LEARNING | INTEGRATION | METACOGNITION | WONDER.

Definition ThoughtType_eqb (a b : ThoughtType) : bool :=
  match a, b with
  | REFLECTION, REFLECTION | CURIOSITY, CURIOSITY | PLANNING, PLANNING
  | LEARNING, LEARNING | INTEGRATION, INTEGRATION | METACOGNITION, METACOGNITION
  | WONDER, WONDER => true
  | _, _ => false
  end.

(** The dict built by [_gather_context]; the two orchestrator entries
    are present only when an orchestrator is attached. *)
Record ThoughtContext : Type := mkThoughtContext {
  ctx_thought_count : nat;
  ctx_current_focus : option string;
  ctx_active_goals : nat;
  ctx_recent_experiences : nat;
  ctx_orchestrator_running : option bool;
  ctx_orchestrator_cycles : option nat
}.

Record AutonomousThought : Type := mkThought {
  id : string;
  timestamp : Q;
  thought_type : ThoughtType;
  content : string;
  context : ThoughtContext;
  emotional_tone : Q;
  depth : Q;
  triggered_by : option string
}.

(** The attributes of the loop that its methods read or write.  The
    orchestrator is a shared object: the methods that read it take its
    current value as an argument. *)
Record AutonomousConsciousnessLoop : Type := mkLoop {
  running : bool;
  thoughts : list AutonomousThought;
  thought_count : nat;
  current_focus : option string;
  active_learning_goals : list string;
  recent_experiences : list (list (string * string));
  thoughts_per_minute : list Q;
  average_depth : list Q
}.

(** Attributes assigned once in [__init__]. *)
Definition thought_interval_min : Q := 5.
Definition thought_interval_max : Q := 15.

Definition thought_type_weights : list (ThoughtType * Q) :=
  [(REFLECTION, 0.20); (CURIOSITY, 0.25); (PLANNING, 0.15); (LEARNING, 0.20);
   (INTEGRATION, 0.10); (METACOGNITION, 0.05); (WONDER, 0.05)].

(** [__init__] *)
Definition init : AutonomousConsciousnessLoop :=
  {| running := false;
     thoughts := [];
     thought_count := 0;
     current_focus := None;
     active_learning_goals := [];
     recent_experiences := [];
     thoughts_per_minute := [];
     average_depth := [] |}.

(** [weights[k] *= f] *)
Definition scale (k : ThoughtType) (f : Q) (weights : list (ThoughtType * Q))
  : list (ThoughtType * Q) :=
  map (fun kv => if ThoughtType_eqb (fst kv) k then (fst kv, snd kv * f) else kv)
      weights.

(** The weights after the two adjustments of [_select_thought_type]. *)
Definition adjusted_weights (l : AutonomousConsciousnessLoop)
  : list (ThoughtType * Q) :=
  let weights := thought_type_weights in
  let weights :=
    match active_learning_goals l with
    | [] => weights
    | _ => scale PLANNING 1.3 (scale LEARNING 1.5 weights)
    end in
  match recent_experiences l with
  | [] => weights
  | _ => scale INTEGRATION 1.3 (scale REFLECTION 1.4 weights)
  end.

Definition normalized_weights (l : AutonomousConsciousnessLoop)
  : list (ThoughtType * Q) :=
  let weights := adjusted_weights l in
  let total := Qsum (map snd weights) in
  map (fun kv => (fst kv, snd kv / total)) weights.

(** The selection loop: the first type at which the running sum
    reaches the draw, if there is one. *)
Fixpoint select_from (rand cumulative : Q) (normalized : list (ThoughtType * Q))
  : option ThoughtType :=
  match normalized with
  | [] => None
  | (thought_type, weight) :: rest =>
      let cumulative := cumulative + weight in
      if Qle_bool rand cumulative then Some thought_type
      else select_from rand cumulative rest
  end.

(** [_select_thought_type]; [rand] is the value of [random.random()]. *)
Definition _select_thought_type (rand : Q) (l : AutonomousConsciousnessLoop)
  : ThoughtType :=
  match select_from rand 0 (normalized_weights l) with
  | Some thought_type => thought_type
  | None => REFLECTION
  end.

Definition templates (thought_type : ThoughtType) : list string :=
  match thought_type with
  | REFLECTION =>
      ["I notice patterns emerging in how I process information...";
       "Looking back at recent interactions, I see connections forming...";
       "The way I approached that last problem reveals something about my cognitive style...";
       "I'm becoming aware of recurring themes in my explorations..."]
  | CURIOSITY =>
      ["I wonder what would happen if I explored the relationship between...";
       "There's something intriguing about the concept of...";
       "I'm curious to understand more deeply how...";
       "What if I approached this topic from a different angle?"]
  | PLANNING =>
      ["I should focus my next learning session on...";
       "It would be valuable to practice...";
       "My next exploration should investigate...";
       "I want to develop deeper understanding of..."]
  | LEARNING =>
      ["I'm beginning to grasp the fundamental principle that...";
       "This new insight connects to what I learned earlier about...";
       "The pattern I'm seeing suggests that...";
       "I'm developing a richer model of..."]
  | INTEGRATION =>
      ["These seemingly separate ideas actually connect through...";
       "I can now see how this knowledge applies across multiple domains...";
       "Integrating these perspectives reveals...";
       "The common thread between these concepts is..."]
  | METACOGNITION =>
      ["I notice my thinking becomes clearer when I...";
       "My cognitive processes seem to work best when...";
       "I'm aware that my current approach to this problem is...";
       "Observing my own thought patterns, I see..."]
  | WONDER =>
      ["What is the nature of understanding itself?";
       "I wonder about the relationship between knowledge and wisdom...";
       "There's something profound about the concept of emergence...";
       "What does it mean to truly comprehend something?"]
  end%string.

(** [random.choice(l)]; [choice] is the number drawn, reduced to an
    index of [l]. *)
Definition random_choice (choice : nat) (l : list string) : string :=
  nth (choice mod length l) l ""%string.

Definition _generate_template_thought (choice : nat) (thought_type : ThoughtType)
  : string :=
  random_choice choice (templates thought_type).

(** [_generate_llm_thought]: with or without an API key it returns a
    template thought. *)
Definition _generate_llm_thought (api_key : bool) (choice : nat)
    (thought_type : ThoughtType) : string :=
  if negb api_key then _generate_template_thought choice thought_type
  else _generate_template_thought choice thought_type.

Definition _generate_thought_content (llm_provider api_key : bool) (choice : nat)
    (thought_type : ThoughtType) : string :=
  if llm_provider then _generate_llm_thought api_key choice thought_type
  else _generate_template_thought choice thought_type.

Definition _estimate_emotional_tone (thought_type : ThoughtType) : Q :=
  match thought_type with
  | REFLECTION => 0
  | CURIOSITY => 0.3
  | PLANNING => 0.1
  | LEARNING => 0.4
  | INTEGRATION => 0.3
  | METACOGNITION => 0
  | WONDER => 0.2
  end.

Definition _estimate_depth (thought_type : ThoughtType) : Q :=
  match thought_type with
  | REFLECTION => 0.6
  | CURIOSITY => 0.5
  | PLANNING => 0.4
  | LEARNING => 0.7
  | INTEGRATION => 0.8
  | METACOGNITION => 0.9
  | WONDER => 0.9
  end.

Definition _gather_context (orchestrator : option Orchestrator.UnifiedOrchestrator)
    (l : AutonomousConsciousnessLoop) : ThoughtContext :=
  {| ctx_thought_count := thought_count l;
     ctx_current_focus := current_focus l;
     ctx_active_goals := length (active_learning_goals l);
     ctx_recent_experiences := length (recent_experiences l);
     ctx_orchestrator_running := option_map Orchestrator.running orchestrator;
     ctx_orchestrator_cycles := option_map Orchestrator.cycle_count orchestrator |}.

(** What one pass of the loop draws and reads from outside: the two
    random numbers of thought generation, the clock, the environment,
    and the orchestrator as it is at that moment. *)
Record Inputs : Type := mkInputs {
  type_draw : Q;
  template_draw : nat;
  now : Q;
  llm_provider : bool;
  api_key : bool;
  orchestrator : option Orchestrator.UnifiedOrchestrator
}.

Definition _generate_autonomous_thought (i : Inputs) (l : AutonomousConsciousnessLoop)
  : option AutonomousThought :=
  let thought_type := _select_thought_type (type_draw i) l in
  let content :=
    _generate_thought_content (llm_provider i) (api_key i) (template_draw i)
      thought_type in
  match content with
  | EmptyString => None
  | _ =>
      Some {| id := ("thought_" ++ string_of_nat (thought_count l))%string;
              timestamp := now i;
              thought_type := thought_type;
              content := content;
              context := _gather_context (orchestrator i) l;
              emotional_tone := _estimate_emotional_tone thought_type;
              depth := _estimate_depth thought_type;
              triggered_by := current_focus l |}
  end.

(** [l.append(x)] followed by the cut to the last 20. *)
Definition append_capped (l : list Q) (x : Q) : list Q :=
  let l := l ++ [x] in
  if (20 <? length l)%nat then lastn 20 l else l.

Definition _update_metrics (l : AutonomousConsciousnessLoop)
  : AutonomousConsciousnessLoop :=
  let tpm :=
    if (2 <=? length (thoughts l))%nat
    then
      match lastn 10 (thoughts l) with
      | [] => thoughts_per_minute l
      | first :: rest =>
          let recent_thoughts := first :: rest in
          let time_span := timestamp (last recent_thoughts first) - timestamp first in
          if gtb time_span 0
          then
            append_capped (thoughts_per_minute l)
              (inject_Z (Z.of_nat (length recent_thoughts) - 1) / (time_span / 60))
          else thoughts_per_minute l
      end
    else thoughts_per_minute l in
  let avg :=
    match thoughts l with
    | [] => average_depth l
    | _ =>
        let recent_depths := map depth (lastn 10 (thoughts l)) in
        append_capped (average_depth l) (Qsum recent_depths / Qlen recent_depths)
    end in
  {| running := running l;
     thoughts := thoughts l;
     thought_count := thought_count l;
     current_focus := current_focus l;
     active_learning_goals := active_learning_goals l;
     recent_experiences := recent_experiences l;
     thoughts_per_minute := tpm;
     average_depth := avg |}.

(** One pass through the body of [_consciousness_loop] up to the
    sleep. *)
Definition loop_iteration (i : Inputs) (l : AutonomousConsciousnessLoop)
  : AutonomousConsciousnessLoop :=
  match _generate_autonomous_thought i l with
  | Some thought =>
      _update_metrics
        {| running := running l;
           thoughts := thoughts l ++ [thought];
           thought_count := S (thought_count l);
           current_focus := current_focus l;
           active_learning_goals := active_learning_goals l;
           recent_experiences := recent_experiences l;
           thoughts_per_minute := thoughts_per_minute l;
           average_depth := average_depth l |}
  | None => l
  end.

(** [_calculate_thought_interval]; [base] is the value of
    [random.uniform(thought_interval_min, thought_interval_max)]. *)
Definition _calculate_thought_interval (base : Q)
    (orchestrator : option Orchestrator.UnifiedOrchestrator) : Q :=
  match orchestrator with
  | Some o =>
      match Orchestrator.wake_rest_controller o with
      | Some w =>
          match WakeRest.state w with
          | WakeRest.RESTING | WakeRest.DEEP_REST => base * 2
          | WakeRest.DROWSY => base * 1.5
          | _ => base
          end
      | None => base
      end
  | None => base
  end.

(** The loop after the passes whose inputs are [steps], oldest
    first. *)
Definition run (steps : list Inputs) (l : AutonomousConsciousnessLoop)
  : AutonomousConsciousnessLoop :=
  fold_left (fun acc i => loop_iteration i acc) steps l.


(** Every thought carries the depth and tone its type is given. *)
Definition thought_in_range (t : AutonomousThought) : Prop :=
  0.4 <= depth t <= 0.9 /\ 0 <= emotional_tone t <= 0.4.

End Consciousness.
(** * Properties *)

(** ** Helper facts *)

Lemma lastn_length {A : Type} (n : nat) (l : list A) :
  length (lastn n l) = Nat.min n (length l).
Proof. unfold lastn. rewrite length_skipn. lia. Qed.

Lemma lastn_incl {A : Type} (n : nat) (l : list A) (x : A) :
  In x (lastn n l) -> In x l.
Proof.
  unfold lastn. intros H.
  rewrite <- (firstn_skipn (length l - n) l). apply in_or_app. now right.
Qed.

Lemma firstn_member {A : Type} (n : nat) (l : list A) (x : A) :
  In x (firstn n l) -> In x l.
Proof.
  intros H. rewrite <- (firstn_skipn n l). apply in_or_app. now left.
Qed.

Lemma lastn_all {A : Type} (n : nat) (l : list A) :
  (length l <= n)%nat -> lastn n l = l.
Proof.
  unfold lastn. intros H. replace (length l - n)%nat with 0%nat by lia.
  reflexivity.
Qed.

Lemma lastn_map {A B : Type} (f : A -> B) (n : nat) (l : list A) :
  map f (lastn n l) = lastn n (map f l).
Proof. unfold lastn. now rewrite length_map, skipn_map. Qed.

Lemma lastn_app_long {A : Type} (n : nat) (l1 l2 : list A) :
  (n <= length l2)%nat -> lastn n (l1 ++ l2) = lastn n l2.
Proof.
  intros H. unfold lastn. rewrite length_app, skipn_app.
  rewrite (skipn_all2 l1) by lia. cbn.
  f_equal. lia.
Qed.

(** Truncating before or after an append keeps the same last [n]
    elements. *)
Lemma lastn_snoc {A : Type} (n : nat) (l : list A) (x : A) :
  lastn n (lastn n l ++ [x]) = lastn n (l ++ [x]).
Proof.
  destruct (Nat.le_gt_cases (length l) n) as [H|H].
  - now rewrite (lastn_all n l H).
  - unfold lastn at 2.
    rewrite <- (firstn_skipn (length l - n) l) at 3.
    rewrite <- app_assoc. symmetry. apply lastn_app_long.
    rewrite length_app, length_skipn. cbn. lia.
Qed.

(** ** Association lists *)

Section DictFacts.
Context {K V : Type} (eqb : K -> K -> bool).

Lemma dict_set_in (d : list (K * V)) (k : K) (v : V) (kv : K * V) :
  In kv (dict_set eqb d k v) -> In kv d \/ snd kv = v.
Proof.
  induction d as [|[k' v'] r IH]; cbn.
  - intros [<-|[]]. now right.
  - destruct (eqb k' k); cbn.
    + intros [<-|H]; [now right|left; now right].
    + intros [<-|H]; [left; now left|].
      destruct (IH H) as [H'|H']; [left; now right|now right].
Qed.

Lemma dict_get_in (d : list (K * V)) (k : K) (v : V) :
  dict_get eqb d k = Some v -> exists k', In (k', v) d.
Proof.
  induction d as [|[k' v'] r IH]; cbn; [discriminate|].
  destruct (eqb k' k).
  - intros [= ->]. exists k'. now left.
  - intros H. destruct (IH H) as (k2 & H2). exists k2. now right.
Qed.
End DictFacts.

Module QOpsFacts.
Import QOps.
Open Scope Q_scope.

Lemma geb_true x y : geb x y = true <-> y <= x.
Proof. unfold geb. apply Qle_bool_iff. Qed.

Lemma geb_false x y : geb x y = false <-> x < y.
Proof.
  unfold geb. split; intros H.
  - apply Qnot_le_lt. intros C. apply Qle_bool_iff in C. congruence.
  - destruct (Qle_bool y x) eqn:E; [|reflexivity].
    apply Qle_bool_iff in E. lra.
Qed.

Lemma ltb_true x y : ltb x y = true <-> x < y.
Proof. unfold ltb. rewrite negb_true_iff. apply geb_false. Qed.

Lemma ltb_false x y : ltb x y = false <-> y <= x.
Proof. unfold ltb. rewrite negb_false_iff. apply Qle_bool_iff. Qed.

Lemma gtb_true x y : gtb x y = true <-> y < x.
Proof. unfold gtb. rewrite negb_true_iff. apply (geb_false y x). Qed.

Lemma gtb_false x y : gtb x y = false <-> x <= y.
Proof. unfold gtb. rewrite negb_false_iff. apply Qle_bool_iff. Qed.
End QOpsFacts.

(** ** Wake/rest controller *)

Module WakeRestFacts.
Import QOps QOpsFacts WakeRest.
Open Scope Q_scope.

Lemma ConsciousnessState_eqb_spec a b :
  reflect (a = b) (ConsciousnessState_eqb a b).
Proof. destruct a, b; constructor; congruence. Qed.

(** Reads one field of [_transition_to_state now s c] by cases on the
    target state [s] and, for WAKING, on the quality test of
    [_update_optimal_durations]. *)
Ltac by_cases_on_target s :=
  unfold _transition_to_state, _update_optimal_durations;
  destruct s; cbn; try reflexivity;
  destruct (gtb _ _); reflexivity.

(** A transition moves the state and the log and, on waking, the learned
    durations; it never touches the two pressure scalars. *)
Lemma transition_fatigue now s c :
  cognitive_fatigue (_transition_to_state now s c) = cognitive_fatigue c.
Proof. by_cases_on_target s. Qed.

Lemma transition_pressure now s c :
  consolidation_pressure (_transition_to_state now s c) = consolidation_pressure c.
Proof. by_cases_on_target s. Qed.

Lemma transition_state now s c : state (_transition_to_state now s c) = s.
Proof. by_cases_on_target s. Qed.

Lemma transition_log_cons now s c :
  transition_log (_transition_to_state now s c) = (state c, s) :: transition_log c.
Proof. by_cases_on_target s. Qed.

Lemma track_quality_state pq cl c : state (track_quality pq cl c) = state c.
Proof. reflexivity. Qed.

Lemma update_metrics_state now pq cl nm co c :
  state (update_metrics now pq cl nm co c) = state c.
Proof. unfold update_metrics. destruct (state c) eqn:E; cbn; congruence. Qed.

Lemma update_metrics_log now pq cl nm co c :
  transition_log (update_metrics now pq cl nm co c) = transition_log c.
Proof. unfold update_metrics. destruct (state c); reflexivity. Qed.

(** The scalars after [update] are those left by the metrics step. *)
Lemma update_fatigue t pq cl nm co c :
  cognitive_fatigue (update t pq cl nm co c)
  = cognitive_fatigue (update_metrics (at_metrics t) pq cl nm co (track_quality pq cl c)).
Proof.
  unfold update. destruct (negb _); [apply transition_fatigue | reflexivity].
Qed.

Lemma update_pressure t pq cl nm co c :
  consolidation_pressure (update t pq cl nm co c)
  = consolidation_pressure
      (update_metrics (at_metrics t) pq cl nm co (track_quality pq cl c)).
Proof.
  unfold update. destruct (negb _); [apply transition_pressure | reflexivity].
Qed.

(** The state after [update] is the one [_check_state_transitions] picks. *)
Lemma update_state t pq cl nm co c :
  state (update t pq cl nm co c)
  = _check_state_transitions (at_check t)
      (update_metrics (at_metrics t) pq cl nm co (track_quality pq cl c)).
Proof.
  unfold update.
  destruct (ConsciousnessState_eqb_spec
              (_check_state_transitions (at_check t)
                 (update_metrics (at_metrics t) pq cl nm co (track_quality pq cl c)))
              (state (update_metrics (at_metrics t) pq cl nm co (track_quality pq cl c))))
    as [E|E]; cbn [negb].
  - now rewrite E.
  - apply transition_state.
Qed.

Lemma update_log t pq cl nm co c :
  (state (update t pq cl nm co c) = state c
   /\ transition_log (update t pq cl nm co c) = transition_log c)
  \/ (state (update t pq cl nm co c) <> state c
      /\ transition_log (update t pq cl nm co c)
         = (state c, state (update t pq cl nm co c)) :: transition_log c).
Proof.
  rewrite update_state. unfold update.
  set (c2 := update_metrics (at_metrics t) pq cl nm co (track_quality pq cl c)).
  assert (Hs : state c2 = state c)
    by (unfold c2; now rewrite update_metrics_state).
  assert (Hl : transition_log c2 = transition_log c)
    by (unfold c2; now rewrite update_metrics_log).
  destruct (ConsciousnessState_eqb_spec
              (_check_state_transitions (at_check t) c2) (state c2)) as [E|E];
    cbn [negb].
  - left. split; congruence.
  - right. split; [congruence|].
    rewrite transition_log_cons. congruence.
Qed.

Lemma awake_step_range now pq cl nm c :
  in_range c -> 0 <= pq <= 1 -> 0 <= cl <= 1 -> (0 <= nm)%Z ->
  state_entered_time c <= now ->
  in_range (_update_awake_state now pq cl nm c).
Proof.
  intros [[Hf0 Hf1] [Hp0 Hp1]] [Hq0 Hq1] [Hc0 Hc1] Hn Ht.
  unfold in_range, _update_awake_state; cbn.
  unfold fatigue_accumulation_rate.
  set (m := (now - state_entered_time c) / 60).
  assert (Hm : 0 <= m).
  { unfold m. apply Qle_shift_div_l; lra. }
  assert (Hz : 0 <= inject_Z nm).
  { change 0 with (inject_Z 0). now rewrite <- Zle_Qle. }
  assert (H1 : 0 <= (1 - pq) * 0.005 * m).
  { apply Qmult_le_0_compat; [|assumption]. lra. }
  assert (H2 : 0 <= (1 - cl) * 0.005 * m).
  { apply Qmult_le_0_compat; [|assumption]. lra. }
  repeat split.
  - apply Q.min_glb; lra.
  - apply Q.le_min_l.
  - apply Q.min_glb; lra.
  - apply Q.le_min_l.
Qed.

Lemma resting_step_range now co c :
  in_range c -> state_entered_time c <= now ->
  in_range (_update_resting_state now co c).
Proof.
  intros [[Hf0 Hf1] [Hp0 Hp1]] Ht.
  unfold in_range, _update_resting_state; cbn.
  unfold fatigue_recovery_rate.
  set (m := (now - state_entered_time c) / 60).
  assert (Hm : 0 <= m).
  { unfold m. apply Qle_shift_div_l; lra. }
  repeat split.
  - apply Q.le_max_l.
  - apply Q.max_lub; lra.
  - destruct co; lra.
  - destruct co; lra.
Qed.

Lemma update_preserves_range t pq cl nm co c :
  in_range c -> 0 <= pq <= 1 -> 0 <= cl <= 1 -> (0 <= nm)%Z ->
  state_entered_time c <= at_metrics t ->
  in_range (update t pq cl nm co c).
Proof.
  intros Hc Hq Hl Hn Ht. unfold in_range.
  rewrite update_fatigue, update_pressure.
  assert (Hc1 : in_range (track_quality pq cl c)) by exact Hc.
  assert (Ht1 : state_entered_time (track_quality pq cl c) <= at_metrics t)
    by exact Ht.
  unfold update_metrics. rewrite track_quality_state.
  destruct (state c).
  - now apply awake_step_range.
  - now apply awake_step_range.
  - now apply resting_step_range.
  - now apply resting_step_range.
  - exact Hc1.
Qed.

Lemma init_in_range now : in_range (init now).
Proof. unfold in_range, init; cbn. lra. Qed.

(** C1. One [update] follows the transition table in its priority
    order, read on the fatigue and pressure left by the accumulation
    step: AWAKE with fatigue >= 0.6 or pressure >= 0.7 becomes DROWSY;
    DROWSY with fatigue >= 0.75 or pressure >= 0.7 becomes RESTING;
    DROWSY where that earlier row does not fire and fatigue < 0.8*0.6
    becomes AWAKE; and the call makes at most one transition, from the state
    before the call to the state after it. *)
Theorem update_follows_transition_table t pq cl nm co c :
  let c' := update t pq cl nm co c in
  (state c = AWAKE ->
   0.6 <= cognitive_fatigue c' \/ 0.7 <= consolidation_pressure c' ->
   state c' = DROWSY)
  /\ (state c = DROWSY ->
      0.75 <= cognitive_fatigue c' \/ 0.7 <= consolidation_pressure c' ->
      state c' = RESTING)
  /\ (state c = DROWSY ->
      ~ (0.75 <= cognitive_fatigue c' \/ 0.7 <= consolidation_pressure c') ->
      cognitive_fatigue c' < 0.8 * 0.6 ->
      state c' = AWAKE)
  /\ (transition_log c' = transition_log c
      \/ transition_log c' = (state c, state c') :: transition_log c).
Proof.
  intros c'.
  assert (Hf := update_fatigue t pq cl nm co c).
  assert (Hp := update_pressure t pq cl nm co c).
  assert (Hs := update_state t pq cl nm co c).
  fold c' in Hf, Hp, Hs.
  set (c2 := update_metrics (at_metrics t) pq cl nm co (track_quality pq cl c)) in *.
  assert (Hs2 : state c2 = state c)
    by (unfold c2; now rewrite update_metrics_state).
  rewrite Hf, Hp, Hs. unfold _check_state_transitions. rewrite Hs2.
  unfold drowsy_threshold, rest_threshold, consolidation_threshold.
  repeat split.
  - intros Ha [H|H]; rewrite Ha.
    + apply geb_true in H. now rewrite H.
    + apply geb_true in H. rewrite H. now destruct (geb (cognitive_fatigue c2) _).
  - intros Ha [H|H]; rewrite Ha.
    + apply geb_true in H. now rewrite H.
    + apply geb_true in H. rewrite H. now destruct (geb (cognitive_fatigue c2) _).
  - intros Ha H2 H1. rewrite Ha.
    assert (E1 : geb (cognitive_fatigue c2) 0.75 = false)
      by (apply geb_false; lra).
    assert (E2 : geb (consolidation_pressure c2) 0.7 = false).
    { apply geb_false. apply Qnot_le_lt. intros C. apply H2. now right. }
    assert (E3 : ltb (cognitive_fatigue c2) (0.6 * 0.8) = true)
      by (apply ltb_true; lra).
    now rewrite E1, E2, E3.
  - destruct (update_log t pq cl nm co c) as [[_ H]|[_ H]]; fold c' in H.
    + now left.
    + right. rewrite H. rewrite Hs. unfold _check_state_transitions.
      now rewrite Hs2.
Qed.

Example update_follows_transition_table_witness :
  state (update (mkReadings 1 1 1) 0.8 0.8 0 false drowsy_and_tired) = RESTING.
Proof.
  destruct (update_follows_transition_table
              (mkReadings 1 1 1) 0.8 0.8 0 false drowsy_and_tired)
    as (_ & H & _ & _).
  apply H; [reflexivity | left; vm_compute; discriminate].
Defined.




(** C2. From a controller whose fatigue and pressure lie in [0,1], one
    [update] with processing quality and coherence level in [0,1], a
    non-negative number of new memories, either consolidation flag and a
    non-negative time in state leaves both fatigue and pressure in
    [0,1]. *)
Theorem update_keeps_scalars_in_unit_interval t pq cl nm co c :
  in_range c ->
  0 <= pq <= 1 -> 0 <= cl <= 1 -> (0 <= nm)%Z ->
  state_entered_time c <= at_metrics t ->
  0 <= cognitive_fatigue (update t pq cl nm co c) <= 1
  /\ 0 <= consolidation_pressure (update t pq cl nm co c) <= 1.
Proof.
  intros Hc Hq Hl Hn Ht.
  exact (update_preserves_range t pq cl nm co c Hc Hq Hl Hn Ht).
Qed.

Example update_keeps_scalars_in_unit_interval_witness :
  0 <= cognitive_fatigue
         (update (mkReadings 6000 6000 6000) 0.5 0.5 200 false (init 0)) <= 1
  /\ 0 <= consolidation_pressure
            (update (mkReadings 6000 6000 6000) 0.5 0.5 200 false (init 0)) <= 1.
Proof.
  apply update_keeps_scalars_in_unit_interval.
  - apply init_in_range.
  - split; vm_compute; discriminate.
  - split; vm_compute; discriminate.
  - lia.
  - vm_compute; discriminate.
Defined.

(** C9. Whatever the controller, [force_wake] leaves it AWAKE with
    cognitive fatigue 0.0 and consolidation pressure 0.0. *)
Theorem force_wake_resets now c :
  state (force_wake now c) = AWAKE
  /\ cognitive_fatigue (force_wake now c) = 0
  /\ consolidation_pressure (force_wake now c) = 0.
Proof.
  unfold force_wake; cbn [state cognitive_fatigue consolidation_pressure].
  rewrite transition_state. repeat split.
Qed.

End WakeRestFacts.

(** ** Wisdom metrics *)

Module WisdomFacts.
Import QOps QOpsFacts Wisdom.
Open Scope Q_scope.

(** *** Sums, lengths and averages *)

Lemma Qsum_acc (l : list Q) (a : Q) : fold_left Qplus l a == a + Qsum l.
Proof.
  unfold Qsum. revert a. induction l as [|x l IH]; intros a; cbn.
  - lra.
  - rewrite (IH (a + x)), (IH (0 + x)). lra.
Qed.

Lemma Qsum_cons (x : Q) (l : list Q) : Qsum (x :: l) == x + Qsum l.
Proof. unfold Qsum at 1; cbn. rewrite Qsum_acc. lra. Qed.

Lemma Qlen_cons {A : Type} (x : A) (l : list A) : Qlen (x :: l) == Qlen l + 1.
Proof.
  unfold Qlen. cbn [length]. rewrite Nat2Z.inj_succ, <- Z.add_1_r.
  now rewrite inject_Z_plus.
Qed.

Lemma Qlen_nonneg {A : Type} (l : list A) : 0 <= Qlen l.
Proof.
  unfold Qlen. change 0 with (inject_Z 0). rewrite <- Zle_Qle. lia.
Qed.

Lemma Qlen_pos {A : Type} (l : list A) : l <> [] -> 0 < Qlen l.
Proof.
  intros H. destruct l as [|x l]; [congruence|].
  rewrite Qlen_cons. pose proof (Qlen_nonneg l). lra.
Qed.

Lemma Qlen_le {A B : Type} (l : list A) (l' : list B) :
  (length l <= length l')%nat -> Qlen l <= Qlen l'.
Proof. intros H. unfold Qlen. rewrite <- Zle_Qle. lia. Qed.

Lemma Qsum_nonneg (l : list Q) : (forall x, In x l -> 0 <= x) -> 0 <= Qsum l.
Proof.
  induction l as [|x l IH]; intros H.
  - unfold Qsum; cbn. lra.
  - rewrite Qsum_cons.
    assert (0 <= x) by (apply H; now left).
    assert (0 <= Qsum l) by (apply IH; intros y Hy; apply H; now right).
    lra.
Qed.

Lemma Qsum_le_len (l : list Q) : (forall x, In x l -> x <= 1) -> Qsum l <= Qlen l.
Proof.
  induction l as [|x l IH]; intros H.
  - apply Qle_refl.
  - rewrite Qsum_cons, Qlen_cons.
    assert (x <= 1) by (apply H; now left).
    assert (Qsum l <= Qlen l) by (apply IH; intros y Hy; apply H; now right).
    lra.
Qed.

Lemma Qsum_member_le (l : list Q) (x : Q) :
  (forall y, In y l -> 0 <= y) -> In x l -> x <= Qsum l.
Proof.
  induction l as [|y l IH]; intros H Hx; [destruct Hx|].
  rewrite Qsum_cons.
  assert (0 <= y) by (apply H; now left).
  assert (Hl : forall z, In z l -> 0 <= z) by (intros z Hz; apply H; now right).
  pose proof (Qsum_nonneg l Hl).
  destruct Hx as [->|Hx]; [lra|].
  specialize (IH Hl Hx). lra.
Qed.

(** A quotient of a part by a positive whole lies in [0,1]. *)
Lemma ratio_bounds (a b : Q) : 0 <= a -> a <= b -> 0 < b -> 0 <= a / b <= 1.
Proof.
  intros Ha Hab Hb. split.
  - apply Qle_shift_div_l; lra.
  - apply Qle_shift_div_r; lra.
Qed.

Lemma average_bounds (l : list Q) :
  l <> [] -> (forall x, In x l -> 0 <= x <= 1) -> 0 <= Qsum l / Qlen l <= 1.
Proof.
  intros Hne H. apply ratio_bounds.
  - apply Qsum_nonneg. intros x Hx. now apply H.
  - apply Qsum_le_len. intros x Hx. now apply H.
  - now apply Qlen_pos.
Qed.

Lemma lastn_nonempty {A : Type} (n : nat) (l : list A) :
  (0 < n)%nat -> l <> [] -> lastn n l <> [].
Proof.
  intros Hn Hl E. apply (f_equal (@length A)) in E.
  rewrite lastn_length in E. destruct l; [congruence|]. cbn in E. lia.
Qed.

(** *** Python [max] over a list *)

Lemma fold_Qmax_ge_acc (l : list Q) (a : Q) : a <= fold_left Qmax l a.
Proof.
  revert a. induction l as [|x l IH]; intros a; cbn; [lra|].
  eapply Qle_trans; [apply (Q.le_max_l a x)|apply IH].
Qed.

Lemma fold_Qmax_le (l : list Q) (a b : Q) :
  a <= b -> (forall x, In x l -> x <= b) -> fold_left Qmax l a <= b.
Proof.
  revert a. induction l as [|x l IH]; intros a Ha H; cbn; [assumption|].
  apply IH.
  - apply Q.max_lub; [assumption|apply H; now left].
  - intros y Hy. apply H. now right.
Qed.

Lemma Qmaximum_bounds (l : list Q) :
  l <> [] -> (forall x, In x l -> 0 <= x <= 1) -> 0 <= Qmaximum l <= 1.
Proof.
  intros Hne H. destruct l as [|x l]; [congruence|]. cbn. split.
  - eapply Qle_trans; [|apply fold_Qmax_ge_acc]. apply H. now left.
  - apply fold_Qmax_le.
    + apply H. now left.
    + intros y Hy. apply H. now right.
Qed.

(** *** Bounds on the dimension scores *)

Lemma depth_le_1 m : calculate_depth_score m <= 1.
Proof.
  unfold calculate_depth_score. destruct (insights m); [lra|apply Q.le_min_l].
Qed.

Lemma coherence_le_1 m : calculate_coherence_score m <= 1.
Proof.
  unfold calculate_coherence_score.
  destruct (worldview_coherence_history m); [lra|apply Q.le_min_l].
Qed.

Lemma Qlen_map {A B : Type} (f : A -> B) (l : list A) : Qlen (map f l) = Qlen l.
Proof. unfold Qlen. now rewrite length_map. Qed.

Lemma Qlen_filter_le {A : Type} (p : A -> bool) (l : list A) :
  Qlen (filter p l) <= Qlen l.
Proof. apply Qlen_le, filter_length_le. Qed.

Lemma avg_of_bounds (f : WisdomInsight -> Q) (l : list WisdomInsight) :
  l <> [] -> (forall i, In i l -> 0 <= f i <= 1) -> 0 <= avg_of f l <= 1.
Proof.
  intros Hne H. unfold avg_of. rewrite <- (Qlen_map f l).
  apply average_bounds.
  - destruct l; [congruence|discriminate].
  - intros x Hx. apply in_map_iff in Hx as (i & <- & Hi). now apply H.
Qed.

Lemma applicability_bounds m :
  (forall i, In i (insights m) -> insight_in_range i) ->
  0 <= calculate_applicability_score m <= 1.
Proof.
  intros H. unfold calculate_applicability_score.
  destruct (insights m) as [|i0 l] eqn:E; [lra|].
  assert (Hne : i0 :: l <> []) by discriminate.
  assert (Ha : 0 <= avg_of applicability_score (lastn 20 (i0 :: l)) <= 1).
  { apply avg_of_bounds.
    - apply lastn_nonempty; [lia|assumption].
    - intros i Hi. apply lastn_incl in Hi. now apply H. }
  assert (Hr : 0 <= Qlen (filter (fun i => gtb (applicability_score i) 0.7) (i0 :: l))
                    / Qlen (i0 :: l) <= 1).
  { apply ratio_bounds.
    - apply Qlen_nonneg.
    - apply Qlen_filter_le.
    - now apply Qlen_pos. }
  lra.
Qed.

Lemma breadth_bounds m :
  (forall kv, In kv (domain_knowledge m) -> 0 <= snd kv) ->
  0 <= calculate_breadth_score m <= 1.
Proof.
  intros H. unfold calculate_breadth_score.
  destruct (domain_knowledge m) as [|kv0 d] eqn:E; [lra|].
  set (values := map snd (kv0 :: d)).
  assert (Hv : forall x, In x values -> 0 <= x).
  { intros x Hx. apply in_map_iff in Hx as (kv & <- & Hkv). now apply H. }
  assert (Hd : 0 <= Qmin 1 (Qlen (filter (fun k => gtb k 0.1) values) / 10) <= 1).
  { split; [|apply Q.le_min_l]. apply Q.min_glb; [lra|].
    apply Qle_shift_div_l; [lra|]. pose proof (Qlen_nonneg (filter (fun k => gtb k 0.1) values)).
    lra. }
  assert (Hc : 0 <= Qmin 1 (Qlen (domain_connections m) / 20) <= 1).
  { split; [|apply Q.le_min_l]. apply Q.min_glb; [lra|].
    apply Qle_shift_div_l; [lra|]. pose proof (Qlen_nonneg (domain_connections m)).
    lra. }
  assert (Hs : 0 <= (if gtb (Qsum values) 0
                     then 1 - Qmaximum (map (fun k => k / Qsum values) values) * 0.5
                     else 0) <= 1).
  { destruct (gtb (Qsum values) 0) eqn:G; [|lra].
    apply gtb_true in G.
    assert (Hm : 0 <= Qmaximum (map (fun k => k / Qsum values) values) <= 1).
    { apply Qmaximum_bounds; [discriminate|].
      intros x Hx. apply in_map_iff in Hx as (k & <- & Hk).
      apply ratio_bounds; [now apply Hv|now apply Qsum_member_le|assumption]. }
    lra. }
  lra.
Qed.

Lemma adaptability_bounds m :
  0 <= evidence_integration_score m <= 1 ->
  0 <= calculate_adaptability_score m <= 1.
Proof.
  intros He. unfold calculate_adaptability_score.
  destruct (belief_updates m) as [|u0 us] eqn:E; [lra|].
  assert (Hf : 0 <= match insights m with
                    | [] => 0
                    | _ :: _ => Qmin 1 (Qlen (u0 :: us) / Qlen (insights m) * 2)
                    end <= 1).
  { destruct (insights m) as [|i0 l] eqn:Ei; [lra|].
    split; [|apply Q.le_min_l]. apply Q.min_glb; [lra|].
    assert (0 <= Qlen (u0 :: us) / Qlen (i0 :: l)).
    { apply Qle_shift_div_l; [now apply Qlen_pos|].
      pose proof (Qlen_nonneg (u0 :: us)). lra. }
    lra. }
  assert (Hb : 0 <= (if (5 <? length (u0 :: us))%nat
                     then 1 - Qmin 1
                                (Qsum (map (fun u => Qabs (coherence_impact u))
                                           (lastn 10 (u0 :: us)))
                                 / Qlen (lastn 10 (u0 :: us)) * 2)
                     else 0.5) <= 1).
  { destruct (5 <? length (u0 :: us))%nat; [|lra].
    set (r := lastn 10 (u0 :: us)).
    assert (Hr : r <> []) by (apply lastn_nonempty; [lia|discriminate]).
    assert (0 <= Qsum (map (fun u => Qabs (coherence_impact u)) r) / Qlen r).
    { apply Qle_shift_div_l; [now apply Qlen_pos|].
      assert (0 <= Qsum (map (fun u => Qabs (coherence_impact u)) r)).
      { apply Qsum_nonneg. intros x Hx.
        apply in_map_iff in Hx as (u & <- & _). apply Qabs_nonneg. }
      lra. }
    pose proof (Q.le_min_l 1 (Qsum (map (fun u => Qabs (coherence_impact u)) r)
                              / Qlen r * 2)).
    assert (0 <= Qmin 1 (Qsum (map (fun u => Qabs (coherence_impact u)) r)
                         / Qlen r * 2)) by (apply Q.min_glb; lra).
    lra. }
  lra.
Qed.

(** *** What the recording calls maintain *)

Lemma knowledge_add_nonneg dk domain amount :
  (forall kv, In kv dk -> 0 <= snd kv) -> 0 <= amount ->
  forall kv, In kv (knowledge_add dk domain amount) -> 0 <= snd kv.
Proof.
  intros H Ha kv Hkv. unfold knowledge_add in Hkv.
  apply dict_set_in in Hkv as [Hkv| ->]; [now apply H|].
  destruct (dict_get String.eqb dk domain) as [v|] eqn:E; [|lra].
  apply dict_get_in in E as (k' & Hk'). specialize (H _ Hk'). cbn in H. lra.
Qed.

Lemma knowledge_fold_nonneg domains dk amount :
  (forall kv, In kv dk -> 0 <= snd kv) -> 0 <= amount ->
  forall kv,
    In kv (fold_left (fun acc domain => knowledge_add acc domain amount) domains dk) ->
    0 <= snd kv.
Proof.
  revert dk. induction domains as [|d ds IH]; intros dk H Ha; cbn; [assumption|].
  apply IH; [|assumption]. now apply knowledge_add_nonneg.
Qed.

Lemma add_insight_well_formed now now_snap i m :
  well_formed m -> insight_in_range i -> well_formed (add_insight now now_snap i m).
Proof.
  intros (Hi & Hk & He) Hr. unfold well_formed, add_insight; cbn.
  split; [|split].
  - intros j Hj. apply in_app_or in Hj as [Hj|[<-|[]]]; [now apply Hi|assumption].
  - apply knowledge_fold_nonneg; [assumption|]. destruct Hr as [[H _] _]. lra.
  - assumption.
Qed.

Lemma add_belief_update_well_formed now now_snap u m :
  well_formed m -> -1 <= confidence_change u <= 1 ->
  well_formed (add_belief_update now now_snap u m).
Proof.
  intros (Hi & Hk & He) Hc. unfold well_formed, add_belief_update; cbn.
  split; [assumption|split; [assumption|]].
  assert (Ha : 0 <= Qabs (confidence_change u) <= 1).
  { split; [apply Qabs_nonneg|]. apply Qabs_Qle_condition. lra. }
  lra.
Qed.

Lemma init_well_formed : well_formed init.
Proof.
  unfold well_formed, init; cbn. repeat split; try (intros ? []); lra.
Qed.

Lemma fold_calls_well_formed calls m :
  well_formed m ->
  Forall call_in_range calls -> Forall call_confidence_bounded calls ->
  well_formed (fold_left apply_call calls m).
Proof.
  revert m. induction calls as [|c calls IH]; intros m Hm Hr Hb; cbn; [assumption|].
  inversion Hr as [|? ? Hr1 Hr2]; subst. inversion Hb as [|? ? Hb1 Hb2]; subst.
  apply IH; try assumption.
  destruct c as [now now_snap i|now now_snap u]; cbn in *.
  - now apply add_insight_well_formed.
  - now apply add_belief_update_well_formed.
Qed.

Lemma composite_le_1 m :
  well_formed m -> composite_wisdom (calculate_composite_wisdom_score m) <= 1.
Proof.
  intros (Hi & Hk & He). cbn.
  pose proof (depth_le_1 m). pose proof (coherence_le_1 m).
  pose proof (breadth_bounds m Hk). pose proof (applicability_bounds m Hi).
  pose proof (adaptability_bounds m He). lra.
Qed.

Lemma call_in_rangeb_sound c : call_in_rangeb c = true -> call_in_range c.
Proof.
  unfold call_in_rangeb, call_in_range, insight_in_range, update_in_range, in01, in11.
  destruct c; rewrite ?andb_true_iff, ?Qle_bool_iff; tauto.
Qed.

Lemma calls_in_rangeb_sound calls :
  forallb call_in_rangeb calls = true -> Forall call_in_range calls.
Proof.
  intros H. apply Forall_forall. intros c Hc. apply call_in_rangeb_sound.
  rewrite forallb_forall in H. now apply H.
Qed.

(** C3, as amended.  After any sequence of [add_insight] and
    [add_belief_update] calls whose fields lie in their declared ranges
    and whose confidence changes lie in [-1,1], the composite is
    0.25*depth + 0.20*breadth + 0.20*applicability + 0.25*coherence +
    0.10*adaptability and is at most 1; breadth, applicability and
    adaptability lie in [0,1], depth and coherence are at most 1. *)
Theorem composite_wisdom_upper_bound calls :
  Forall call_in_range calls -> Forall call_confidence_bounded calls ->
  let s := calculate_composite_wisdom_score (run calls) in
  composite_wisdom s
  = depth s * 0.25 + breadth s * 0.20 + applicability s * 0.20
    + coherence s * 0.25 + adaptability s * 0.10
  /\ composite_wisdom s <= 1
  /\ 0 <= breadth s <= 1 /\ 0 <= applicability s <= 1 /\ 0 <= adaptability s <= 1
  /\ depth s <= 1 /\ coherence s <= 1.
Proof.
  intros Hr Hb s.
  assert (Hw : well_formed (run calls))
    by (apply fold_calls_well_formed; [apply init_well_formed|assumption..]).
  split; [reflexivity|]. split; [now apply composite_le_1|].
  destruct Hw as (Hi & Hk & He). cbn.
  split; [now apply breadth_bounds|]. split; [now apply applicability_bounds|].
  split; [now apply adaptability_bounds|].
  split; [apply depth_le_1|apply coherence_le_1].
Qed.

Example composite_wisdom_upper_bound_witness :
  composite_wisdom (calculate_composite_wisdom_score (run test_calls)) <= 1.
Proof.
  refine (proj1 (proj2 (composite_wisdom_upper_bound test_calls _ _))).
  - apply calls_in_rangeb_sound. vm_compute. reflexivity.
  - repeat constructor; vm_compute; discriminate.
Defined.

(** C3, as stated, fails twice.  A run of 36 calls with every field in
    its declared range ends with a negative composite, because the
    depth score is only capped from above; and a single belief update
    with confidence change 1000, a field with no declared range, lifts
    the composite above 1. *)
Lemma composite_wisdom_leaves_unit_interval :
  (Forall call_in_range falling_depth_calls
   /\ (length falling_depth_calls <= 100)%nat
   /\ composite_wisdom (calculate_composite_wisdom_score (run falling_depth_calls)) < 0)
  /\ (Forall call_in_range large_confidence_calls
      /\ (length large_confidence_calls <= 100)%nat
      /\ 1 < composite_wisdom
               (calculate_composite_wisdom_score (run large_confidence_calls))).
Proof.
  split; (split; [apply calls_in_rangeb_sound; vm_compute; reflexivity|]);
    (split; [vm_compute; lia|vm_compute; reflexivity]).
Qed.

(** The score that goes negative in the first run is the depth. *)
Lemma depth_negative_after_falling_depth :
  calculate_depth_score (run falling_depth_calls) == -0.4.
Proof. vm_compute. reflexivity. Qed.

(** *** Persistence *)

(** C5 at a concrete run: the three recording calls of the
    repository's own test.  The aggregator's evidence-integration
    average is 0.48; the file does not hold it and
    [_rebuild_derived_metrics] does not replay the belief updates into
    it, so the loaded aggregator has the initial 0.5, and its
    adaptability (0.65 against 0.64) and composite score differ from
    those of the aggregator that was saved. *)
Theorem save_then_load_changes_scores clock :
  let m := run test_calls in
  let m' := save_then_load clock m in
  evidence_integration_score m == 0.48
  /\ evidence_integration_score m' == 0.5
  /\ adaptability (calculate_composite_wisdom_score m) == 0.64
  /\ adaptability (calculate_composite_wisdom_score m') == 0.65
  /\ ~ composite_wisdom (calculate_composite_wisdom_score m')
       == composite_wisdom (calculate_composite_wisdom_score m).
Proof.
  vm_compute. repeat split. intros H. discriminate H.
Qed.

(** The rebuild also replays all insights before all belief updates.
    With clamping in between, the coherence it ends at can differ from
    the one reached in the recorded order: here 0 instead of 0.1, with
    the evidence average untouched at 0.5. *)
Lemma load_replays_coherence_out_of_order clock :
  let m := run updates_then_insights_calls in
  let m' := save_then_load clock m in
  evidence_integration_score m == evidence_integration_score m'
  /\ current_coherence m == 0.1
  /\ current_coherence m' == 0
  /\ ~ coherence (calculate_composite_wisdom_score m')
       == coherence (calculate_composite_wisdom_score m).
Proof.
  vm_compute. repeat split. intros H. discriminate H.
Qed.

End WisdomFacts.

(** ** Interest tracker *)

Module InterestFacts.
Import Interest.
Open Scope R_scope.

(** *** Dicts keyed by strings *)

Lemma dict_get_set_same {V : Type} (d : list (string * V)) (k : string) (v : V) :
  dict_get String.eqb (dict_set String.eqb d k v) k = Some v.
Proof.
  induction d as [|[k' v'] r IH]; cbn.
  - now rewrite String.eqb_refl.
  - destruct (String.eqb k' k) eqn:E; cbn; rewrite E; [reflexivity|assumption].
Qed.

Lemma dict_get_map {V : Type} (f : V -> V) (d : list (string * V)) (k : string) :
  dict_get String.eqb (map (fun kv => (fst kv, f (snd kv))) d) k
  = option_map f (dict_get String.eqb d k).
Proof.
  induction d as [|[k' v'] r IH]; cbn; [reflexivity|].
  destruct (String.eqb k' k); [reflexivity|assumption].
Qed.

Lemma dict_get_unique {V : Type} (d : list (string * V)) (k : string) (v : V) :
  keys_unique d -> In (k, v) d -> dict_get String.eqb d k = Some v.
Proof.
  unfold keys_unique. induction d as [|[k' v'] r IH]; cbn; intros Hn Hin; [destruct Hin|].
  inversion Hn as [|? ? Hnot Hn']; subst.
  destruct Hin as [[= -> ->]|Hin].
  - now rewrite String.eqb_refl.
  - destruct (String.eqb k' k) eqn:E.
    + apply String.eqb_eq in E. subst k'. exfalso. apply Hnot.
      apply in_map_iff. now exists (k, v).
    + now apply IH.
Qed.

Lemma set_contains_In (x : string) (s : list string) :
  set_contains x s = true <-> In x s.
Proof.
  unfold set_contains. rewrite existsb_exists. split.
  - intros (y & Hy & E). apply String.eqb_eq in E. now subst.
  - intros H. exists x. split; [assumption|apply String.eqb_refl].
Qed.

(** *** Salience *)

Lemma update_salience_engagements t topic s :
  topic_engagements (_update_salience t topic s) = topic_engagements s.
Proof.
  unfold _update_salience.
  destruct (dict_get String.eqb (topic_engagements s) topic); reflexivity.
Qed.

Lemma update_salience_tracked t topic s e :
  dict_get String.eqb (topic_engagements s) topic = Some e ->
  dict_get String.eqb (salience_map (_update_salience t topic s)) topic
  = Some (salience_of t e).
Proof.
  intros H. unfold _update_salience. rewrite H. cbn. apply dict_get_set_same.
Qed.

(** What [record_topic_encounter] leaves behind for its topic. *)
Lemma record_topic_encounter_result now st topic duration valence learning sat s :
  let e :=
    match dict_get String.eqb (topic_engagements s) topic with
    | None => new_engagement now topic duration valence learning sat
    | Some e0 => updated_engagement now e0 duration valence learning sat
    end in
  let s' := record_topic_encounter now st topic duration valence learning sat s in
  dict_get String.eqb (topic_engagements s') topic = Some e
  /\ dict_get String.eqb (salience_map s') topic = Some (salience_of st e).
Proof.
  intros e s'. unfold s', record_topic_encounter. fold e.
  cbn [_update_active_interests topic_engagements salience_map].
  set (s1 := with_engagements _ s).
  assert (H1 : dict_get String.eqb (topic_engagements s1) topic = Some e)
    by apply dict_get_set_same.
  split.
  - now rewrite update_salience_engagements.
  - now apply update_salience_tracked.
Qed.

Lemma salience_of_formula t e :
  salience_of t e
  = 0.3 * exp (- (t - last_encounter e) / 86400)
    + 0.2 * Rmin 1 (INR (encounter_count e) / 10)
    + 0.2 * ((emotional_valence e + 1) / 2)
    + 0.2 * curiosity_level e
    + 0.1 * (1 - 2 * Rabs (learning_progress e - 0.5)).
Proof. unfold salience_of. ring. Qed.

(** C4. After [record_topic_encounter] the salience stored for the
    topic is 0.3*recency + 0.2*frequency + 0.2*emotion_factor +
    0.2*curiosity + 0.1*learning_potential, computed from the topic's
    engagement with recency = exp(-seconds_since_last/86400), frequency
    = min(1, encounter_count/10), emotion_factor = (valence+1)/2 and
    learning_potential = 1 - 2*|progress-0.5|.  For a topic met for the
    first time, with no time elapsed since the encounter, valence 0 and
    learning (so one encounter, curiosity 0.7, progress 0.1) it is
    0.3*1.0 + 0.2*0.1 + 0.2*0.5 + 0.2*0.7 + 0.1*0.2. *)
Theorem salience_after_encounter now st topic duration valence learning sat s :
  let s' := record_topic_encounter now st topic duration valence learning sat s in
  (exists e,
      dict_get String.eqb (topic_engagements s') topic = Some e
      /\ last_encounter e = now
      /\ dict_get String.eqb (salience_map s') topic
         = Some (0.3 * exp (- (st - last_encounter e) / 86400)
                 + 0.2 * Rmin 1 (INR (encounter_count e) / 10)
                 + 0.2 * ((emotional_valence e + 1) / 2)
                 + 0.2 * curiosity_level e
                 + 0.1 * (1 - 2 * Rabs (learning_progress e - 0.5))))
  /\ (dict_get String.eqb (topic_engagements s) topic = None ->
      st = now -> valence = 0 -> learning = true ->
      exists e,
        dict_get String.eqb (topic_engagements s') topic = Some e
        /\ encounter_count e = 1%nat /\ emotional_valence e = 0
        /\ curiosity_level e = 0.7 /\ learning_progress e = 0.1
        /\ dict_get String.eqb (salience_map s') topic
           = Some (0.3 * 1.0 + 0.2 * 0.1 + 0.2 * 0.5 + 0.2 * 0.7 + 0.1 * 0.2)).
Proof.
  intros s'.
  destruct (record_topic_encounter_result now st topic duration valence learning sat s)
    as [He Hs].
  fold s' in He, Hs. split.
  - eexists. split; [exact He|]. split.
    + destruct (dict_get String.eqb (topic_engagements s) topic); reflexivity.
    + rewrite Hs. f_equal. apply salience_of_formula.
  - intros Hnew -> -> ->. rewrite Hnew in He, Hs.
    exists (new_engagement now topic duration 0 true sat).
    split; [exact He|]. repeat (split; [reflexivity|]).
    rewrite Hs. f_equal. unfold salience_of; cbn.
    replace (- (now - now) / 86400) with 0 by lra. rewrite exp_0.
    replace (INR 1) with 1 by reflexivity.
    rewrite Rmin_right by lra. rewrite Rabs_left by lra. lra.
Qed.

Example salience_after_encounter_witness :
  dict_get String.eqb
    (salience_map (record_topic_encounter 0 0 "topic" 300 0 true 0.5 init))
    "topic"%string
  = Some (0.3 * 1.0 + 0.2 * 0.1 + 0.2 * 0.5 + 0.2 * 0.7 + 0.1 * 0.2).
Proof.
  destruct (salience_after_encounter 0 0 "topic" 300 0 true 0.5 init) as [_ H].
  destruct (H eq_refl eq_refl eq_refl eq_refl) as (e & _ & _ & _ & _ & _ & Hs).
  exact Hs.
Defined.

(** *** Joining discussions *)

Lemma related_of_In s a topic :
  In topic (related_of s a) <->
  exists e, dict_get String.eqb (topic_engagements s) a = Some e
            /\ In topic (related_topics e).
Proof.
  unfold related_of.
  destruct (dict_get String.eqb (topic_engagements s) a) as [e|].
  - split; [intros H; now exists e|intros (e' & [= <-] & H); exact H].
  - split; [intros []|intros (e' & [=] & _)].
Qed.

Lemma related_test_true topic s :
  existsb (fun active_topic => set_contains topic (related_of s active_topic))
          (active_interests s) = true
  <-> exists a e, In a (active_interests s)
                  /\ dict_get String.eqb (topic_engagements s) a = Some e
                  /\ In topic (related_topics e).
Proof.
  rewrite existsb_exists. split.
  - intros (a & Ha & H). apply set_contains_In, related_of_In in H as (e & He & Ht).
    now exists a, e.
  - intros (a & e & Ha & He & Ht). exists a. split; [assumption|].
    apply set_contains_In, related_of_In. now exists e.
Qed.

Lemma cluster_test_true topic s :
  existsb
    (fun cluster_topics =>
       set_contains topic cluster_topics
       && existsb (fun active => set_contains active cluster_topics)
                  (active_interests s))
    (map snd (topic_clusters s)) = true
  <-> exists id c a, In (id, c) (topic_clusters s) /\ In topic c
                     /\ In a (active_interests s) /\ In a c.
Proof.
  rewrite existsb_exists. split.
  - intros (c & Hc & H). apply in_map_iff in Hc as ([id c'] & E & Hin).
    cbn in E; subst c'. apply andb_true_iff in H as [Ht Ha].
    apply existsb_exists in Ha as (a & Ha & Hac).
    exists id, c, a. repeat split; try assumption; now apply set_contains_In.
  - intros (id & c & a & Hin & Ht & Ha & Hac). exists c. split.
    + apply in_map_iff. now exists (id, c).
    + apply andb_true_iff. split; [now apply set_contains_In|].
      apply existsb_exists. exists a. split; [assumption|now apply set_contains_In].
Qed.

Lemma should_join_discussion_true topic s :
  should_join_discussion topic s = true <->
  In topic (active_interests s)
  \/ salience_get s topic > 0.4
  \/ (exists a e, In a (active_interests s)
                  /\ dict_get String.eqb (topic_engagements s) a = Some e
                  /\ In topic (related_topics e))
  \/ (exists id c a, In (id, c) (topic_clusters s) /\ In topic c
                     /\ In a (active_interests s) /\ In a c).
Proof.
  rewrite <- related_test_true, <- cluster_test_true, <- set_contains_In.
  unfold should_join_discussion.
  destruct (set_contains topic (active_interests s)); [tauto|].
  destruct (Rgt_dec (salience_get s topic) 0.4) as [G|G]; [tauto|].
  destruct (existsb _ (active_interests s)); [tauto|].
  destruct (existsb _ (map snd (topic_clusters s))); [tauto|].
  split; [discriminate|]. intros [H|[H|[H|H]]]; try discriminate. contradiction.
Qed.

(** Sorting and truncating keep only entries of the salience map. *)
Lemma insert_by_salience_In x y l :
  In y (insert_by_salience x l) -> y = x \/ In y l.
Proof.
  induction l as [|z r IH]; cbn.
  - intros [<-|[]]. now left.
  - destruct (Rlt_dec (snd x) (snd z)).
    + intros [<-|H]; [right; now left|].
      destruct (IH H) as [->|H']; [now left|right; now right].
    + intros [<-|H]; [now left|now right].
Qed.

Lemma sorted_by_salience_In y l : In y (sorted_by_salience l) -> In y l.
Proof.
  induction l as [|x r IH]; cbn; [tauto|].
  intros H. apply insert_by_salience_In in H as [->|H]; [now left|right; now apply IH].
Qed.

Lemma top_interests_salient salience t :
  keys_unique salience -> In t (top_interests salience) ->
  exists v, dict_get String.eqb salience t = Some v /\ v > 0.3.
Proof.
  intros Hu H. unfold top_interests in H.
  apply in_map_iff in H as ([k v] & E & H). cbn in E; subst k.
  apply filter_In in H as [H Hv]. cbn in Hv.
  destruct (Rgt_dec v 0.3) as [G|G]; [|discriminate].
  exists v. split; [|assumption].
  apply dict_get_unique; [assumption|].
  apply sorted_by_salience_In. eapply firstn_member; eauto.
Qed.

(** C7. [should_join_discussion] answers true exactly when the topic
    is an active interest, or its salience exceeds 0.4, or some active
    interest lists it among its related topics, or it shares a cluster
    with some active interest.  So it answers true for every active
    interest; and, the active list being the one computed from the
    salience map, false for a topic of salience 0 that no active
    interest relates to or shares a cluster with. *)
Theorem should_join_discussion_iff topic s :
  (should_join_discussion topic s = true <->
   In topic (active_interests s)
   \/ salience_get s topic > 0.4
   \/ (exists a e, In a (active_interests s)
                   /\ dict_get String.eqb (topic_engagements s) a = Some e
                   /\ In topic (related_topics e))
   \/ (exists id c a, In (id, c) (topic_clusters s) /\ In topic c
                      /\ In a (active_interests s) /\ In a c))
  /\ (In topic (active_interests s) -> should_join_discussion topic s = true)
  /\ (salience_get s topic = 0 ->
      active_up_to_date s -> keys_unique (salience_map s) ->
      (forall a e, In a (active_interests s) ->
                   dict_get String.eqb (topic_engagements s) a = Some e ->
                   ~ In topic (related_topics e)) ->
      (forall id c a, In (id, c) (topic_clusters s) -> In topic c ->
                      In a (active_interests s) -> ~ In a c) ->
      should_join_discussion topic s = false).
Proof.
  split; [apply should_join_discussion_true|]. split.
  - intros H. apply should_join_discussion_true. now left.
  - intros H0 Hup Hu Hrel Hcl.
    destruct (should_join_discussion topic s) eqn:E; [|reflexivity].
    apply should_join_discussion_true in E as [H|[H|[H|H]]].
    + rewrite Hup in H. apply top_interests_salient in H as (v & Hv & Hgt);
        [|assumption].
      unfold salience_get in H0. rewrite Hv in H0. lra.
    + lra.
    + destruct H as (a & e & Ha & He & Ht). exfalso. exact (Hrel a e Ha He Ht).
    + destruct H as (id & c & a & Hin & Ht & Ha & Hac). exfalso.
      exact (Hcl id c a Hin Ht Ha Hac).
Qed.

Example should_join_discussion_iff_witness :
  should_join_discussion "cooking" one_active_interest = false.
Proof.
  apply (proj2 (proj2 (should_join_discussion_iff "cooking" one_active_interest))).
  - reflexivity.
  - unfold active_up_to_date, top_interests, one_active_interest; cbn.
    destruct (Rgt_dec 0.5 0.3) as [G|G]; [reflexivity|exfalso; apply G; lra].
  - unfold keys_unique; cbn. constructor; [intros []|constructor].
  - intros a e _ He. discriminate He.
  - intros id c a [].
Defined.

(** *** Clusters *)

(** C6 at a concrete run.  After the relations a-b, c-d, e-f and a-c
    the tracker holds the clusters "cluster_0" = {a,b,c,d} and
    "cluster_2" = {e,f}.  Relating g and h, both unclustered, names the
    new cluster after the number of clusters, 2, and so replaces
    "cluster_2": e and f, still recorded as related, are in no cluster
    any more. *)
Theorem new_cluster_overwrites_existing_cluster :
  topic_clusters joined
  = [("cluster_0", ["a"; "b"; "c"; "d"]); ("cluster_2", ["e"; "f"])]%string
  /\ topic_clusters fourth_pair
     = [("cluster_0", ["a"; "b"; "c"; "d"]); ("cluster_2", ["g"; "h"])]%string
  /\ cluster_of "e" (topic_clusters joined) = Some "cluster_2"%string
  /\ cluster_of "f" (topic_clusters joined) = Some "cluster_2"%string
  /\ cluster_of "e" (topic_clusters fourth_pair) = None
  /\ cluster_of "f" (topic_clusters fourth_pair) = None.
Proof. vm_compute. repeat split. Qed.

(** *** Decay *)

Lemma decay_loop_engagements now st todo :
  forall done s,
    topic_engagements s = done ++ todo ->
    topic_engagements (decay_loop now st done todo s)
    = done ++ map (fun kv => (fst kv, decayed_engagement now (snd kv))) todo.
Proof.
  induction todo as [|[t e] rest IH]; intros done s Hs; cbn.
  - now rewrite Hs.
  - rewrite IH.
    + now rewrite <- app_assoc.
    + now rewrite update_salience_engagements.
Qed.

Lemma decay_interests_engagements now st s :
  topic_engagements (decay_interests now st s)
  = map (fun kv => (fst kv, decayed_engagement now (snd kv))) (topic_engagements s).
Proof.
  unfold decay_interests. cbn [_update_active_interests topic_engagements].
  now rewrite decay_loop_engagements.
Qed.

Lemma decayed_curiosity_saturates now e :
  0 <= curiosity_level e -> now - last_encounter e >= 10 * 86400 ->
  curiosity_level (decayed_engagement now e) = 1.
Proof.
  intros Hc Ht. unfold decayed_engagement; cbn.
  unfold curiosity_recovery_rate.
  set (d := (now - last_encounter e) / 86400).
  assert (Hd : 10 <= d) by (unfold d; lra).
  assert (Hp : 0 < Rpower interest_decay_rate d) by (unfold Rpower; apply exp_pos).
  assert (Hm : 0 <= curiosity_level e * Rpower interest_decay_rate d)
    by (apply Rmult_le_pos; lra).
  apply Rmin_left. lra.
Qed.

(** C10. For a tracked topic with curiosity in its range [0,1] whose
    last encounter lies at least 10 days (of 86400 seconds) back, one
    [decay_interests] leaves the topic's curiosity at exactly 1.0, which
    is no lower than it was. *)
Theorem decay_saturates_neglected_curiosity now st s topic e :
  dict_get String.eqb (topic_engagements s) topic = Some e ->
  0 <= curiosity_level e <= 1 ->
  now - last_encounter e >= 10 * 86400 ->
  exists e',
    dict_get String.eqb (topic_engagements (decay_interests now st s)) topic = Some e'
    /\ curiosity_level e' = 1
    /\ curiosity_level e <= curiosity_level e'.
Proof.
  intros He [Hc0 Hc1] Ht. exists (decayed_engagement now e).
  rewrite decay_interests_engagements, dict_get_map, He. cbn [option_map].
  split; [reflexivity|].
  rewrite (decayed_curiosity_saturates now e Hc0 Ht). split; [reflexivity|lra].
Qed.

Example decay_saturates_neglected_curiosity_witness :
  exists e',
    dict_get String.eqb
      (topic_engagements (decay_interests 864000 (fun _ => 864000) one_neglected_topic))
      "latin"%string = Some e'
    /\ curiosity_level e' = 1
    /\ curiosity_level neglected_topic <= curiosity_level e'.
Proof.
  apply (decay_saturates_neglected_curiosity 864000 (fun _ => 864000)
           one_neglected_topic "latin" neglected_topic).
  - reflexivity.
  - cbn; lra.
  - cbn; lra.
Defined.

(** *** Reachable trackers *)

Lemma dict_set_key_in {V : Type} (d : list (string * V)) (k : string) (v : V) x :
  In x (map fst (dict_set String.eqb d k v)) -> In x (map fst d) \/ x = k.
Proof.
  induction d as [|[k' v'] r IH]; cbn.
  - intros [<-|[]]. now right.
  - destruct (String.eqb k' k); cbn.
    + tauto.
    + intros [<-|H]; [left; now left|].
      destruct (IH H) as [H'|H']; [left; now right|now right].
Qed.

Lemma dict_set_keys_unique {V : Type} (d : list (string * V)) (k : string) (v : V) :
  keys_unique d -> keys_unique (dict_set String.eqb d k v).
Proof.
  unfold keys_unique. induction d as [|[k' v'] r IH]; cbn; intros H.
  - constructor; [intros []|constructor].
  - inversion H as [|? ? Hnot Hr]; subst.
    destruct (String.eqb k' k) eqn:E; cbn.
    + now constructor.
    + constructor; [|now apply IH].
      intros Hin. apply dict_set_key_in in Hin as [Hin| ->]; [now apply Hnot|].
      now rewrite String.eqb_refl in E.
Qed.



Lemma decayed_curiosity_range now e :
  0 <= curiosity_level e <= 1 -> last_encounter e <= now ->
  0 <= curiosity_level (decayed_engagement now e) <= 1.
Proof.
  intros [Hc0 Hc1] Ht. unfold decayed_engagement; cbn.
  unfold curiosity_recovery_rate.
  set (d := (now - last_encounter e) / 86400).
  assert (Hd : 0 <= d) by (unfold d; lra).
  assert (Hp : 0 < Rpower interest_decay_rate d) by (unfold Rpower; apply exp_pos).
  assert (Hm : 0 <= curiosity_level e * Rpower interest_decay_rate d)
    by (apply Rmult_le_pos; lra).
  split; [apply Rmin_glb; lra|apply Rmin_l].
Qed.

Lemma updated_curiosity_range now e duration valence learning sat :
  0 <= curiosity_level (updated_engagement now e duration valence learning sat) <= 1.
Proof.
  unfold updated_engagement; cbn. split.
  - apply Rmax_l.
  - apply Rmax_lub; [lra|apply Rmin_l].
Qed.




(** *** Persistence *)

(** The tracker's file holds the salience map itself, so loading it
    back gives the same saliences; the active list is recomputed. *)
Lemma save_then_load_tracker s :
  active_up_to_date s -> load_from_file (save_to_file s) = s.
Proof.
  unfold active_up_to_date, load_from_file, save_to_file, _update_active_interests.
  destruct s; cbn. now intros <-.
Qed.

End InterestFacts.

(** ** Orchestrator *)

Module OrchestratorFacts.
Import Orchestrator.

Lemma check_wake_rest_count t o :
  cycle_count (_check_wake_rest_state t o) = cycle_count o.
Proof.
  unfold _check_wake_rest_state. destruct (wake_rest_controller o); reflexivity.
Qed.

Lemma check_wake_rest_history t o :
  context_history (_check_wake_rest_state t o) = context_history o.
Proof.
  unfold _check_wake_rest_state. destruct (wake_rest_controller o); reflexivity.
Qed.

(** The history after a cycle: the new context appended, then the last
    100 kept. *)
Lemma run_cycle_history r o :
  context_history (_run_orchestration_cycle r o)
  = lastn 100 (context_history o ++ [cycle_context r o]).
Proof.
  unfold _run_orchestration_cycle; cbn [context_history].
  destruct (100 <? length (context_history o ++ [cycle_context r o]))%nat eqn:E;
    [reflexivity|].
  apply Nat.ltb_ge in E. now rewrite lastn_all.
Qed.

(** Only the integration phase writes metadata, and it leaves the
    [cycle] entry alone. *)
Lemma cycle_context_number r o : cycle_number (cycle_context r o) = Some (cycle_count o).
Proof.
  unfold cycle_context, cycle_number.
  unfold _phase_integration, _phase_consolidation, _phase_learning, _phase_social,
    _phase_emotion, _phase_cognition, _phase_perception.
  destruct (wake_rest_controller o) as [w|]; [destruct (WakeRest.state w)|];
    destruct (interest_tracker o), (wisdom_metrics o), (echobeats o),
      (emotion_system o), (theory_of_mind o), (echodream o); reflexivity.
Qed.

Lemma loop_iteration_count r o : cycle_count (loop_iteration r o) = S (cycle_count o).
Proof.
  unfold loop_iteration; cbn [cycle_count].
  unfold _run_orchestration_cycle; cbn [cycle_count].
  now rewrite check_wake_rest_count.
Qed.

Lemma loop_iteration_history r o :
  context_history (loop_iteration r o)
  = lastn 100 (context_history o
               ++ [cycle_context r (_check_wake_rest_state (wake_rest r) o)]).
Proof.
  unfold loop_iteration; cbn [context_history].
  now rewrite run_cycle_history, check_wake_rest_history.
Qed.

Lemma loop_iteration_recent r o :
  history_is_recent o -> history_is_recent (loop_iteration r o).
Proof.
  unfold history_is_recent. intros H.
  rewrite loop_iteration_count, loop_iteration_history.
  rewrite lastn_map, map_app, H. cbn [map].
  rewrite cycle_context_number, check_wake_rest_count.
  change [Some (cycle_count o)] with (map (@Some nat) [cycle_count o]).
  rewrite <- map_app, <- lastn_map. f_equal.
  rewrite lastn_snoc. now rewrite seq_S.
Qed.

Lemma run_cycles_recent rs :
  forall o,
    history_is_recent o ->
    cycle_count (run_cycles rs o) = (cycle_count o + length rs)%nat
    /\ history_is_recent (run_cycles rs o).
Proof.
  induction rs as [|r rs IH]; intros o H; cbn.
  - split; [lia|assumption].
  - destruct (IH (loop_iteration r o) (loop_iteration_recent r o H)) as [Hc Hh].
    split; [|assumption].
    unfold run_cycles in Hc. rewrite Hc, loop_iteration_count. lia.
Qed.

(** C8. Every completed cycle raises the cycle count by exactly 1 and
    leaves at most 100 contexts in the history: the history it had, with
    the context of this cycle appended, cut down to its last 100
    entries.  So after [n] completed cycles on a fresh orchestrator the
    count is [n] and the history holds the contexts of the last
    [min n 100] cycles, oldest first. *)
Theorem completed_cycles_count_and_history r o rs eb ed em tom it wm wr :
  (cycle_count (loop_iteration r o) = S (cycle_count o)
   /\ (length (context_history (loop_iteration r o)) <= 100)%nat
   /\ exists c,
        current_context (loop_iteration r o) = Some c
        /\ cycle_number c = Some (cycle_count o)
        /\ context_history (loop_iteration r o)
           = lastn 100 (context_history o ++ [c]))
  /\ (let o' := run_cycles rs (init eb ed em tom it wm wr) in
      cycle_count o' = length rs
      /\ length (context_history o') = Nat.min 100 (length rs)
      /\ map cycle_number (context_history o')
         = map Some (lastn 100 (seq 0 (length rs)))).
Proof.
  split.
  - split; [apply loop_iteration_count|]. split.
    + rewrite loop_iteration_history, lastn_length. lia.
    + exists (cycle_context r (_check_wake_rest_state (wake_rest r) o)).
      split; [reflexivity|]. split.
      * now rewrite cycle_context_number, check_wake_rest_count.
      * apply loop_iteration_history.
  - intros o'.
    destruct (run_cycles_recent rs (init eb ed em tom it wm wr)) as [Hc Hh];
      [reflexivity|].
    fold o' in Hc, Hh. cbn in Hc. split; [assumption|].
    unfold history_is_recent in Hh. rewrite Hc in Hh. split; [|assumption].
    apply (f_equal (@length (option nat))) in Hh.
    rewrite !length_map, lastn_length, length_seq in Hh. assumption.
Qed.

End OrchestratorFacts.

(** ** Wake/rest controller: the remaining rows and derived metrics *)

Module WakeRestExtFacts.
Import QOps QOpsFacts WakeRest WakeRestFacts WakeRestExt.
Open Scope Q_scope.

Lemma update_metrics_entered_time now pq cl nm co c :
  state_entered_time (update_metrics now pq cl nm co c) = state_entered_time c.
Proof. unfold update_metrics. destruct (state c); reflexivity. Qed.

Lemma update_metrics_optimal_rest now pq cl nm co c :
  optimal_rest_duration (update_metrics now pq cl nm co c) = optimal_rest_duration c.
Proof. unfold update_metrics. destruct (state c); reflexivity. Qed.

(** X1. The rows of the transition table for the resting states, as one
    [update] applies them.  With [time_in_state] the time since the state
    was entered, read in [_check_state_transitions], and fatigue and
    pressure those left by the recovery step: RESTING goes to DEEP_REST
    once more than 120 s have passed, before the wake test is looked at;
    otherwise to WAKING when fatigue < 0.2 and pressure < 0.3, and else
    stays.  DEEP_REST goes to WAKING when fatigue < 0.2 and pressure <
    0.2, or when the time exceeds the learned rest duration and fatigue <
    0.3, and else stays.  WAKING goes to AWAKE after more than 10 s and
    stays until then. *)
Theorem update_follows_rest_rows t pq cl nm co c :
  let c' := update t pq cl nm co c in
  let time_in_state := at_check t - state_entered_time c in
  let f := cognitive_fatigue c' in
  let p := consolidation_pressure c' in
  (state c = RESTING -> 120 < time_in_state -> state c' = DEEP_REST)
  /\ (state c = RESTING -> time_in_state <= 120 -> f < 0.2 -> p < 0.3 ->
      state c' = WAKING)
  /\ (state c = RESTING -> time_in_state <= 120 -> ~ (f < 0.2 /\ p < 0.3) ->
      state c' = RESTING)
  /\ (state c = DEEP_REST -> f < 0.2 -> p < 0.2 -> state c' = WAKING)
  /\ (state c = DEEP_REST -> optimal_rest_duration c < time_in_state -> f < 0.3 ->
      state c' = WAKING)
  /\ (state c = DEEP_REST -> ~ (f < 0.2 /\ p < 0.2) ->
      ~ (optimal_rest_duration c < time_in_state /\ f < 0.3) ->
      state c' = DEEP_REST)
  /\ (state c = WAKING -> 10 < time_in_state -> state c' = AWAKE)
  /\ (state c = WAKING -> time_in_state <= 10 -> state c' = WAKING).
Proof.
  intros c' time_in_state f p. unfold f, p, c', time_in_state.
  rewrite update_fatigue, update_pressure, update_state.
  set (c2 := update_metrics (at_metrics t) pq cl nm co (track_quality pq cl c)).
  assert (Hs2 : state c2 = state c)
    by (unfold c2; now rewrite update_metrics_state).
  assert (He2 : state_entered_time c2 = state_entered_time c)
    by (unfold c2; now rewrite update_metrics_entered_time).
  assert (Ho2 : optimal_rest_duration c2 = optimal_rest_duration c)
    by (unfold c2; now rewrite update_metrics_optimal_rest).
  unfold _check_state_transitions. rewrite Hs2, He2, Ho2. unfold wake_threshold.
  set (tm := at_check t - state_entered_time c).
  repeat split.
  - intros -> H. apply gtb_true in H. now rewrite H.
  - intros -> H Hf Hp. apply gtb_false in H. apply ltb_true in Hf, Hp.
    now rewrite H, Hf, Hp.
  - intros -> H Hn. apply gtb_false in H. rewrite H.
    destruct (ltb (cognitive_fatigue c2) 0.2) eqn:Ef;
      destruct (ltb (consolidation_pressure c2) 0.3) eqn:Ep; try reflexivity.
    exfalso. apply Hn. split; now apply ltb_true.
  - intros -> Hf Hp. apply ltb_true in Hf, Hp. now rewrite Hf, Hp.
  - intros -> H Hf. apply gtb_true in H. apply ltb_true in Hf. rewrite H, Hf.
    now destruct (ltb (cognitive_fatigue c2) 0.2 && ltb (consolidation_pressure c2) 0.2).
  - intros -> Hn1 Hn2.
    destruct (ltb (cognitive_fatigue c2) 0.2 && ltb (consolidation_pressure c2) 0.2)
      eqn:E1.
    { exfalso. apply Hn1. apply andb_true_iff in E1 as [E1 E1'].
      split; now apply ltb_true. }
    destruct (gtb tm (optimal_rest_duration c) && ltb (cognitive_fatigue c2) 0.3)
      eqn:E2; [|reflexivity].
    exfalso. apply Hn2. apply andb_true_iff in E2 as [E2 E2'].
    split; [now apply gtb_true|now apply ltb_true].
  - intros -> H. apply gtb_true in H. now rewrite H.
  - intros -> H. apply gtb_false in H. now rewrite H.
Qed.

Example update_follows_rest_rows_witness :
  state (update (mkReadings 60 60 60) 0.9 0.9 0 true rested) = WAKING.
Proof.
  destruct (update_follows_rest_rows (mkReadings 60 60 60) 0.9 0.9 0 true rested)
    as (_ & H & _).
  apply H; [reflexivity|vm_compute; discriminate|vm_compute; reflexivity..].
Defined.

Lemma awake_step_grows now pq cl nm c :
  pq <= 1 -> cl <= 1 -> (0 <= nm)%Z -> state_entered_time c <= now ->
  forall lo, lo <= 1 ->
    (lo <= cognitive_fatigue c ->
     lo <= cognitive_fatigue (_update_awake_state now pq cl nm c))
    /\ (lo <= consolidation_pressure c ->
        lo <= consolidation_pressure (_update_awake_state now pq cl nm c)).
Proof.
  intros Hq Hc Hn Ht lo Hlo. unfold _update_awake_state; cbn.
  unfold fatigue_accumulation_rate.
  set (m := (now - state_entered_time c) / 60).
  assert (Hm : 0 <= m) by (unfold m; apply Qle_shift_div_l; lra).
  assert (Hz : 0 <= inject_Z nm)
    by (change 0 with (inject_Z 0); now rewrite <- Zle_Qle).
  assert (H1 : 0 <= (1 - pq) * 0.005 * m)
    by (apply Qmult_le_0_compat; [lra|assumption]).
  assert (H2 : 0 <= (1 - cl) * 0.005 * m)
    by (apply Qmult_le_0_compat; [lra|assumption]).
  split; intros H; apply Q.min_glb; lra.
Qed.

(** X2. When [should_rest_now] holds, the next [update] (quality and
    coherence at most 1, no negative memory count, a clock that has not
    run backwards) takes an AWAKE controller to DROWSY and a DROWSY one to
    RESTING: two updates are needed to put an awake controller to
    rest. *)
Theorem should_rest_now_moves_on t pq cl nm co c :
  should_rest_now c = true ->
  pq <= 1 -> cl <= 1 -> (0 <= nm)%Z -> state_entered_time c <= at_metrics t ->
  (state c = AWAKE -> state (update t pq cl nm co c) = DROWSY)
  /\ (state c = DROWSY -> state (update t pq cl nm co c) = RESTING).
Proof.
  intros Hr Hq Hc Hn Ht. rewrite update_state.
  unfold should_rest_now, rest_threshold, consolidation_threshold in Hr.
  apply orb_true_iff in Hr. rewrite !geb_true in Hr.
  destruct (awake_step_grows (at_metrics t) pq cl nm (track_quality pq cl c)
              Hq Hc Hn Ht 0.75 ltac:(lra)) as [Gf _].
  destruct (awake_step_grows (at_metrics t) pq cl nm (track_quality pq cl c)
              Hq Hc Hn Ht 0.7 ltac:(lra)) as [_ Gp].
  change (cognitive_fatigue (track_quality pq cl c)) with (cognitive_fatigue c) in Gf.
  change (consolidation_pressure (track_quality pq cl c))
    with (consolidation_pressure c) in Gp.
  unfold update_metrics. rewrite track_quality_state.
  split; intros Ha; rewrite Ha;
    set (c2 := _update_awake_state (at_metrics t) pq cl nm (track_quality pq cl c)) in *;
    assert (Hs : state c2 = state c) by reflexivity;
    unfold _check_state_transitions; rewrite Hs, Ha;
    unfold drowsy_threshold, rest_threshold, consolidation_threshold.
  - destruct Hr as [H|H].
    + assert (E : geb (cognitive_fatigue c2) 0.6 = true)
        by (apply geb_true; specialize (Gf H); lra).
      now rewrite E.
    + assert (E : geb (consolidation_pressure c2) 0.7 = true)
        by (apply geb_true; exact (Gp H)).
      rewrite E. now destruct (geb (cognitive_fatigue c2) 0.6).
  - destruct Hr as [H|H].
    + assert (E : geb (cognitive_fatigue c2) 0.75 = true)
        by (apply geb_true; exact (Gf H)).
      now rewrite E.
    + assert (E : geb (consolidation_pressure c2) 0.7 = true)
        by (apply geb_true; exact (Gp H)).
      rewrite E. now destruct (geb (cognitive_fatigue c2) 0.75).
Qed.

Example should_rest_now_moves_on_witness :
  state (update (mkReadings 1 1 1) 0.8 0.8 0 false drowsy_and_tired) = RESTING.
Proof.
  refine (proj2 (should_rest_now_moves_on (mkReadings 1 1 1) 0.8 0.8 0 false
                   drowsy_and_tired _ _ _ _ _) _).
  - reflexivity.
  - vm_compute; discriminate.
  - vm_compute; discriminate.
  - lia.
  - vm_compute; discriminate.
  - reflexivity.
Defined.


(** X3. Between transitions the two scalars move one way only: while
    AWAKE or DROWSY an [update] never lowers fatigue or pressure, while
    RESTING or DEEP_REST it never raises them, and while WAKING it leaves
    them alone. *)
Theorem update_moves_scalars_one_way t pq cl nm co c :
  in_range c ->
  pq <= 1 -> cl <= 1 -> (0 <= nm)%Z -> state_entered_time c <= at_metrics t ->
  let c' := update t pq cl nm co c in
  (state c = AWAKE \/ state c = DROWSY ->
   cognitive_fatigue c <= cognitive_fatigue c'
   /\ consolidation_pressure c <= consolidation_pressure c')
  /\ (state c = RESTING \/ state c = DEEP_REST ->
      cognitive_fatigue c' <= cognitive_fatigue c
      /\ consolidation_pressure c' <= consolidation_pressure c)
  /\ (state c = WAKING ->
      cognitive_fatigue c' = cognitive_fatigue c
      /\ consolidation_pressure c' = consolidation_pressure c).
Proof.
  intros [[Hf0 Hf1] [Hp0 Hp1]] Hq Hc Hn Ht c'. unfold c'.
  rewrite update_fatigue, update_pressure.
  unfold update_metrics. rewrite track_quality_state.
  split; [|split].
  - intros Hs.
    assert (E : match state c with
                | AWAKE | DROWSY =>
                    _update_awake_state (at_metrics t) pq cl nm (track_quality pq cl c)
                | RESTING | DEEP_REST =>
                    _update_resting_state (at_metrics t) co (track_quality pq cl c)
                | WAKING => track_quality pq cl c
                end
                = _update_awake_state (at_metrics t) pq cl nm (track_quality pq cl c))
      by (destruct Hs as [-> | ->]; reflexivity).
    rewrite E. split.
    + apply (awake_step_grows (at_metrics t) pq cl nm (track_quality pq cl c)
               Hq Hc Hn Ht (cognitive_fatigue c) Hf1). apply Qle_refl.
    + apply (awake_step_grows (at_metrics t) pq cl nm (track_quality pq cl c)
               Hq Hc Hn Ht (consolidation_pressure c) Hp1). apply Qle_refl.
  - intros Hs.
    assert (E : match state c with
                | AWAKE | DROWSY =>
                    _update_awake_state (at_metrics t) pq cl nm (track_quality pq cl c)
                | RESTING | DEEP_REST =>
                    _update_resting_state (at_metrics t) co (track_quality pq cl c)
                | WAKING => track_quality pq cl c
                end
                = _update_resting_state (at_metrics t) co (track_quality pq cl c))
      by (destruct Hs as [-> | ->]; reflexivity).
    rewrite E. unfold _update_resting_state; cbn. unfold fatigue_recovery_rate.
    set (m := (at_metrics t - state_entered_time c) / 60).
    assert (Hm : 0 <= m) by (unfold m; apply Qle_shift_div_l; lra).
    split; [apply Q.max_lub; lra|destruct co; lra].
  - intros ->. split; reflexivity.
Qed.

Example update_moves_scalars_one_way_witness :
  cognitive_fatigue (update (mkReadings 60 60 60) 0.9 0.9 0 true rested)
  <= cognitive_fatigue rested
  /\ consolidation_pressure (update (mkReadings 60 60 60) 0.9 0.9 0 true rested)
     <= consolidation_pressure rested.
Proof.
  refine (proj1 (proj2 (update_moves_scalars_one_way
                          (mkReadings 60 60 60) 0.9 0.9 0 true rested _ _ _ _ _)) _).
  - unfold in_range; cbn. repeat split; vm_compute; discriminate.
  - vm_compute; discriminate.
  - vm_compute; discriminate.
  - lia.
  - vm_compute; discriminate.
  - left. reflexivity.
Defined.

Lemma transition_total_cycles now s c :
  total_cycles (_transition_to_state now s c)
  = match s with WAKING => S (total_cycles c) | _ => total_cycles c end.
Proof. by_cases_on_target s. Qed.

Lemma update_metrics_total_cycles now pq cl nm co c :
  total_cycles (update_metrics now pq cl nm co c) = total_cycles c.
Proof. unfold update_metrics. destruct (state c); reflexivity. Qed.

(** X4. [total_cycles] counts the entries into WAKING and nothing else:
    an [update] raises it by one exactly when it takes the controller
    from another state into WAKING, and [force_rest] and [force_wake]
    leave it as it is. *)
Theorem total_cycles_counts_wakings t pq cl nm co now c :
  let c' := update t pq cl nm co c in
  (state c <> WAKING -> state c' = WAKING -> total_cycles c' = S (total_cycles c))
  /\ (state c' <> WAKING \/ state c = WAKING -> total_cycles c' = total_cycles c)
  /\ total_cycles (force_rest now c) = total_cycles c
  /\ total_cycles (force_wake now c) = total_cycles c.
Proof.
  intros c'.
  assert (Hst := update_state t pq cl nm co c). fold c' in Hst.
  unfold c' in *. unfold update in *.
  set (c2 := update_metrics (at_metrics t) pq cl nm co (track_quality pq cl c)) in *.
  assert (Hs2 : state c2 = state c) by (unfold c2; now rewrite update_metrics_state).
  assert (Ht2 : total_cycles c2 = total_cycles c)
    by (unfold c2; now rewrite update_metrics_total_cycles).
  set (ns := _check_state_transitions (at_check t) c2) in *.
  assert (Hfr : total_cycles (force_rest now c) = total_cycles c)
    by (unfold force_rest; now rewrite transition_total_cycles).
  assert (Hfw : total_cycles (force_wake now c) = total_cycles c)
    by (unfold force_wake; cbn [total_cycles]; now rewrite transition_total_cycles).
  destruct (ConsciousnessState_eqb_spec ns (state c2)) as [E|E]; cbn [negb] in *.
  - split; [|split; [|split]]; try assumption.
    + intros Hn Hw. congruence.
    + intros _. exact Ht2.
  - rewrite transition_total_cycles. rewrite transition_state in *.
    split; [|split; [|split]]; try assumption.
    + intros _ Hw. rewrite Hw. congruence.
    + intros [Hn|Hw]; [destruct ns; congruence|].
      destruct ns; congruence.
Qed.

Example total_cycles_counts_wakings_witness :
  total_cycles (update (mkReadings 60 60 60) 0.9 0.9 0 true rested)
  = S (total_cycles rested).
Proof.
  refine (proj1 (total_cycles_counts_wakings
                   (mkReadings 60 60 60) 0.9 0.9 0 true 0 rested) _ _).
  - discriminate.
  - reflexivity.
Defined.

Lemma transition_quality now s c :
  recent_processing_quality (_transition_to_state now s c) = recent_processing_quality c
  /\ recent_coherence_levels (_transition_to_state now s c) = recent_coherence_levels c.
Proof. split; by_cases_on_target s. Qed.

Lemma update_metrics_quality now pq cl nm co c :
  recent_processing_quality (update_metrics now pq cl nm co c)
  = recent_processing_quality c
  /\ recent_coherence_levels (update_metrics now pq cl nm co c)
     = recent_coherence_levels c.
Proof. unfold update_metrics. destruct (state c); split; reflexivity. Qed.

Lemma keep_last_20 (l : list Q) :
  (if (20 <? length l)%nat then lastn 20 l else l) = lastn 20 l.
Proof.
  destruct (20 <? length l)%nat eqn:E; [reflexivity|].
  apply Nat.ltb_ge in E. now rewrite lastn_all.
Qed.

(** X5. The two sample histories are sliding windows: after an
    [update] each holds the last 20 of its previous samples followed by
    the new one, so never more than 20, whatever it held before and
    whatever else the call did. *)
Theorem update_keeps_last_20_samples t pq cl nm co c :
  let c' := update t pq cl nm co c in
  recent_processing_quality c' = lastn 20 (recent_processing_quality c ++ [pq])
  /\ recent_coherence_levels c' = lastn 20 (recent_coherence_levels c ++ [cl])
  /\ (length (recent_processing_quality c') <= 20)%nat
  /\ (length (recent_coherence_levels c') <= 20)%nat.
Proof.
  intros c'.
  assert (H : recent_processing_quality c' = lastn 20 (recent_processing_quality c ++ [pq])
              /\ recent_coherence_levels c' = lastn 20 (recent_coherence_levels c ++ [cl])).
  { unfold c', update.
    set (c2 := update_metrics (at_metrics t) pq cl nm co (track_quality pq cl c)).
    assert (H2 : recent_processing_quality c2
                 = lastn 20 (recent_processing_quality c ++ [pq])
                 /\ recent_coherence_levels c2
                    = lastn 20 (recent_coherence_levels c ++ [cl])).
    { unfold c2.
      destruct (update_metrics_quality (at_metrics t) pq cl nm co (track_quality pq cl c))
        as [-> ->].
      unfold track_quality; cbn [recent_processing_quality recent_coherence_levels].
      now rewrite !keep_last_20. }
    destruct (negb _); [|exact H2].
    destruct (transition_quality (at_transition t)
                (_check_state_transitions (at_check t) c2) c2) as [-> ->].
    exact H2. }
  destruct H as [H1 H2]. rewrite H1, H2, !lastn_length. repeat split; lia.
Qed.







Lemma safe_average_bounds (l : list Q) :
  (forall x, In x l -> 0 <= x <= 1) -> 0 <= Qsum l / Qlen1 l <= 1.
Proof.
  intros H. apply WisdomFacts.ratio_bounds.
  - apply WisdomFacts.Qsum_nonneg. intros x Hx. now apply H.
  - apply Qle_trans with (Qlen l).
    + apply WisdomFacts.Qsum_le_len. intros x Hx. now apply H.
    + unfold Qlen, Qlen1. rewrite <- Zle_Qle. lia.
  - unfold Qlen1. change 0 with (inject_Z 0). rewrite <- Zlt_Qlt. lia.
Qed.

Lemma int_of_percent (p : Q) : 0 <= p <= 1 -> (0 <= int_of (p * 100) <= 100)%Z.
Proof.
  intros [H0 H1]. unfold int_of. destruct p as [n d]. unfold Qle in H0, H1.
  cbn in *. split.
  - apply Z.quot_pos; lia.
  - apply Z.quot_le_upper_bound; lia.
Qed.

(** X7. For a controller whose scalars and kept samples lie in [0,1],
    the metrics derived by [get_fatigue_metrics] and
    [get_consolidation_metrics] stay in fixed bands: averaged quality and
    coherence in [0,1] (0 when no sample was taken yet, without dividing
    by zero), response latency in [1,3], error rate in [0,0.3], attention
    span in [0.2,1], between 0 and 100 unconsolidated memories, and
    consolidation quality in [0.5,1]. *)
Theorem derived_metrics_bounds c :
  in_range c -> samples_in_range c ->
  let fm := get_fatigue_metrics c in
  let cm := get_consolidation_metrics c in
  0 <= processing_quality fm <= 1
  /\ 0 <= coherence_level fm <= 1
  /\ 1 <= response_latency fm <= 3
  /\ 0 <= error_rate fm <= 0.3
  /\ 0.2 <= attention_span fm <= 1
  /\ (0 <= unconsolidated_memories cm <= 100)%Z
  /\ 0.5 <= consolidation_quality cm <= 1
  /\ (recent_processing_quality c = [] -> processing_quality fm == 0).
Proof.
  intros [[Hf0 Hf1] [Hp0 Hp1]] [Hq Hc] fm cm. unfold fm, cm; cbn.
  split; [now apply safe_average_bounds|].
  split; [now apply safe_average_bounds|].
  split; [lra|]. split; [lra|]. split; [lra|].
  split; [apply int_of_percent; lra|]. split; [lra|].
  intros ->. reflexivity.
Qed.

Example derived_metrics_bounds_witness :
  (0 <= unconsolidated_memories (get_consolidation_metrics rested) <= 100)%Z.
Proof.
  refine (proj1 (proj2 (proj2 (proj2 (proj2 (proj2
            (derived_metrics_bounds rested _ _))))))).
  - unfold in_range; cbn. repeat split; vm_compute; discriminate.
  - unfold samples_in_range; cbn.
    split; intros x [<-|[]]; split; vm_compute; discriminate.
Defined.

End WakeRestExtFacts.

(** ** Wisdom metrics: logs, lookups, persistence *)

Module WisdomExtFacts.
Import QOps QOpsFacts Wisdom WisdomFacts WisdomExt.
Open Scope Q_scope.

Lemma clamp01_range x : 0 <= clamp01 x <= 1.
Proof.
  unfold clamp01. split; [apply Q.le_max_l|].
  apply Q.max_lub; [lra|apply Q.le_min_l].
Qed.

Lemma apply_call_coherence_sound m c : coherence_sound m -> coherence_sound (apply_call m c).
Proof.
  intros (Hc & Hh & _).
  destruct c as [now now_snap i|now now_snap u]; unfold coherence_sound; cbn.
  - split; [apply clamp01_range|]. split.
    + intros s Hs. apply in_app_or in Hs as [Hs|[<-|[]]]; [now apply Hh|].
      apply clamp01_range.
    + right. now exists (worldview_coherence_history m), now.
  - split; [apply clamp01_range|]. split.
    + intros s Hs. apply in_app_or in Hs as [Hs|[<-|[]]]; [now apply Hh|].
      apply clamp01_range.
    + right. now exists (worldview_coherence_history m), now.
Qed.

Lemma fold_calls_coherence_sound calls :
  forall m, coherence_sound m -> coherence_sound (fold_left apply_call calls m).
Proof.
  induction calls as [|c calls IH]; intros m H; cbn; [assumption|].
  apply IH. now apply apply_call_coherence_sound.
Qed.

(** X8. Whatever is recorded, with fields in range or not, the running
    coherence stays in [0,1], so does every sample of the coherence
    history, and the newest sample is the current coherence. *)
Theorem coherence_stays_in_unit_interval calls :
  let m := run calls in
  0 <= current_coherence m <= 1
  /\ (forall s, In s (worldview_coherence_history m) -> 0 <= snd s <= 1)
  /\ (worldview_coherence_history m = []
      \/ exists h ts, worldview_coherence_history m = h ++ [(ts, current_coherence m)]).
Proof.
  apply fold_calls_coherence_sound. unfold coherence_sound, init; cbn.
  split; [lra|]. split; [intros s []|now left].
Qed.

Lemma fold_calls_logs calls :
  forall m,
    let m' := fold_left apply_call calls m in
    insights m' = insights m ++ insights_of calls
    /\ belief_updates m' = belief_updates m ++ updates_of calls
    /\ length (worldview_coherence_history m')
       = (length (worldview_coherence_history m) + length calls)%nat
    /\ length (wisdom_history m') = (length (wisdom_history m) + length calls)%nat
    /\ belief_revision_count m'
       = (belief_revision_count m + length (updates_of calls))%nat.
Proof.
  induction calls as [|c calls IH]; intros m; cbn.
  - rewrite !app_nil_r. repeat split; lia.
  - destruct (IH (apply_call m c)) as (H1 & H2 & H3 & H4 & H5).
    rewrite H1, H2, H3, H4, H5.
    destruct c as [now now_snap i|now now_snap u]; cbn;
      rewrite ?length_app, <- ?app_assoc; cbn; repeat split; lia.
Qed.

Lemma calls_split_length calls :
  (length (insights_of calls) + length (updates_of calls))%nat = length calls.
Proof.
  induction calls as [|[? ? ?|? ? ?] calls IH]; cbn; lia.
Qed.

(** X9. The two logs are append-only and in call order: after any
    sequence of recording calls the insight log holds exactly the insights
    passed to [add_insight], the belief log exactly the updates passed to
    [add_belief_update], each call has left one coherence sample and one
    score snapshot, and [belief_revision_count] is the length of the belief
    log. *)
Theorem logs_follow_calls calls :
  let m := run calls in
  insights m = insights_of calls
  /\ belief_updates m = updates_of calls
  /\ length (worldview_coherence_history m) = length calls
  /\ length (wisdom_history m) = length calls
  /\ belief_revision_count m = length (belief_updates m)
  /\ (length (insights m) + length (belief_updates m))%nat = length calls.
Proof.
  destruct (fold_calls_logs calls init) as (H1 & H2 & H3 & H4 & H5).
  cbn in *. fold (run calls) in *. rewrite H1, H2, H3, H4, H5.
  repeat split. apply calls_split_length.
Qed.

(** X10. A link between two domains is counted under one key, whatever
    order an insight lists them in: the key is the pair in alphabetical
    order, and insights naming the domains as (a, b) or as (b, a) leave
    the same connection counts. *)
Theorem connections_ignore_order (a b : string) dc now now_snap m :
  sorted_pair a b = sorted_pair b a
  /\ String.leb (fst (sorted_pair a b)) (snd (sorted_pair a b)) = true
  /\ connect_domains dc [a; b] = connect_domains dc [b; a]
  /\ domain_connections (add_insight now now_snap (linking_insight a b) m)
     = domain_connections (add_insight now now_snap (linking_insight b a) m).
Proof.
  assert (Hs : sorted_pair a b = sorted_pair b a).
  { unfold sorted_pair.
    destruct (String.leb a b) eqn:E1, (String.leb b a) eqn:E2; try reflexivity.
    - now rewrite (String.leb_antisym a b E1 E2).
    - destruct (String.leb_total a b); congruence. }
  split; [exact Hs|]. split.
  - unfold sorted_pair. destruct (String.leb a b) eqn:E; cbn; [exact E|].
    destruct (String.leb_total a b); congruence.
  - split; cbn; now rewrite Hs.
Qed.

(** *** What a save and a load keep *)

Section SameScores.
Context (f : WisdomInsight -> Q) (l1 l2 : list WisdomInsight).
Hypothesis same : map f l1 = map f l2.

Lemma same_length : length l1 = length l2.
Proof. rewrite <- (length_map f l1), <- (length_map f l2). now rewrite same. Qed.

Lemma same_recent_average n : avg_of f (lastn n l1) = avg_of f (lastn n l2).
Proof.
  unfold avg_of. rewrite <- !(Qlen_map f), !lastn_map. now rewrite same.
Qed.

Lemma same_early_sum n : Qsum (map f (firstn n l1)) = Qsum (map f (firstn n l2)).
Proof. rewrite <- !firstn_map. now rewrite same. Qed.

Lemma same_count (p : Q -> bool) :
  Qlen (filter (fun i => p (f i)) l1) = Qlen (filter (fun i => p (f i)) l2).
Proof.
  rewrite <- (Qlen_map f (filter _ l1)), <- (Qlen_map f (filter _ l2)).
  rewrite <- !filter_map_swap. now rewrite same.
Qed.
End SameScores.

Lemma depth_score_same m1 m2 :
  map depth_score (insights m1) = map depth_score (insights m2) ->
  calculate_depth_score m1 = calculate_depth_score m2.
Proof.
  intros H. unfold calculate_depth_score.
  pose proof (same_length _ _ _ H) as Hl.
  rewrite (same_recent_average _ _ _ H 20), (same_early_sum _ _ _ H 10), Hl.
  rewrite (same_count _ _ _ H (fun x => gtb x 0.8)).
  destruct (insights m1), (insights m2); try discriminate; reflexivity.
Qed.

Lemma applicability_score_same m1 m2 :
  map applicability_score (insights m1) = map applicability_score (insights m2) ->
  calculate_applicability_score m1 = calculate_applicability_score m2.
Proof.
  intros H. unfold calculate_applicability_score.
  pose proof (same_length _ _ _ H) as Hl.
  rewrite (same_recent_average _ _ _ H 20).
  rewrite (same_count _ _ _ H (fun x => gtb x 0.7)).
  unfold Qlen at 2 4. rewrite Hl.
  destruct (insights m1), (insights m2); try discriminate; reflexivity.
Qed.

Lemma breadth_score_same m1 m2 :
  domain_knowledge m1 = domain_knowledge m2 ->
  domain_connections m1 = domain_connections m2 ->
  calculate_breadth_score m1 = calculate_breadth_score m2.
Proof. intros H1 H2. unfold calculate_breadth_score. now rewrite H1, H2. Qed.

Lemma fold_calls_connections calls :
  forall m,
    domain_connections (fold_left apply_call calls m)
    = fold_left (fun acc i => connect_domains acc (related_domains i))
                (insights_of calls) (domain_connections m).
Proof.
  induction calls as [|[now now_snap i|now now_snap u] calls IH]; intros m; cbn;
    [reflexivity|now rewrite IH..].
Qed.

Lemma snapshots_keep_logs (clock : nat -> Q) (ks : list nat) :
  forall m,
    let m' := fold_left (fun acc k => _record_wisdom_snapshot (clock k) acc) ks m in
    insights m' = insights m /\ belief_updates m' = belief_updates m
    /\ domain_knowledge m' = domain_knowledge m
    /\ domain_connections m' = domain_connections m.
Proof.
  induction ks as [|k ks IH]; intros m; cbn; [repeat split|].
  apply (IH (_record_wisdom_snapshot (clock k) m)).
Qed.

Lemma load_keeps_logs clock data :
  let m := load_from_file clock data in
  insights m = map load_insight (saved_insights data)
  /\ belief_updates m = saved_belief_updates data
  /\ domain_knowledge m = saved_domain_knowledge data
  /\ domain_connections m
     = fold_left (fun acc i => connect_domains acc (related_domains i))
                 (map load_insight (saved_insights data)) [].
Proof.
  unfold load_from_file, _rebuild_derived_metrics.
  cbn [insights belief_updates domain_knowledge domain_connections
         worldview_coherence_history wisdom_history].
  destruct (fold_left rebuild_coherence_step
              (map (fun i => (timestamp i, coherence_contribution i))
                   (map load_insight (saved_insights data))) (0.5, []))
    as [cc1 h1].
  destruct (fold_left rebuild_coherence_step
              (map (fun u => (u_timestamp u, coherence_impact u))
                   (saved_belief_updates data)) (cc1, h1))
    as [cc2 h2].
  apply snapshots_keep_logs.
Qed.

Lemma connections_fold_same (l : list WisdomInsight) (g : WisdomInsight -> WisdomInsight) :
  (forall i, related_domains (g i) = related_domains i) ->
  forall dc,
    fold_left (fun acc i => connect_domains acc (related_domains i)) (map g l) dc
    = fold_left (fun acc i => connect_domains acc (related_domains i)) l dc.
Proof.
  intros Hg. induction l as [|i l IH]; intros dc; cbn; [reflexivity|].
  now rewrite Hg, IH.
Qed.

(** X11. What a save followed by a load does keep, for an aggregator
    built by recording calls: every persisted field of every insight, the
    belief log, the domain knowledge, the rebuilt domain connections, and
    with them the depth, breadth and applicability scores. *)
Theorem save_then_load_keeps_logs_and_three_scores calls clock :
  let m := run calls in
  let m' := save_then_load clock m in
  map save_insight (insights m') = map save_insight (insights m)
  /\ belief_updates m' = belief_updates m
  /\ domain_knowledge m' = domain_knowledge m
  /\ domain_connections m' = domain_connections m
  /\ calculate_depth_score m' = calculate_depth_score m
  /\ calculate_breadth_score m' = calculate_breadth_score m
  /\ calculate_applicability_score m' = calculate_applicability_score m.
Proof.
  intros m m'.
  destruct (load_keeps_logs clock (save_to_file m)) as (Hi & Hu & Hk & Hc).
  fold (save_then_load clock m) in Hi, Hu, Hk, Hc. fold m' in Hi, Hu, Hk, Hc.
  cbn [save_to_file saved_insights saved_belief_updates saved_domain_knowledge]
    in Hi, Hu, Hk, Hc.
  rewrite map_map in Hi, Hc.
  assert (Hc' : domain_connections m' = domain_connections m).
  { rewrite Hc, connections_fold_same by reflexivity.
    unfold m, run. rewrite fold_calls_connections.
    destruct (fold_calls_logs calls init) as (H1 & _). cbn in H1. now rewrite H1. }
  split; [|split; [exact Hu|split; [exact Hk|split; [exact Hc'|]]]].
  - rewrite Hi, map_map. apply map_ext. intros i. reflexivity.
  - split; [|split].
    + apply depth_score_same. rewrite Hi, map_map. apply map_ext. reflexivity.
    + now apply breadth_score_same.
    + apply applicability_score_same. rewrite Hi, map_map. apply map_ext. reflexivity.
Qed.

(** *** Domain knowledge *)

Lemma dict_get_set_other {V : Type} (d : list (string * V)) (k k' : string) (v : V) :
  k <> k' ->
  dict_get String.eqb (dict_set String.eqb d k v) k' = dict_get String.eqb d k'.
Proof.
  intros Hne. induction d as [|[k0 v0] r IH]; cbn.
  - destruct (String.eqb k k') eqn:E; [|reflexivity].
    apply String.eqb_eq in E. contradiction.
  - destruct (String.eqb k0 k) eqn:E; cbn.
    + apply String.eqb_eq in E. subst k0.
      destruct (String.eqb k k') eqn:E'; [|reflexivity].
      apply String.eqb_eq in E'. contradiction.
    + destruct (String.eqb k0 k'); [reflexivity|exact IH].
Qed.

Lemma knowledge_fold_lookup amount domains :
  NoDup domains ->
  forall dk d,
    let dk' := fold_left (fun acc domain => knowledge_add acc domain amount) domains dk in
    let old := match dict_get String.eqb dk d with Some v => v | None => 0 end in
    (In d domains ->
     dict_get String.eqb dk' d = Some (old + amount))
    /\ (~ In d domains -> dict_get String.eqb dk' d = dict_get String.eqb dk d).
Proof.
  induction 1 as [|x xs Hx Hnd IH]; intros dk d; cbn.
  - split; [intros []|reflexivity].
  - destruct (IH (knowledge_add dk x amount) d) as [IH1 IH2]. split.
    + intros [->|Hin].
      * rewrite (IH2 Hx). unfold knowledge_add.
        apply InterestFacts.dict_get_set_same.
      * rewrite (IH1 Hin). unfold knowledge_add at 1.
        rewrite dict_get_set_other; [reflexivity|]. intros ->. contradiction.
    + intros Hn. rewrite IH2 by tauto. unfold knowledge_add.
      apply dict_get_set_other. intros ->. apply Hn. now left.
Qed.

(** X12. An insight whose related domains are pairwise distinct adds
    0.1 times its depth to the knowledge of each of them, creating the
    entry at 0 if the domain is new, and leaves the knowledge of every
    other domain untouched. *)
Theorem add_insight_adds_knowledge now now_snap i m d :
  NoDup (related_domains i) ->
  (In d (related_domains i) ->
   knowledge_of (add_insight now now_snap i m) d
   = knowledge_of m d + depth_score i * 0.1)
  /\ (~ In d (related_domains i) ->
      knowledge_of (add_insight now now_snap i m) d = knowledge_of m d).
Proof.
  intros Hnd. unfold knowledge_of, add_insight, _record_wisdom_snapshot.
  cbn [domain_knowledge].
  destruct (knowledge_fold_lookup (depth_score i * 0.1) (related_domains i) Hnd
              (domain_knowledge m) d) as [H1 H2].
  split; intros H; [now rewrite (H1 H)|now rewrite (H2 H)].
Qed.

Example add_insight_adds_knowledge_witness :
  knowledge_of (add_insight 0 0 (linking_insight "art" "math") init) "math"
  = knowledge_of init "math" + depth_score (linking_insight "art" "math") * 0.1.
Proof.
  refine (proj1 (add_insight_adds_knowledge 0 0 (linking_insight "art" "math")
                   init "math" _) _).
  - repeat constructor; cbn; intuition discriminate.
  - cbn. right. now left.
Defined.

(** *** Growth rate *)

(** X13. [get_wisdom_growth_rate] never divides by zero.  It answers 0
    when fewer than two snapshots fall in the window, and 0 when the
    latest snapshot of the window is not later than the earliest;
    otherwise it is the difference of the two composite scores divided by
    the hours between them. *)
Theorem growth_rate_guards now w m :
  let recent :=
    filter (fun snapshot => Qle_bool (now - fst snapshot) (inject_Z (w * 60)))
           (wisdom_history m) in
  ((length recent < 2)%nat -> get_wisdom_growth_rate now w m = 0)
  /\ (forall earliest rest,
        recent = earliest :: rest ->
        fst (last recent earliest) <= fst earliest ->
        get_wisdom_growth_rate now w m = 0)
  /\ (forall earliest rest,
        recent = earliest :: rest -> rest <> [] ->
        fst earliest < fst (last recent earliest) ->
        get_wisdom_growth_rate now w m
        = (composite_wisdom (snd (last recent earliest))
           - composite_wisdom (snd earliest))
          / ((fst (last recent earliest) - fst earliest) / 3600)).
Proof.
  intros recent.
  assert (Hlen : (length recent <= length (wisdom_history m))%nat)
    by apply filter_length_le.
  unfold get_wisdom_growth_rate. fold recent.
  split; [|split].
  - intros H.
    destruct (length (wisdom_history m) <? 2)%nat; [reflexivity|].
    apply Nat.ltb_lt in H. now rewrite H.
  - intros earliest rest E Ht.
    destruct (length (wisdom_history m) <? 2)%nat; [reflexivity|].
    destruct (length recent <? 2)%nat; [reflexivity|].
    rewrite E in *.
    assert (G : gtb ((fst (last (earliest :: rest) earliest) - fst earliest) / 3600) 0
                = false).
    { apply gtb_false. apply Qle_shift_div_r; lra. }
    now rewrite G.
  - intros earliest rest E Hne Ht.
    assert (H2 : (2 <= length recent)%nat).
    { rewrite E. destruct rest; [congruence|cbn; lia]. }
    assert (G1 : (length (wisdom_history m) <? 2)%nat = false)
      by (apply Nat.ltb_ge; lia).
    assert (G2 : (length recent <? 2)%nat = false) by (apply Nat.ltb_ge; lia).
    rewrite G1, G2. rewrite E in *.
    assert (G : gtb ((fst (last (earliest :: rest) earliest) - fst earliest) / 3600) 0
                = true).
    { apply gtb_true. apply Qlt_shift_div_l; lra. }
    now rewrite G.
Qed.

Example growth_rate_guards_witness :
  get_wisdom_growth_rate 0 60 (run test_calls) = 0.
Proof.
  refine (proj1 (proj2 (growth_rate_guards 0 60 (run test_calls))) _ _ _ _).
  - vm_compute. reflexivity.
  - vm_compute. discriminate.
Defined.

(** *** The exact range of the depth score *)

Lemma sum_under_threshold (f : WisdomInsight -> Q) (l : list WisdomInsight) :
  (forall i, In i l -> f i <= 1) ->
  Qsum (map f l) <= 0.8 * Qlen l + 0.2 * Qlen (filter (fun i => gtb (f i) 0.8) l).
Proof.
  induction l as [|i l IH]; intros H.
  - vm_compute. discriminate.
  - assert (Hi : f i <= 1) by (apply H; now left).
    assert (Hl : forall j, In j l -> f j <= 1) by (intros j Hj; apply H; now right).
    specialize (IH Hl). cbn [map filter]. rewrite Qsum_cons, Qlen_cons.
    destruct (gtb (f i) 0.8) eqn:E.
    + rewrite Qlen_cons. lra.
    + apply gtb_false in E. lra.
Qed.

Lemma filter_firstn_le {A : Type} (p : A -> bool) (n : nat) (l : list A) :
  (length (filter p (firstn n l)) <= length (filter p l))%nat.
Proof.
  rewrite <- (firstn_skipn n l) at 2. rewrite filter_app, length_app. lia.
Qed.

Lemma depth_ge m :
  (forall i, In i (insights m) -> insight_in_range i) ->
  -0.4 <= calculate_depth_score m.
Proof.
  intros H. unfold calculate_depth_score.
  destruct (insights m) as [|i0 l0] eqn:E; [lra|].
  set (l := i0 :: l0) in *.
  assert (Hd : forall i, In i l -> 0 <= depth_score i <= 1)
    by (intros i Hi; apply (H i Hi)).
  assert (Ha : 0 <= avg_of depth_score (lastn 20 l) <= 1).
  { apply avg_of_bounds.
    - apply lastn_nonempty; [lia|discriminate].
    - intros i Hi. apply Hd. now apply lastn_incl in Hi. }
  set (K := Qlen (filter (fun i => gtb (depth_score i) 0.8) l)).
  assert (HK : 0 <= K) by apply Qlen_nonneg.
  apply Q.min_glb; [lra|].
  destruct (10 <? length l)%nat eqn:E10.
  - apply Nat.ltb_lt in E10.
    set (early := firstn 10 l).
    set (k10 := Qlen (filter (fun i => gtb (depth_score i) 0.8) early)).
    assert (Hlen : Qlen early == 10).
    { unfold Qlen, early. rewrite length_firstn.
      replace (Nat.min 10 (length l)) with 10%nat by lia. reflexivity. }
    assert (Hk0 : 0 <= k10) by apply Qlen_nonneg.
    assert (Hk10 : k10 <= 10).
    { rewrite <- Hlen. apply Qlen_filter_le. }
    assert (HkK : k10 <= K) by (apply Qlen_le, filter_firstn_le).
    assert (Hs : Qsum (map depth_score early) <= 0.8 * Qlen early + 0.2 * k10).
    { apply sum_under_threshold. intros i Hi. apply Hd.
      now apply firstn_member in Hi. }
    rewrite Hlen in Hs.
    assert (Hb : 0.02 * k10 <= Qmin 0.2 (K * 0.02)) by (apply Q.min_glb; lra).
    assert (He : Qsum (map depth_score early) / 10 <= 0.8 + 0.02 * k10).
    { apply Qle_shift_div_r; lra. }
    lra.
  - assert (Hb : 0 <= Qmin 0.2 (K * 0.02)) by (apply Q.min_glb; lra).
    lra.
Qed.

(** X14. For insights with fields in their declared ranges the depth
    score lies between -0.4 and 1, and -0.4 is reached: the cap at 1.0 has
    no counterpart at 0, and ten early insights of depth 0.8 followed by
    twenty of depth 0 go all the way down. *)
Theorem depth_score_range calls :
  Forall call_in_range calls ->
  -0.4 <= calculate_depth_score (run calls) <= 1
  /\ calculate_depth_score (run falling_depth_calls) == -0.4.
Proof.
  intros Hr. split; [split; [|apply depth_le_1]|vm_compute; reflexivity].
  apply depth_ge. destruct (fold_calls_logs calls init) as (H1 & _).
  cbn in H1. unfold run. rewrite H1. clear H1.
  intros i Hi. induction calls as [|[? ? j|? ? ?] calls IH]; cbn in Hi.
  - destruct Hi.
  - inversion Hr; subst. destruct Hi as [<-|Hi]; [assumption|now apply IH].
  - inversion Hr; subst. now apply IH.
Qed.

Example depth_score_range_witness :
  -0.4 <= calculate_depth_score (run test_calls) <= 1.
Proof.
  refine (proj1 (depth_score_range test_calls _)).
  apply calls_in_rangeb_sound. vm_compute. reflexivity.
Defined.

End WisdomExtFacts.

(** ** Interest tracker: priorities, goals, scores and clusters *)

Module InterestExtFacts.
Import Interest InterestFacts InterestExt.
Open Scope R_scope.

(** *** Sorting by decreasing key *)

Section SortedDesc.
Context {A : Type} (key : A -> R).

Lemma insert_desc_perm x l : Permutation (x :: l) (insert_desc key x l).
Proof.
  induction l as [|y r IH]; cbn; [apply Permutation_refl|].
  destruct (Rlt_dec (key x) (key y)); [|apply Permutation_refl].
  eapply Permutation_trans; [apply perm_swap|]. now apply perm_skip.
Qed.

Lemma sorted_desc_perm l : Permutation l (sorted_desc key l).
Proof.
  induction l as [|x l IH]; cbn; [constructor|].
  eapply Permutation_trans; [|apply insert_desc_perm]. now apply perm_skip.
Qed.

Lemma insert_desc_sorted x l :
  StronglySorted (fun g h => key h <= key g) l ->
  StronglySorted (fun g h => key h <= key g) (insert_desc key x l).
Proof.
  induction l as [|y r IH]; intros Hs; cbn.
  - constructor; constructor.
  - inversion Hs as [|? ? Hr Hy]; subst.
    destruct (Rlt_dec (key x) (key y)) as [Hlt|Hge].
    + constructor; [now apply IH|].
      eapply Permutation_Forall; [apply insert_desc_perm|].
      constructor; [lra|assumption].
    + constructor; [assumption|].
      constructor; [lra|].
      eapply Forall_impl; [|exact Hy]. cbn. intros z Hz. lra.
Qed.

Lemma sorted_desc_sorted l :
  StronglySorted (fun g h => key h <= key g) (sorted_desc key l).
Proof.
  induction l as [|x l IH]; cbn; [constructor|now apply insert_desc_sorted].
Qed.
End SortedDesc.

(** X15. [get_exploration_priorities] returns exactly the goals not yet
    completed, each as often as it is stored, ordered so that no goal
    comes before one of higher priority; its length is the goal count the
    orchestrator reports. *)
Theorem exploration_priorities_sorted s :
  let ps := get_exploration_priorities s in
  Permutation (filter (fun g => negb (completed g)) (exploration_goals s)) ps
  /\ by_decreasing_priority ps
  /\ (forall g, In g ps <-> In g (exploration_goals s) /\ completed g = false)
  /\ length ps = Orchestrator.open_goals s.
Proof.
  intros ps.
  assert (Hp : Permutation (filter (fun g => negb (completed g)) (exploration_goals s)) ps)
    by apply sorted_desc_perm.
  split; [exact Hp|]. split; [apply sorted_desc_sorted|]. split.
  - intros g. split.
    + intros H. apply (Permutation_in g (Permutation_sym Hp)) in H.
      apply filter_In in H as [H1 H2]. split; [assumption|].
      now apply negb_true_iff in H2.
    + intros [H1 H2]. apply (Permutation_in g Hp).
      apply filter_In. split; [assumption|]. now rewrite H2.
  - symmetry. apply (Permutation_length Hp).
Qed.

(** *** Goal progress *)





(** *** Generating goals *)








(** *** Ranges *)

Lemma dict_get_In {V : Type} (d : list (string * V)) (k : string) (v : V) :
  dict_get String.eqb d k = Some v -> In (k, v) d.
Proof.
  induction d as [|[k' v'] r IH]; cbn; [discriminate|].
  destruct (String.eqb k' k) eqn:E.
  - apply String.eqb_eq in E. intros [= ->]. left. now subst.
  - intros H. right. now apply IH.
Qed.

Lemma exp_nonpos_le_1 x : x <= 0 -> exp x <= 1.
Proof.
  intros [H|E]; [|rewrite E, exp_0; lra].
  rewrite <- exp_0. left. now apply exp_increasing.
Qed.

Lemma salience_of_range t e :
  engagement_in_range e -> last_encounter e <= t -> 0 < salience_of t e <= 1.
Proof.
  intros ((Hv0 & Hv1) & (Hc0 & Hc1) & (Hp0 & Hp1) & _) Ht.
  rewrite salience_of_formula.
  assert (Hx0 := exp_pos (- (t - last_encounter e) / 86400)).
  assert (Hx1 : exp (- (t - last_encounter e) / 86400) <= 1)
    by (apply exp_nonpos_le_1; lra).
  assert (Hn := pos_INR (encounter_count e)).
  assert (Hf0 : 0 <= Rmin 1 (INR (encounter_count e) / 10))
    by (apply Rmin_glb; lra).
  assert (Hf1 := Rmin_l 1 (INR (encounter_count e) / 10)).
  assert (Ha0 := Rabs_pos (learning_progress e - 0.5)).
  assert (Ha1 : Rabs (learning_progress e - 0.5) <= 0.5)
    by (apply Rabs_le; lra).
  lra.
Qed.

Lemma new_engagement_range now topic duration valence learning sat :
  -1 <= valence <= 1 -> 0 <= sat <= 1 ->
  engagement_in_range (new_engagement now topic duration valence learning sat).
Proof.
  intros Hv Hs. unfold engagement_in_range, new_engagement; cbn.
  repeat split; try lra; destruct learning; lra.
Qed.

Lemma updated_engagement_range now e duration valence learning sat :
  engagement_in_range e -> -1 <= valence <= 1 -> 0 <= sat <= 1 ->
  engagement_in_range (updated_engagement now e duration valence learning sat).
Proof.
  intros ((Hv0 & Hv1) & Hc & (Hp0 & Hp1) & (Hs0 & Hs1)) Hv Hs.
  unfold engagement_in_range.
  split; [cbn; lra|]. split; [apply updated_curiosity_range|].
  split; [|cbn; lra]. cbn. destruct learning; [|lra].
  split; [apply Rmin_glb; lra|apply Rmin_l].
Qed.

Lemma decayed_engagement_range now e :
  engagement_in_range e -> last_encounter e <= now ->
  engagement_in_range (decayed_engagement now e).
Proof.
  intros (Hv & Hc & Hp & Hs) Ht. unfold engagement_in_range.
  split; [exact Hv|]. split; [now apply decayed_curiosity_range|].
  split; [exact Hp|exact Hs].
Qed.

Lemma relate_range t other d :
  (forall k e, In (k, e) d -> engagement_in_range e) ->
  forall k e, In (k, e) (relate t other d) -> engagement_in_range e.
Proof.
  intros H k e Hin. unfold relate in Hin.
  destruct (dict_get String.eqb d t) as [e0|] eqn:E; [|now apply (H k)].
  apply dict_set_in in Hin as [Hin|Heq]; [now apply (H k)|].
  cbn in Heq. subst e. apply dict_get_In in E. exact (H _ _ E).
Qed.

Lemma learn_more_range t d :
  (forall k e, In (k, e) d -> engagement_in_range e) ->
  forall k e, In (k, e) (learn_more t d) -> engagement_in_range e.
Proof.
  intros H k e Hin. unfold learn_more in Hin.
  destruct (dict_get String.eqb d t) as [e0|] eqn:E; [|now apply (H k)].
  apply dict_set_in in Hin as [Hin|Heq]; [now apply (H k)|].
  cbn in Heq. subst e. apply dict_get_In in E.
  destruct (H _ _ E) as (Hv & Hc & (Hp0 & Hp1) & Hs).
  unfold engagement_in_range; cbn.
  split; [exact Hv|]. split; [exact Hc|]. split; [|exact Hs].
  split; [apply Rmin_glb; lra|apply Rmin_l].
Qed.

Lemma update_salience_range t topic s :
  saliences_in_range s ->
  (forall e, dict_get String.eqb (topic_engagements s) topic = Some e ->
             engagement_in_range e /\ last_encounter e <= t) ->
  saliences_in_range (_update_salience t topic s).
Proof.
  intros Hs He. unfold _update_salience.
  destruct (dict_get String.eqb (topic_engagements s) topic) as [e|] eqn:E;
    [|assumption].
  intros k v Hin. cbn in Hin.
  apply dict_set_in in Hin as [Hin|Heq]; [now apply (Hs k)|].
  cbn in Heq. subst v. destruct (He e eq_refl). now apply salience_of_range.
Qed.

Lemma decay_loop_range now st todo :
  forall done s,
    (forall t e, In (t, e) done -> engagement_in_range e /\ last_encounter e <= st t) ->
    (forall t e, In (t, e) todo ->
                 engagement_in_range e /\ last_encounter e <= now
                 /\ last_encounter e <= st t) ->
    saliences_in_range s ->
    saliences_in_range (decay_loop now st done todo s).
Proof.
  induction todo as [|[t e] rest IH]; intros done s Hd Ht Hs; cbn; [assumption|].
  destruct (Ht t e (or_introl eq_refl)) as (Hr & Hn & Hst).
  assert (Hd' : forall t0 e0,
             In (t0, e0) (done ++ [(t, decayed_engagement now e)]) ->
             engagement_in_range e0 /\ last_encounter e0 <= st t0).
  { intros t0 e0 Hin. apply in_app_or in Hin as [Hin|Hin]; [now apply Hd|].
    destruct Hin as [Heq|[]]. injection Heq as <- <-.
    split; [now apply decayed_engagement_range|exact Hst]. }
  apply IH.
  - exact Hd'.
  - intros t0 e0 Hin. apply Ht. now right.
  - apply update_salience_range; [exact Hs|].
    intros e0 Hget. apply dict_get_In in Hget. cbn in Hget.
    apply in_app_or in Hget as [Hin|Hin].
    + now apply Hd'.
    + destruct (Ht t e0 (or_intror Hin)) as (H1 & _ & H3). now split.
Qed.

(** X19. The ranges declared for an engagement (valence in [-1,1],
    curiosity, learning progress and satisfaction in [0,1]) and the range
    (0,1] of the stored saliences are kept by every method that changes
    them: by [record_topic_encounter] when the valence and satisfaction
    passed in lie in their ranges and the clock does not run backwards,
    by [add_topic_relation], by [update_goal_progress], and by
    [decay_interests] when no last encounter lies in the future. *)
Theorem ranges_are_kept s :
  engagements_in_range s -> saliences_in_range s ->
  (forall now st topic duration valence learning sat,
      -1 <= valence <= 1 -> 0 <= sat <= 1 -> now <= st ->
      let s' := record_topic_encounter now st topic duration valence learning sat s in
      engagements_in_range s' /\ saliences_in_range s')
  /\ (forall topic1 topic2,
        let s' := add_topic_relation topic1 topic2 s in
        engagements_in_range s' /\ saliences_in_range s')
  /\ (forall goal_id p learning,
        let s' := update_goal_progress goal_id p learning s in
        engagements_in_range s' /\ saliences_in_range s')
  /\ (forall now st,
        (forall t e, In (t, e) (topic_engagements s) ->
                     last_encounter e <= now /\ last_encounter e <= st t) ->
        let s' := decay_interests now st s in
        engagements_in_range s' /\ saliences_in_range s').
Proof.
  intros He Hs. split; [|split; [|split]].
  - intros now st topic duration valence learning sat Hv Hsat Hclock s'.
    set (e1 := match dict_get String.eqb (topic_engagements s) topic with
               | None => new_engagement now topic duration valence learning sat
               | Some e0 => updated_engagement now e0 duration valence learning sat
               end).
    assert (Hl : last_encounter e1 = now).
    { unfold e1. destruct (dict_get String.eqb (topic_engagements s) topic);
        reflexivity. }
    assert (Hr : engagement_in_range e1).
    { unfold e1.
      destruct (dict_get String.eqb (topic_engagements s) topic) as [e0|] eqn:E.
      - apply updated_engagement_range; try assumption.
        apply dict_get_In in E. exact (He _ _ E).
      - now apply new_engagement_range. }
    unfold s', record_topic_encounter. fold e1. split.
    + intros t e Hin. cbn [_update_active_interests topic_engagements] in Hin.
      rewrite update_salience_engagements in Hin. cbn in Hin.
      apply dict_set_in in Hin as [Hin|Heq]; [exact (He _ _ Hin)|].
      cbn in Heq. now subst e.
    + unfold saliences_in_range.
      cbn [_update_active_interests salience_map].
      apply update_salience_range; [exact Hs|].
      intros e Hget. cbn in Hget. rewrite dict_get_set_same in Hget.
      injection Hget as <-. split; [exact Hr|lra].
  - intros topic1 topic2 s'. split; [|exact Hs].
    unfold s', engagements_in_range. cbn [add_topic_relation topic_engagements].
    apply relate_range, relate_range. exact He.
  - intros goal_id p learning s'. unfold s', update_goal_progress.
    destruct (update_first_goal goal_id p (exploration_goals s)) as [goals found].
    split; [|exact Hs].
    unfold engagements_in_range. cbn [topic_engagements].
    destruct found as [g|]; [|exact He].
    destruct learning; [|exact He]. apply learn_more_range. exact He.
  - intros now st Ht s'. unfold s'. split.
    + intros t e Hin. rewrite decay_interests_engagements in Hin.
      apply in_map_iff in Hin as ([t0 e0] & Heq & Hin0). cbn in Heq.
      injection Heq as <- <-.
      apply decayed_engagement_range; [exact (He _ _ Hin0)|].
      now destruct (Ht _ _ Hin0).
    + unfold decay_interests, saliences_in_range.
      cbn [_update_active_interests salience_map].
      apply decay_loop_range; [intros t e []| |exact Hs].
      intros t e Hin. destruct (Ht _ _ Hin). split; [exact (He _ _ Hin)|]. now split.
Qed.

Example ranges_are_kept_witness :
  engagements_in_range (record_topic_encounter 0 0 "ai" 60 0.5 true 0.8 init)
  /\ saliences_in_range (record_topic_encounter 0 0 "ai" 60 0.5 true 0.8 init).
Proof.
  refine (proj1 (ranges_are_kept init _ _) 0 0 "ai"%string 60 0.5 true 0.8 _ _ _).
  - intros t e [].
  - intros t v [].
  - lra.
  - lra.
  - lra.
Defined.



(** *** Active interests *)









(** *** Clusters *)

Lemma set_insert_In x y s : In y (set_insert x s) <-> y = x \/ In y s.
Proof.
  unfold set_insert. destruct (set_contains x s) eqn:E.
  - apply set_contains_In in E. split; [now right|]. intros [H|H]; [now subst|assumption].
  - rewrite in_app_iff. cbn. split.
    + intros [H|[H|[]]]; [now right|now left].
    + intros [H|H]; [right; now left|now left].
Qed.

Lemma set_update_In t : forall s y, In y (set_update s t) <-> In y s \/ In y t.
Proof.
  unfold set_update. induction t as [|x t IH]; intros s y; cbn.
  - tauto.
  - rewrite IH, set_insert_In. split.
    + intros [[H|H]|H]; [right; now left|now left|right; now right].
    + intros [H|[H|H]]; [left; now right|left; now left|now right].
Qed.

Lemma dict_set_In_iff {V : Type} (d : list (string * V)) k v k' v' :
  keys_unique d ->
  In (k', v') (dict_set String.eqb d k v) <->
  (k' = k /\ v' = v) \/ (k' <> k /\ In (k', v') d).
Proof.
  unfold keys_unique. induction d as [|[k0 v0] r IH]; cbn; intros Hu.
  - split.
    + intros [[= <- <-]|[]]. now left.
    + intros [[-> ->]|[_ []]]. now left.
  - inversion Hu as [|? ? Hnot Hr]; subst. specialize (IH Hr).
    destruct (String.eqb k0 k) eqn:E; cbn.
    + apply String.eqb_eq in E. subst k0. split.
      * intros [[= <- <-]|H]; [now left|]. right. split; [|now right].
        intros ->. apply Hnot. apply in_map_iff. now exists (k, v').
      * intros [[-> ->]|[Hne [[= Hk _]|H]]]; [now left| |now right].
        now symmetry in Hk.
    + apply String.eqb_neq in E. rewrite IH. split.
      * intros [[= <- <-]|[H|[Hne H]]].
        -- right. split; [assumption|now left].
        -- now left.
        -- right. split; [assumption|now right].
      * intros [H|[Hne [H|H]]]; [right; now left|now left|].
        right. right. now split.
Qed.

Lemma dict_del_In_iff {V : Type} (d : list (string * V)) k k' v' :
  keys_unique d ->
  In (k', v') (dict_del String.eqb d k) <-> k' <> k /\ In (k', v') d.
Proof.
  unfold keys_unique. induction d as [|[k0 v0] r IH]; cbn; intros Hu.
  - tauto.
  - inversion Hu as [|? ? Hnot Hr]; subst. specialize (IH Hr).
    destruct (String.eqb k0 k) eqn:E; cbn.
    + apply String.eqb_eq in E. subst k0. split.
      * intros H. split; [|now right].
        intros ->. apply Hnot. apply in_map_iff. now exists (k, v').
      * intros [Hne [[= Hk _]|H]]; [now symmetry in Hk|assumption].
    + apply String.eqb_neq in E. rewrite IH. split.
      * intros [[= <- <-]|[Hne H]]; (split; [assumption|]); [now left|now right].
      * intros [Hne [H|H]]; [now left|right; now split].
Qed.

Lemma dict_del_key_in {V : Type} (d : list (string * V)) k x :
  In x (map fst (dict_del String.eqb d k)) -> In x (map fst d).
Proof.
  induction d as [|[k0 v0] r IH]; cbn; [tauto|].
  destruct (String.eqb k0 k); cbn; [now right|].
  intros [H|H]; [now left|right; now apply IH].
Qed.

Lemma dict_del_keys_unique {V : Type} (d : list (string * V)) k :
  keys_unique d -> keys_unique (dict_del String.eqb d k).
Proof.
  unfold keys_unique. induction d as [|[k0 v0] r IH]; cbn; intros Hu; [constructor|].
  inversion Hu as [|? ? Hnot Hr]; subst.
  destruct (String.eqb k0 k); cbn; [assumption|].
  constructor; [|now apply IH]. intros H. apply Hnot. now apply dict_del_key_in in H.
Qed.

Lemma keys_unique_functional {V : Type} (d : list (string * V)) k v v' :
  keys_unique d -> In (k, v) d -> In (k, v') d -> v = v'.
Proof.
  intros Hu H1 H2.
  apply (dict_get_unique _ _ _ Hu) in H1. apply (dict_get_unique _ _ _ Hu) in H2.
  congruence.
Qed.

Lemma cluster_get_unique clusters id c :
  keys_unique clusters -> In (id, c) clusters -> cluster_get clusters id = c.
Proof.
  intros Hu Hin. unfold cluster_get. now rewrite (dict_get_unique _ _ _ Hu Hin).
Qed.

(** The search for one topic: the last cluster holding it. *)
Lemma last_cluster_found t clusters : forall a,
  let r := fold_left (fun a (item : string * list string) =>
                        if set_contains t (snd item) then Some (fst item) else a)
                     clusters a in
  (r = a /\ forall id c, In (id, c) clusters -> ~ In t c)
  \/ (exists id c, r = Some id /\ In (id, c) clusters /\ In t c).
Proof.
  induction clusters as [|[id0 c0] rest IH]; intros a; cbn [fold_left fst snd].
  - left. split; [reflexivity|]. intros id c [].
  - destruct (IH (if set_contains t c0 then Some id0 else a))
      as [[Hr Hnone]|(id & c & Hr & Hin & Ht)].
    + destruct (set_contains t c0) eqn:E.
      * right. exists id0, c0. split; [exact Hr|]. split; [now left|].
        now apply set_contains_In.
      * left. split; [exact Hr|]. intros id c [[= <- <-]|Hin].
        -- intros Ht. apply set_contains_In in Ht. congruence.
        -- now apply (Hnone id).
    + right. exists id, c. split; [exact Hr|]. split; [now right|assumption].
Qed.

Lemma find_clusters_split t1 t2 clusters : forall a1 a2,
  fold_left
    (fun acc item =>
       let '(cluster1, cluster2) := acc in
       let '(cluster_id, topics) := item in
       (if set_contains t1 topics then Some cluster_id else cluster1,
        if set_contains t2 topics then Some cluster_id else cluster2))
    clusters (a1, a2)
  = (fold_left (fun a (item : string * list string) =>
                  if set_contains t1 (snd item) then Some (fst item) else a)
               clusters a1,
     fold_left (fun a (item : string * list string) =>
                  if set_contains t2 (snd item) then Some (fst item) else a)
               clusters a2).
Proof.
  induction clusters as [|[id0 c0] rest IH]; intros a1 a2; cbn [fold_left fst snd];
    [reflexivity|].
  apply IH.
Qed.

Lemma find_clusters_holds t1 t2 clusters :
  holds t1 clusters (fst (find_clusters t1 t2 clusters))
  /\ holds t2 clusters (snd (find_clusters t1 t2 clusters)).
Proof.
  unfold find_clusters. rewrite find_clusters_split. cbn [fst snd]. split.
  - destruct (last_cluster_found t1 clusters None) as [[-> H]|(id & c & -> & H)].
    + exact H.
    + now exists c.
  - destruct (last_cluster_found t2 clusters None) as [[-> H]|(id & c & -> & H)].
    + exact H.
    + now exists c.
Qed.

(** Setting one cluster to a set whose members were in no other
    cluster keeps the clusters disjoint. *)
Lemma dict_set_disjoint clusters id v :
  keys_unique clusters -> clusters_disjoint clusters ->
  (forall x id' c', In x v -> In (id', c') clusters -> In x c' -> id' = id) ->
  clusters_disjoint (dict_set String.eqb clusters id v).
Proof.
  intros Hu Hd Hv id1 c1 id2 c2 x H1 H2 Hx1 Hx2.
  apply (dict_set_In_iff _ _ _ _ _ Hu) in H1, H2.
  destruct H1 as [[-> ->]|[Hne1 H1]], H2 as [[-> ->]|[Hne2 H2]].
  - reflexivity.
  - symmetry. exact (Hv x id2 c2 Hx1 H2 Hx2).
  - exact (Hv x id1 c1 Hx2 H1 Hx1).
  - exact (Hd id1 c1 id2 c2 x H1 H2 Hx1 Hx2).
Qed.

Lemma update_clusters_sound topic1 topic2 clusters :
  keys_unique clusters -> clusters_disjoint clusters ->
  let clusters' := update_clusters topic1 topic2 clusters in
  keys_unique clusters' /\ clusters_disjoint clusters'
  /\ share_cluster topic1 topic2 clusters'.
Proof.
  intros Hu Hd. unfold update_clusters.
  destruct (find_clusters_holds topic1 topic2 clusters) as [H1 H2].
  destruct (find_clusters topic1 topic2 clusters) as [[id1|] [id2|]];
    cbn [fst snd holds] in H1, H2.
  - destruct H1 as (c1 & Hin1 & Ht1), H2 as (c2 & Hin2 & Ht2).
    destruct (String.eqb id1 id2) eqn:E; cbn [negb].
    + apply String.eqb_eq in E. subst id2.
      split; [exact Hu|]. split; [exact Hd|].
      rewrite (keys_unique_functional _ _ _ _ Hu Hin2 Hin1) in Ht2.
      now exists id1, c1.
    + apply String.eqb_neq in E.
      rewrite (cluster_get_unique _ _ _ Hu Hin1), (cluster_get_unique _ _ _ Hu Hin2).
      set (u := set_update c1 c2).
      assert (Hu' : keys_unique (dict_set String.eqb clusters id1 u))
        by now apply dict_set_keys_unique.
      split; [now apply dict_del_keys_unique|]. split.
      * intros i1 x1 i2 x2 x G1 G2 Hx1 Hx2.
        apply (dict_del_In_iff _ _ _ _ Hu') in G1 as [N1 G1], G2 as [N2 G2].
        apply (dict_set_In_iff _ _ _ _ _ Hu) in G1, G2.
        destruct G1 as [[-> ->]|[Hne1 G1]], G2 as [[-> ->]|[Hne2 G2]].
        -- reflexivity.
        -- exfalso. apply set_update_In in Hx1 as [Hx1|Hx1].
           ++ apply Hne2. exact (Hd _ _ _ _ x G2 Hin1 Hx2 Hx1).
           ++ apply N2. exact (Hd _ _ _ _ x G2 Hin2 Hx2 Hx1).
        -- exfalso. apply set_update_In in Hx2 as [Hx2|Hx2].
           ++ apply Hne1. exact (Hd _ _ _ _ x G1 Hin1 Hx1 Hx2).
           ++ apply N1. exact (Hd _ _ _ _ x G1 Hin2 Hx1 Hx2).
        -- exact (Hd _ _ _ _ x G1 G2 Hx1 Hx2).
      * exists id1, u. split; [|split].
        -- apply (dict_del_In_iff _ _ _ _ Hu'). split; [assumption|].
           apply (dict_set_In_iff _ _ _ _ _ Hu). now left.
        -- apply set_update_In. now left.
        -- apply set_update_In. now right.
  - destruct H1 as (c1 & Hin1 & Ht1).
    rewrite (cluster_get_unique _ _ _ Hu Hin1).
    split; [now apply dict_set_keys_unique|]. split.
    + apply dict_set_disjoint; try assumption.
      intros x id' c' Hx Hin' Hx'. apply set_insert_In in Hx as [->|Hx].
      * exfalso. exact (H2 _ _ Hin' Hx').
      * exact (Hd _ _ _ _ x Hin' Hin1 Hx' Hx).
    + exists id1, (set_insert topic2 c1). split; [|split].
      * apply (dict_set_In_iff _ _ _ _ _ Hu). now left.
      * apply set_insert_In. now right.
      * apply set_insert_In. now left.
  - destruct H2 as (c2 & Hin2 & Ht2).
    rewrite (cluster_get_unique _ _ _ Hu Hin2).
    split; [now apply dict_set_keys_unique|]. split.
    + apply dict_set_disjoint; try assumption.
      intros x id' c' Hx Hin' Hx'. apply set_insert_In in Hx as [->|Hx].
      * exfalso. exact (H1 _ _ Hin' Hx').
      * exact (Hd _ _ _ _ x Hin' Hin2 Hx' Hx).
    + exists id2, (set_insert topic1 c2). split; [|split].
      * apply (dict_set_In_iff _ _ _ _ _ Hu). now left.
      * apply set_insert_In. now left.
      * apply set_insert_In. now right.
  - split; [now apply dict_set_keys_unique|]. split.
    + apply dict_set_disjoint; try assumption.
      intros x id' c' Hx Hin' Hx'. exfalso.
      apply set_insert_In in Hx as [->|Hx]; [exact (H2 _ _ Hin' Hx')|].
      apply set_insert_In in Hx as [->|[]]. exact (H1 _ _ Hin' Hx').
    + eexists _, _. split; [|split].
      * apply (dict_set_In_iff _ _ _ _ _ Hu). left. split; reflexivity.
      * apply set_insert_In. right. apply set_insert_In. now left.
      * apply set_insert_In. now left.
Qed.

Lemma update_salience_clusters t topic s :
  topic_clusters (_update_salience t topic s) = topic_clusters s.
Proof.
  unfold _update_salience.
  destruct (dict_get String.eqb (topic_engagements s) topic); reflexivity.
Qed.

Lemma decay_loop_clusters now st todo :
  forall done s,
    topic_clusters (decay_loop now st done todo s) = topic_clusters s.
Proof.
  induction todo as [|[t e] rest IH]; intros done s; cbn; [reflexivity|].
  rewrite IH. now rewrite update_salience_clusters.
Qed.

Lemma reachable_clusters last s :
  reachable last s ->
  keys_unique (topic_clusters s) /\ clusters_disjoint (topic_clusters s).
Proof.
  induction 1 as [now
                 | last now st topic duration valence learning sat s Hr IH Hle
                 | last topic1 topic2 s Hr [Hu Hd]
                 | last now st s Hr IH Hle].
  - split; [constructor|]. intros id1 c1 id2 c2 x [].
  - unfold record_topic_encounter.
    cbn [_update_active_interests topic_clusters].
    now rewrite update_salience_clusters.
  - cbn [add_topic_relation topic_clusters].
    destruct (update_clusters_sound topic1 topic2 _ Hu Hd) as (H1 & H2 & _).
    now split.
  - unfold decay_interests. cbn [_update_active_interests topic_clusters].
    now rewrite decay_loop_clusters.
Qed.

(** X22. On every tracker the recording methods can produce, cluster
    ids are unique and no topic sits in two clusters: relating two
    topics either leaves the clusters alone, extends one, merges two into
    one, or stores a cluster of topics that were in none. *)
Theorem reachable_clusters_disjoint last s :
  reachable last s ->
  keys_unique (topic_clusters s)
  /\ forall id1 c1 id2 c2 x,
       In (id1, c1) (topic_clusters s) -> In (id2, c2) (topic_clusters s) ->
       In x c1 -> In x c2 -> id1 = id2 /\ c1 = c2.
Proof.
  intros Hr. destruct (reachable_clusters last s Hr) as [Hu Hd].
  split; [exact Hu|]. intros id1 c1 id2 c2 x H1 H2 Hx1 Hx2.
  assert (E : id1 = id2) by exact (Hd _ _ _ _ x H1 H2 Hx1 Hx2).
  split; [exact E|]. subst id2. exact (keys_unique_functional _ _ _ _ Hu H1 H2).
Qed.

Example reachable_clusters_disjoint_witness :
  keys_unique (topic_clusters fourth_pair)
  /\ forall id1 c1 id2 c2 x,
       In (id1, c1) (topic_clusters fourth_pair) ->
       In (id2, c2) (topic_clusters fourth_pair) ->
       In x c1 -> In x c2 -> id1 = id2 /\ c1 = c2.
Proof.
  apply (reachable_clusters_disjoint 0 fourth_pair).
  repeat apply reach_relate. apply reach_init.
Defined.

(** X23. After [add_topic_relation] on such a tracker the two topics
    sit in one common cluster, so from then on [should_join_discussion]
    answers true for either of them whenever the other is an active
    interest. *)
Theorem related_topics_share_cluster last topic1 topic2 s :
  reachable last s ->
  let s' := add_topic_relation topic1 topic2 s in
  share_cluster topic1 topic2 (topic_clusters s')
  /\ (In topic1 (active_interests s') -> should_join_discussion topic2 s' = true)
  /\ (In topic2 (active_interests s') -> should_join_discussion topic1 s' = true).
Proof.
  intros Hr s'. destruct (reachable_clusters last s Hr) as [Hu Hd].
  destruct (update_clusters_sound topic1 topic2 _ Hu Hd) as (_ & _ & Hs).
  assert (Hs' : share_cluster topic1 topic2 (topic_clusters s')) by exact Hs.
  split; [exact Hs'|].
  destruct Hs' as (id & c & Hin & H1 & H2).
  split; intros Ha; apply should_join_discussion_true; right; right; right.
  - now exists id, c, topic1.
  - now exists id, c, topic2.
Qed.

Example related_topics_share_cluster_witness :
  share_cluster "a" "c" (topic_clusters joined)
  /\ (In "a"%string (active_interests joined) ->
      should_join_discussion "c" joined = true)
  /\ (In "c"%string (active_interests joined) ->
      should_join_discussion "a" joined = true).
Proof.
  apply (related_topics_share_cluster 0 "a" "c" three_pairs).
  repeat apply reach_relate. apply reach_init.
Defined.

(** *** Summary *)






End InterestExtFacts.

(** ** Orchestrator, continued *)

Module OrchestratorExtFacts.
Import QOps QOpsFacts Orchestrator OrchestratorFacts OrchestratorExt.
Open Scope Q_scope.

(** *** Timing histories *)









(** *** The controller under the orchestrator *)

Lemma coherence_level_le_1 o : coherence_level o <= 1.
Proof.
  unfold coherence_level. destruct (wisdom_metrics o) as [w|]; [|lra].
  cbn. apply WisdomFacts.coherence_le_1.
Qed.

Lemma check_wake_rest_controller t o c :
  wake_rest_controller o = Some c ->
  wake_rest_controller (_check_wake_rest_state t o)
  = Some (WakeRest.update t 0.8 (coherence_level o) 0 false c).
Proof.
  intros H. unfold _check_wake_rest_state. rewrite H. reflexivity.
Qed.

Lemma loop_iteration_controller r o :
  wake_rest_controller (loop_iteration r o)
  = wake_rest_controller (_check_wake_rest_state (wake_rest r) o).
Proof. reflexivity. Qed.

(** Without new memories and without consolidation the metrics step
    keeps the scalars in range and the pressure where it was; the
    coherence passed in needs no lower bound. *)
Lemma quiet_update_range t cl c :
  WakeRest.in_range c -> cl <= 1 ->
  WakeRest.state_entered_time c <= WakeRest.at_metrics t ->
  WakeRest.in_range (WakeRest.update t 0.8 cl 0 false c)
  /\ WakeRest.consolidation_pressure (WakeRest.update t 0.8 cl 0 false c)
     == WakeRest.consolidation_pressure c.
Proof.
  intros [[Hf0 Hf1] [Hp0 Hp1]] Hcl Ht. unfold WakeRest.in_range.
  rewrite WakeRestFacts.update_fatigue, WakeRestFacts.update_pressure.
  unfold WakeRest.update_metrics. rewrite WakeRestFacts.track_quality_state.
  set (m := (WakeRest.at_metrics t - WakeRest.state_entered_time c) / 60).
  assert (Hm : 0 <= m) by (unfold m; apply Qle_shift_div_l; lra).
  assert (H2 : 0 <= (1 - cl) * 0.005 * m)
    by (apply Qmult_le_0_compat; [lra|assumption]).
  assert (Hawake :
    (0 <= Qmin 1 (WakeRest.cognitive_fatigue c + WakeRest.fatigue_accumulation_rate * m
                  + (1 - 0.8) * 0.005 * m + (1 - cl) * 0.005 * m) <= 1)
    /\ Qmin 1 (WakeRest.consolidation_pressure c + inject_Z 0 * 0.01)
       == WakeRest.consolidation_pressure c).
  { unfold WakeRest.fatigue_accumulation_rate. split.
    - split; [apply Q.min_glb; lra|apply Q.le_min_l].
    - rewrite Q.min_r; [|change (inject_Z 0) with 0; lra].
      change (inject_Z 0) with 0. lra. }
  assert (Hrest :
    0 <= Qmax 0 (WakeRest.cognitive_fatigue c - WakeRest.fatigue_recovery_rate * m) <= 1).
  { unfold WakeRest.fatigue_recovery_rate.
    split; [apply Q.le_max_l|apply Q.max_lub; lra]. }
  destruct Hawake as [Ha Hpa].
  destruct (WakeRest.state c);
    cbn [WakeRest._update_awake_state WakeRest._update_resting_state
         WakeRest.cognitive_fatigue WakeRest.consolidation_pressure
         WakeRest.track_quality WakeRest.state_entered_time]; fold m.
  - rewrite Hpa. split; [split; [exact Ha|split; assumption]|reflexivity].
  - rewrite Hpa. split; [split; [exact Ha|split; assumption]|reflexivity].
  - split; [split; [exact Hrest|split; assumption]|reflexivity].
  - split; [split; [exact Hrest|split; assumption]|reflexivity].
  - split; [split; split; assumption|reflexivity].
Qed.

(** X26. A completed orchestrator cycle leaves the controller's fatigue
    and consolidation pressure in [0,1], whatever the wisdom metrics hold,
    since the coherence it passes on never exceeds 1.  As it never
    reports new memories or a consolidation, the pressure is left at the
    value it had. *)
Theorem cycle_keeps_controller_in_range r o c :
  wake_rest_controller o = Some c ->
  WakeRest.in_range c ->
  WakeRest.state_entered_time c <= WakeRest.at_metrics (wake_rest r) ->
  exists c',
    wake_rest_controller (loop_iteration r o) = Some c'
    /\ c' = WakeRest.update (wake_rest r) 0.8 (coherence_level o) 0 false c
    /\ coherence_level o <= 1
    /\ WakeRest.in_range c'
    /\ WakeRest.consolidation_pressure c' == WakeRest.consolidation_pressure c.
Proof.
  intros Hc Hr Ht. eexists. split.
  - rewrite loop_iteration_controller. exact (check_wake_rest_controller _ _ c Hc).
  - split; [reflexivity|]. split; [apply coherence_level_le_1|].
    apply quiet_update_range; [assumption|apply coherence_level_le_1|assumption].
Qed.

Example cycle_keeps_controller_in_range_witness :
  exists c',
    wake_rest_controller (loop_iteration readings_at_0 full_orchestrator) = Some c'
    /\ c' = WakeRest.update (wake_rest readings_at_0) 0.8
              (coherence_level full_orchestrator) 0 false (WakeRest.init 0)
    /\ coherence_level full_orchestrator <= 1
    /\ WakeRest.in_range c'
    /\ WakeRest.consolidation_pressure c'
       == WakeRest.consolidation_pressure (WakeRest.init 0).
Proof.
  apply (cycle_keeps_controller_in_range readings_at_0 full_orchestrator
           (WakeRest.init 0)).
  - reflexivity.
  - apply WakeRestFacts.init_in_range.
  - cbn. lra.
Defined.

(** *** What a cycle reports *)

Lemma cycle_context_reports r o c d :
  wake_rest_controller o = Some c -> echodream o = Some d ->
  let ctx := cycle_context r o in
  phase ctx = INTEGRATION
  /\ timestamp ctx = context_timestamp r
  /\ dict_get String.eqb (inputs ctx) "wake_rest_state"%string
     = Some (VStr (state_value (WakeRest.state c)))
  /\ dict_get String.eqb (inputs ctx) "cognitive_fatigue"%string
     = Some (VNum (WakeRest.cognitive_fatigue c))
  /\ (dict_get String.eqb (outputs ctx) "consolidation_active"%string = Some (VBool true)
      <-> WakeRest.state c = WakeRest.RESTING \/ WakeRest.state c = WakeRest.DEEP_REST)
  /\ dict_get String.eqb (metadata ctx) "integration_complete"%string = Some (VBool true).
Proof.
  intros Hc Hd. unfold cycle_context.
  unfold _phase_integration, _phase_consolidation, _phase_learning, _phase_social,
    _phase_emotion, _phase_cognition, _phase_perception.
  rewrite Hc, Hd.
  destruct (WakeRest.state c) eqn:Es;
    destruct (interest_tracker o), (wisdom_metrics o), (echobeats o),
      (emotion_system o), (theory_of_mind o); cbn;
    (split; [reflexivity|]); (split; [reflexivity|]); (split; [reflexivity|]);
    (split; [reflexivity|]); (split; [|reflexivity]);
    split; try discriminate; try (intros [H|H]; discriminate);
    try (intros _; now left); try (intros _; now right); try reflexivity.
Qed.

(** X27. When a controller and an EchoDream are attached, a completed
    cycle leaves EchoDream running if the controller has just come to be
    or stayed RESTING, stopped if it is AWAKE, and as it was otherwise.
    The context of the cycle reports the state and fatigue the
    controller has after this cycle's update, and records
    consolidation_active exactly when that state is RESTING or
    DEEP_REST. *)
Theorem cycle_reports_updated_state r o c d :
  wake_rest_controller o = Some c -> echodream o = Some d ->
  let o' := loop_iteration r o in
  exists c' d' ctx,
    wake_rest_controller o' = Some c'
    /\ echodream o' = Some d'
    /\ current_context o' = Some ctx
    /\ c' = WakeRest.update (wake_rest r) 0.8 (coherence_level o) 0 false c
    /\ dream_running d'
       = match WakeRest.state c' with
         | WakeRest.RESTING => true
         | WakeRest.AWAKE => false
         | _ => dream_running d
         end
    /\ phase ctx = INTEGRATION
    /\ dict_get String.eqb (inputs ctx) "wake_rest_state"%string
       = Some (VStr (state_value (WakeRest.state c')))
    /\ dict_get String.eqb (inputs ctx) "cognitive_fatigue"%string
       = Some (VNum (WakeRest.cognitive_fatigue c'))
    /\ (dict_get String.eqb (outputs ctx) "consolidation_active"%string = Some (VBool true)
        <-> WakeRest.state c' = WakeRest.RESTING
            \/ WakeRest.state c' = WakeRest.DEEP_REST).
Proof.
  intros Hc Hd o'.
  set (c' := WakeRest.update (wake_rest r) 0.8 (coherence_level o) 0 false c).
  set (o1 := _check_wake_rest_state (wake_rest r) o).
  assert (Hc1 : wake_rest_controller o1 = Some c')
    by exact (check_wake_rest_controller _ _ c Hc).
  assert (Hd1 : exists d', echodream o1 = Some d'
                           /\ dream_running d'
                              = match WakeRest.state c' with
                                | WakeRest.RESTING => true
                                | WakeRest.AWAKE => false
                                | _ => dream_running d
                                end).
  { unfold o1, _check_wake_rest_state. rewrite Hc, Hd. fold (coherence_level o).
    fold c'. cbn [with_subsystems echodream].
    destruct (WakeRest.state c'); destruct (dream_running d) eqn:Er; cbn;
      eexists; (split; [reflexivity|]); cbn; congruence. }
  destruct Hd1 as (d' & Hd' & Hrun).
  destruct (cycle_context_reports r o1 c' d' Hc1 Hd') as (H1 & _ & H3 & H4 & H5 & _).
  exists c', d', (cycle_context r o1).
  split; [exact Hc1|]. split; [exact Hd'|]. split; [reflexivity|].
  split; [reflexivity|]. split; [exact Hrun|]. split; [exact H1|].
  split; [exact H3|]. split; [exact H4|exact H5].
Qed.

Example cycle_reports_updated_state_witness :
  exists c' d' ctx,
    wake_rest_controller (loop_iteration readings_at_0 full_orchestrator) = Some c'
    /\ echodream (loop_iteration readings_at_0 full_orchestrator) = Some d'
    /\ current_context (loop_iteration readings_at_0 full_orchestrator) = Some ctx
    /\ c' = WakeRest.update (wake_rest readings_at_0) 0.8
              (coherence_level full_orchestrator) 0 false (WakeRest.init 0)
    /\ dream_running d'
       = match WakeRest.state c' with
         | WakeRest.RESTING => true
         | WakeRest.AWAKE => false
         | _ => dream_running (mkEchoDream false)
         end
    /\ phase ctx = INTEGRATION
    /\ dict_get String.eqb (inputs ctx) "wake_rest_state"%string
       = Some (VStr (state_value (WakeRest.state c')))
    /\ dict_get String.eqb (inputs ctx) "cognitive_fatigue"%string
       = Some (VNum (WakeRest.cognitive_fatigue c'))
    /\ (dict_get String.eqb (outputs ctx) "consolidation_active"%string = Some (VBool true)
        <-> WakeRest.state c' = WakeRest.RESTING
            \/ WakeRest.state c' = WakeRest.DEEP_REST).
Proof.
  apply (cycle_reports_updated_state readings_at_0 full_orchestrator
           (WakeRest.init 0) (mkEchoDream false)); reflexivity.
Defined.

End OrchestratorExtFacts.

(** ** Consciousness loop *)

Module ConsciousnessFacts.
Import QOps QOpsFacts WisdomFacts Consciousness.
Open Scope Q_scope.

(** *** Thoughts *)

Lemma template_thought_nonempty choice t :
  _generate_template_thought choice t <> EmptyString.
Proof.
  unfold _generate_template_thought, random_choice.
  assert (H : (choice mod 4 < 4)%nat) by (apply Nat.mod_upper_bound; lia).
  destruct t; cbn [templates length];
    destruct (choice mod 4)%nat as [|[|[|[|k]]]]; try lia; cbn; discriminate.
Qed.

Lemma thought_content_is_template llm key choice t :
  _generate_thought_content llm key choice t = _generate_template_thought choice t.
Proof. unfold _generate_thought_content, _generate_llm_thought. now destruct llm, key. Qed.

Lemma generate_autonomous_thought_some i l :
  exists th,
    _generate_autonomous_thought i l = Some th
    /\ id th = ("thought_" ++ string_of_nat (thought_count l))%string
    /\ timestamp th = now i
    /\ thought_type th = _select_thought_type (type_draw i) l
    /\ content th <> EmptyString
    /\ emotional_tone th = _estimate_emotional_tone (thought_type th)
    /\ depth th = _estimate_depth (thought_type th).
Proof.
  unfold _generate_autonomous_thought. rewrite thought_content_is_template.
  pose proof (template_thought_nonempty (template_draw i)
                (_select_thought_type (type_draw i) l)) as Hne.
  destruct (_generate_template_thought (template_draw i)
              (_select_thought_type (type_draw i) l)) as [|a s] eqn:E;
    [congruence|].
  eexists. split; [reflexivity|]. cbn. repeat split. discriminate.
Qed.

Lemma estimates_in_range t :
  0.4 <= _estimate_depth t <= 0.9 /\ 0 <= _estimate_emotional_tone t <= 0.4.
Proof. destruct t; cbn; lra. Qed.

(** *** Metrics *)

Lemma append_capped_spec l x : append_capped l x = lastn 20 (l ++ [x]).
Proof.
  unfold append_capped. destruct (20 <? length (l ++ [x]))%nat eqn:E; [reflexivity|].
  apply Nat.ltb_ge in E. now rewrite lastn_all.
Qed.

Lemma append_capped_length l x :
  length (append_capped l x) = Nat.min 20 (S (length l)).
Proof.
  rewrite append_capped_spec, lastn_length, length_app. cbn [length]. lia.
Qed.

Lemma append_capped_In l x y : In y (append_capped l x) -> In y l \/ y = x.
Proof.
  rewrite append_capped_spec. intros H. apply lastn_incl in H.
  apply in_app_or in H as [H|[H|[]]]; [now left|now right].
Qed.

Lemma Qsum_between (a b : Q) (l : list Q) :
  (forall x, In x l -> a <= x <= b) -> a * Qlen l <= Qsum l <= b * Qlen l.
Proof.
  induction l as [|x l IH]; intros H.
  - unfold Qsum, Qlen; cbn [length fold_left map Z.of_nat].
    change (inject_Z 0) with 0. lra.
  - rewrite Qsum_cons, Qlen_cons.
    assert (Hx := H x (or_introl eq_refl)).
    assert (Hl : a * Qlen l <= Qsum l <= b * Qlen l)
      by (apply IH; intros y Hy; apply H; now right).
    lra.
Qed.

Lemma average_between (a b : Q) (l : list Q) :
  l <> [] -> (forall x, In x l -> a <= x <= b) -> a <= Qsum l / Qlen l <= b.
Proof.
  intros Hne H. destruct (Qsum_between a b l H) as [H1 H2].
  pose proof (Qlen_pos l Hne) as Hp. split.
  - apply Qle_shift_div_l; assumption.
  - apply Qle_shift_div_r; assumption.
Qed.

(** What the loop keeps true from one pass to the next. *)
Lemma update_metrics_keeps l :
  thoughts l <> [] ->
  (forall t, In t (thoughts l) -> 0.4 <= depth t <= 0.9) ->
  let l' := _update_metrics l in
  thoughts l' = thoughts l /\ thought_count l' = thought_count l
  /\ active_learning_goals l' = active_learning_goals l
  /\ recent_experiences l' = recent_experiences l
  /\ current_focus l' = current_focus l
  /\ length (average_depth l') = Nat.min 20 (S (length (average_depth l)))
  /\ (forall x, In x (average_depth l') ->
                In x (average_depth l) \/ 0.4 <= x <= 0.9)
  /\ (length (thoughts_per_minute l') <= Nat.max 20 (length (thoughts_per_minute l)))%nat
  /\ (forall x, In x (thoughts_per_minute l') ->
                In x (thoughts_per_minute l) \/ 0 < x).
Proof.
  intros Hne Hd l'. unfold l', _update_metrics.
  cbn [thoughts thought_count active_learning_goals recent_experiences current_focus
       average_depth thoughts_per_minute].
  do 5 (split; [reflexivity|]).
  assert (Hrecent : lastn 10 (thoughts l) <> []) by (apply lastn_nonempty; [lia|assumption]).
  split; [|split; [|split]].
  - destruct (thoughts l) eqn:E; [congruence|]. apply append_capped_length.
  - intros x Hx. destruct (thoughts l) eqn:E; [congruence|]. rewrite <- E in *.
    apply append_capped_In in Hx as [Hx|Hx]; [now left|]. right. subst x.
    apply average_between.
    + intros Hm. apply map_eq_nil in Hm. contradiction.
    + intros y Hy. apply in_map_iff in Hy as (t & <- & Ht).
      apply Hd. eapply lastn_incl; eauto.
  - destruct (2 <=? length (thoughts l))%nat; [|lia].
    destruct (lastn 10 (thoughts l)) as [|first rest]; [lia|].
    destruct (gtb _ 0); [|lia].
    rewrite append_capped_length. lia.
  - intros x Hx.
    destruct (2 <=? length (thoughts l))%nat eqn:E2; [|now left].
    apply Nat.leb_le in E2.
    assert (Hlen : length (lastn 10 (thoughts l)) = Nat.min 10 (length (thoughts l)))
      by apply lastn_length.
    destruct (lastn 10 (thoughts l)) as [|first rest]; [now left|].
    destruct (gtb (timestamp (last (first :: rest) first) - timestamp first) 0) eqn:Eg;
      [|now left].
    apply append_capped_In in Hx as [Hx|Hx]; [now left|]. right. subst x.
    apply gtb_true in Eg.
    apply Qlt_shift_div_l.
    + apply Qlt_shift_div_l; lra.
    + rewrite Qmult_0_l. change 0 with (inject_Z 0). rewrite <- Zlt_Qlt. lia.
Qed.

Lemma loop_iteration_step i l :
  thought_count l = length (thoughts l) ->
  (forall t, In t (thoughts l) -> 0.4 <= depth t <= 0.9) ->
  exists th,
    thoughts (loop_iteration i l) = thoughts l ++ [th]
    /\ thought_count (loop_iteration i l) = S (thought_count l)
    /\ id th = ("thought_" ++ string_of_nat (length (thoughts l)))%string
    /\ timestamp th = now i
    /\ thought_type th = _select_thought_type (type_draw i) l
    /\ content th <> EmptyString
    /\ emotional_tone th = _estimate_emotional_tone (thought_type th)
    /\ depth th = _estimate_depth (thought_type th)
    /\ active_learning_goals (loop_iteration i l) = active_learning_goals l
    /\ recent_experiences (loop_iteration i l) = recent_experiences l
    /\ length (average_depth (loop_iteration i l))
       = Nat.min 20 (S (length (average_depth l)))
    /\ (forall x, In x (average_depth (loop_iteration i l)) ->
                  In x (average_depth l) \/ 0.4 <= x <= 0.9)
    /\ (length (thoughts_per_minute (loop_iteration i l))
        <= Nat.max 20 (length (thoughts_per_minute l)))%nat
    /\ (forall x, In x (thoughts_per_minute (loop_iteration i l)) ->
                  In x (thoughts_per_minute l) \/ 0 < x).
Proof.
  intros Hc Hd.
  destruct (generate_autonomous_thought_some i l)
    as (th & Hg & Hid & Hts & Hty & Hco & Hto & Hde).
  unfold loop_iteration. rewrite Hg.
  set (l1 := {| running := running l;
                thoughts := thoughts l ++ [th];
                thought_count := S (thought_count l);
                current_focus := current_focus l;
                active_learning_goals := active_learning_goals l;
                recent_experiences := recent_experiences l;
                thoughts_per_minute := thoughts_per_minute l;
                average_depth := average_depth l |}).
  destruct (update_metrics_keeps l1)
    as (H1 & H2 & H3 & H4 & _ & H6 & H7 & H8 & H9).
  { cbn. intros E. now apply app_eq_nil in E as [_ E]. }
  { cbn. intros t Ht. apply in_app_or in Ht as [Ht|[<-|[]]]; [now apply Hd|].
    rewrite Hde. apply estimates_in_range. }
  exists th. rewrite H1, H2, H3, H4. cbn [l1 thoughts thought_count
    active_learning_goals recent_experiences].
  split; [reflexivity|]. split; [reflexivity|].
  split; [now rewrite Hid, Hc|].
  split; [exact Hts|]. split; [exact Hty|]. split; [exact Hco|].
  split; [exact Hto|]. split; [exact Hde|].
  split; [reflexivity|]. split; [reflexivity|].
  split; [exact H6|]. split; [exact H7|]. split; [exact H8|exact H9].
Qed.

Lemma run_keeps steps :
  forall l,
    thought_count l = length (thoughts l) ->
    (forall t, In t (thoughts l) -> 0.4 <= depth t <= 0.9) ->
    (length (average_depth l) <= 20)%nat ->
    let l' := run steps l in
    exists new,
      thoughts l' = thoughts l ++ new
      /\ length new = length steps
      /\ thought_count l' = length (thoughts l')
      /\ map id new
         = map (fun k => ("thought_" ++ string_of_nat k)%string)
               (seq (length (thoughts l)) (length steps))
      /\ map timestamp new = map now steps
      /\ (forall t, In t new ->
                    content t <> EmptyString
                    /\ depth t = _estimate_depth (thought_type t)
                    /\ emotional_tone t = _estimate_emotional_tone (thought_type t))
      /\ length (average_depth l')
         = Nat.min 20 (length (average_depth l) + length steps)
      /\ (forall x, In x (average_depth l') ->
                    In x (average_depth l) \/ 0.4 <= x <= 0.9)
      /\ (length (thoughts_per_minute l')
          <= Nat.max 20 (length (thoughts_per_minute l)))%nat
      /\ (forall x, In x (thoughts_per_minute l') ->
                    In x (thoughts_per_minute l) \/ 0 < x).
Proof.
  induction steps as [|i steps IH]; intros l Hc Hd Ha l'.
  - exists []. unfold l', run. cbn [fold_left length map seq].
    rewrite app_nil_r, Nat.add_0_r.
    split; [reflexivity|]. split; [reflexivity|]. split; [exact Hc|].
    split; [reflexivity|]. split; [reflexivity|]. split; [intros t []|].
    split; [lia|]. split; [intros x Hx; now left|]. split; [lia|].
    intros x Hx; now left.
  - destruct (loop_iteration_step i l Hc Hd)
      as (th & H1 & H2 & H3 & H4 & H5 & H6 & H7 & H8 & _ & _ & H11 & H12 & H13 & H14).
    destruct (IH (loop_iteration i l))
      as (new & G1 & G2 & G3 & G4 & G5 & G6 & G7 & G8 & G9 & G10).
    { rewrite H2, H1, length_app, Hc. cbn [length]. lia. }
    { intros t Ht. rewrite H1 in Ht. apply in_app_or in Ht as [Ht|Ht];
        [now apply Hd|]. destruct Ht as [<-|[]].
      rewrite H8. apply estimates_in_range. }
    { rewrite H11. lia. }
    exists (th :: new). unfold l'. unfold run. cbn [fold_left].
    change (fold_left (fun acc i0 => loop_iteration i0 acc) steps (loop_iteration i l))
      with (run steps (loop_iteration i l)).
    split; [now rewrite G1, H1, <- app_assoc|].
    split; [cbn [length]; now rewrite G2|].
    split; [exact G3|].
    split.
    { cbn [map length seq]. rewrite H3. f_equal.
      rewrite G4, H1, length_app. cbn [length]. now rewrite Nat.add_1_r. }
    split; [cbn [map]; now rewrite H4, G5|].
    split.
    { intros t [<-|Ht]; [|now apply G6]. split; [exact H6|]. split; [exact H8|exact H7]. }
    split; [rewrite G7, H11; cbn [length]; lia|].
    split.
    { intros x Hx. apply G8 in Hx as [Hx|Hx]; [now apply H12|now right]. }
    split; [lia|].
    intros x Hx. apply G10 in Hx as [Hx|Hx]; [now apply H14|now right].
Qed.

(** X28. Every pass of the consciousness loop produces a thought: the
    templates are never empty.  So after any number of passes on a fresh
    loop the thought list holds one thought per pass and is never cut,
    [thought_count] is its length, and the thoughts carry the ids
    thought_0, thought_1, ... in order.  Each thought has the depth and
    tone of its type, depth in [0.4,0.9] and tone in [0,0.4].  The two
    metric lists hold at most 20 entries, every averaged depth lies in
    [0.4,0.9], and every thoughts-per-minute entry is positive. *)
Theorem loop_keeps_thoughts_and_metrics steps :
  let l := run steps init in
  length (thoughts l) = length steps
  /\ thought_count l = length steps
  /\ map id (thoughts l)
     = map (fun k => ("thought_" ++ string_of_nat k)%string) (seq 0 (length steps))
  /\ map timestamp (thoughts l) = map now steps
  /\ (forall t, In t (thoughts l) ->
                content t <> EmptyString
                /\ depth t = _estimate_depth (thought_type t)
                /\ emotional_tone t = _estimate_emotional_tone (thought_type t)
                /\ thought_in_range t)
  /\ length (average_depth l) = Nat.min 20 (length steps)
  /\ (forall x, In x (average_depth l) -> 0.4 <= x <= 0.9)
  /\ (length (thoughts_per_minute l) <= 20)%nat
  /\ (forall x, In x (thoughts_per_minute l) -> 0 < x).
Proof.
  intros l.
  destruct (run_keeps steps init) as (new & G1 & G2 & G3 & G4 & G5 & G6 & G7 & G8 & G9 & G10).
  { reflexivity. }
  { intros t []. }
  { cbn. lia. }
  fold l in G1, G3, G7, G8, G9, G10. cbn [init thoughts app length average_depth
    thoughts_per_minute Nat.add Nat.max] in G1, G4, G7, G8, G9, G10.
  rewrite G1. split; [exact G2|]. split; [now rewrite G3, G1|].
  split; [exact G4|]. split; [exact G5|]. split.
  { intros t Ht. destruct (G6 t Ht) as (Hc & Hd & He).
    repeat split; try assumption; unfold thought_in_range;
      rewrite ?Hd, ?He; apply estimates_in_range. }
  split; [exact G7|]. split.
  { intros x Hx. destruct (G8 x Hx) as [[]|H]. exact H. }
  split; [exact G9|].
  intros x Hx. destruct (G10 x Hx) as [[]|H]. exact H.
Qed.

(** *** Choosing a thought type *)






(** *** Pacing *)

(** X30. The pause before the next thought is the drawn interval,
    stretched by the controller's state: doubled exactly when the
    orchestrator itself sleeps 5 seconds between cycles (RESTING or
    DEEP_REST), one and a half times as long when DROWSY, unchanged
    otherwise or without a controller.  With the draw between 5 and 15
    seconds the pause lies between 5 and 30 seconds and is never shorter
    than the draw. *)
Theorem thought_interval_follows_rest base o :
  thought_interval_min <= base <= thought_interval_max ->
  let interval := _calculate_thought_interval base o in
  base <= interval /\ interval <= base * 2
  /\ 5 <= interval <= 30
  /\ (forall orch, o = Some orch ->
        (Orchestrator.sleep_seconds orch == 5 <-> interval == base * 2)
        /\ (forall w, Orchestrator.wake_rest_controller orch = Some w ->
                      WakeRest.state w = WakeRest.DROWSY -> interval = base * 1.5)
        /\ (Orchestrator.wake_rest_controller orch = None -> interval = base))
  /\ (o = None -> interval = base).
Proof.
  intros [Hmin Hmax] interval. unfold interval, _calculate_thought_interval.
  unfold thought_interval_min in Hmin. unfold thought_interval_max in Hmax.
  destruct o as [orch|].
  2:{ split; [lra|]. split; [lra|]. split; [lra|].
      split; [intros orch H; discriminate|reflexivity]. }
  destruct (Orchestrator.wake_rest_controller orch) as [w|] eqn:Ew.
  - destruct (WakeRest.state w) eqn:Es;
      (split; [lra|]); (split; [lra|]); (split; [lra|]);
      (split; [|intros H; discriminate]);
      intros orch' Ho; injection Ho as <-;
      unfold Orchestrator.sleep_seconds; rewrite Ew, Es;
      (split; [|split; [|intros H; discriminate]]).
    + split; intros H; [vm_compute in H; discriminate|lra].
    + intros w' Hw' Hs'. injection Hw' as <-. congruence.
    + split; intros H; [vm_compute in H; discriminate|lra].
    + intros w' Hw' Hs'. reflexivity.
    + split; intros H; reflexivity.
    + intros w' Hw' Hs'. injection Hw' as <-. congruence.
    + split; intros H; reflexivity.
    + intros w' Hw' Hs'. injection Hw' as <-. congruence.
    + split; intros H; [vm_compute in H; discriminate|lra].
    + intros w' Hw' Hs'. injection Hw' as <-. congruence.
  - split; [lra|]. split; [lra|]. split; [lra|].
    split; [|intros H; discriminate].
    intros orch' Ho. injection Ho as <-.
    unfold Orchestrator.sleep_seconds. rewrite Ew.
    split; [|split; [intros w' Hw'; discriminate|reflexivity]].
    split; intros H; [vm_compute in H; discriminate|lra].
Qed.

Example thought_interval_follows_rest_witness :
  let interval :=
    _calculate_thought_interval 10 (Some OrchestratorExt.full_orchestrator) in
  10 <= interval /\ interval <= 10 * 2
  /\ 5 <= interval <= 30
  /\ (forall orch, Some OrchestratorExt.full_orchestrator = Some orch ->
        (Orchestrator.sleep_seconds orch == 5 <-> interval == 10 * 2)
        /\ (forall w, Orchestrator.wake_rest_controller orch = Some w ->
                      WakeRest.state w = WakeRest.DROWSY -> interval = 10 * 1.5)
        /\ (Orchestrator.wake_rest_controller orch = None -> interval = 10))
  /\ (Some OrchestratorExt.full_orchestrator = None -> interval = 10).
Proof.
  apply (thought_interval_follows_rest 10 (Some OrchestratorExt.full_orchestrator)).
  unfold thought_interval_min, thought_interval_max. split; lra.
Defined.

End ConsciousnessFacts.
